(** * NaviGPT project-manifest scripts: a shallow embedding and its properties

    The repository ships five stand-alone Python scripts that edit the text
    of [NaviGPT.xcodeproj/project.pbxproj]:

    - [add_phase_files_to_xcode.py] and [add_phase3_files_to_xcode.py]
      register lists of Swift files (the "register" operation);
    - [add_to_xcode.py] registers the single file [NaviGPTCore.swift];
    - [remove_refs.py] deletes every line mentioning [NaviGPTCore.swift]
      (the "unregister" operation);
    - [fix_path.py] rewrites the manifest after a self-replacement.

    A Python [str] is modelled as the list of its Unicode code points, with
    the index conventions of the language ([find] and [rfind] return [-1]
    when nothing is found, a negative index of a slice counts from the end).
    The project file is modelled as the text that [f.read()] returns and
    [f.write()] receives in text mode; decoding and the translation of line
    ends happen below that level. [print] appends to a list of printed
    messages, and [uuid.uuid4()] draws from a sequence of 128-bit random
    values. A script run is an [outcome]: the text written (if the write is
    reached), the messages printed and the exit status.

    The first part of the file holds the definitions, the second part the
    lemmas and the theorems on the claims, the third part further
    properties of the scripts, X1 to X21, and the last part the theorems on
    the claims C2, C5 and C8, which rest on lemmas of the third part. *)

From Stdlib Require Import ZArith NArith Lia List Sorted String Ascii DecimalString.
From stdpp Require Import base list gmap.

Abbreviation char := N.
Abbreviation str := (list N).

(** ** Python string primitives *)
Module Py.

Definition NL : char := 10%N.
Definition TAB : char := 9%N.
Definition DQUOTE : char := 34%N.

(** Decoder for source literals: a literal of this file is a sequence of
    UTF-8 bytes, a Python literal is a sequence of code points. *)
Fixpoint utf8_decode (bs : list N) (pending : nat) (acc : N) : str :=
  match bs with
  | [] => []
  | b :: bs' =>
    match pending with
    | S k =>
      let acc' := (acc * 64 + b mod 64)%N in
      match k with
      | O => acc' :: utf8_decode bs' 0 0%N
      | S _ => utf8_decode bs' k acc'
      end
    | O =>
      if (b <? 128)%N then b :: utf8_decode bs' 0 0%N
      else if (b <? 224)%N then utf8_decode bs' 1 (b mod 32)%N
      else if (b <? 240)%N then utf8_decode bs' 2 (b mod 16)%N
      else utf8_decode bs' 3 (b mod 8)%N
    end
  end.

Definition lit (s : string) : str :=
  utf8_decode (map N_of_ascii (list_ascii_of_string s)) 0 0%N.

Definition len (s : str) : Z := Z.of_nat (length s).

(** Index adjustment shared by slicing, [find] and [rfind]: a negative index
    counts from the end and is clamped at 0. *)
Definition adjust (k : Z) (s : str) : Z :=
  if (k <? 0)%Z then Z.max 0 (k + len s) else k.

(** [s[:k]] and [s[k:]] *)
Definition slice_to (k : Z) (s : str) : str := take (Z.to_nat (adjust k s)) s.
Definition slice_from (k : Z) (s : str) : str := drop (Z.to_nat (adjust k s)) s.

(** [s.startswith(sub)] *)
Fixpoint starts_with (sub s : str) : bool :=
  match sub, s with
  | [], _ => true
  | _ :: _, [] => false
  | a :: sub', b :: s' => (a =? b)%N && starts_with sub' s'
  end.

Fixpoint find_at (sub s : str) (i : Z) : Z :=
  if starts_with sub s then i
  else match s with
       | [] => (-1)%Z
       | _ :: s' => find_at sub s' (i + 1)%Z
       end.

(** [s.find(sub, start)]: lowest index [>= start] at which [sub] occurs,
    [-1] when there is none. *)
Definition find (sub s : str) (start : Z) : Z :=
  let st := adjust start s in
  if (len s <? st)%Z then (-1)%Z
  else find_at sub (drop (Z.to_nat st) s) st.

Fixpoint rfind_at (sub s : str) (i lo hi best : Z) : Z :=
  let best' :=
    if starts_with sub s && (lo <=? i)%Z && (i + len sub <=? hi)%Z
    then i else best in
  match s with
  | [] => best'
  | _ :: s' => rfind_at sub s' (i + 1)%Z lo hi best'
  end.

(** [s.rfind(sub, start, end)]: highest index at which [sub] occurs inside
    [s[start:end]], [-1] when there is none. *)
Definition rfind (sub s : str) (start end_ : Z) : Z :=
  rfind_at sub s 0%Z (adjust start s) (Z.min (adjust end_ s) (len s)) (-1)%Z.

(** [sub in s] *)
Definition contains (sub s : str) : bool := negb (find sub s 0 =? -1)%Z.

(** [s.split(sep)] for a one-character separator, the only use in the
    scripts. *)
Fixpoint split (sep : char) (s : str) : list str :=
  match s with
  | [] => [[]]
  | c :: s' =>
    if (c =? sep)%N then [] :: split sep s'
    else match split sep s' with
         | l :: ls => (c :: l) :: ls
         | [] => [[c]]
         end
  end.

(** [sep.join(ls)] *)
Fixpoint join (sep : str) (ls : list str) : str :=
  match ls with
  | [] => []
  | [l] => l
  | l :: ls' => l ++ sep ++ join sep ls'
  end.

(** [s.replace(old, new)]: all non-overlapping occurrences, left to right.
    [skip] counts the characters of a replaced occurrence still to drop. *)
Fixpoint replace_go (old new s : str) (skip : nat) : str :=
  match s with
  | [] => []
  | c :: s' =>
    match skip with
    | S k => replace_go old new s' k
    | O =>
      if starts_with old s then new ++ replace_go old new s' (length old - 1)
      else c :: replace_go old new s' 0
    end
  end.

Definition replace (old new s : str) : str :=
  match old with
  | [] => new ++ flat_map (fun c => c :: new) s
  | _ :: _ => replace_go old new s 0
  end.

(** [s.upper()] on the ASCII letters; the scripts apply it to hexadecimal
    digits only. *)
Definition upper_char (c : char) : char :=
  if (97 <=? c)%N && (c <=? 122)%N then (c - 32)%N else c.
Definition upper (s : str) : str := map upper_char s.

(** [s * n] *)
Definition times (s : str) (n : nat) : str := concat (replicate n s).

(** [content[:pos] + text + content[pos:]], the splice every insertion of
    the scripts performs. *)
Definition splice (pos : Z) (text s : str) : str :=
  slice_to pos s ++ text ++ slice_from pos s.

End Py.

Import Py.
Arguments lit : simpl never.

(** ** [uuid.uuid4()] and the identifier generator

    [uuid4] follows the standard library: sixteen random bytes read as a
    big-endian integer, with the variant and version bits forced. *)
Module Uuid.

Definition uuid4 (random : N) : N :=
  let int := (random mod 2 ^ 128)%N in
  let int := N.ldiff int (N.shiftl 0xc000 48) in
  let int := N.lor int (N.shiftl 0x8000 48) in
  let int := N.ldiff int (N.shiftl 0xf000 64) in
  N.lor int (N.shiftl 4 76).

Definition hex_digit (d : N) : char :=
  if (d <? 10)%N then (48 + d)%N else (87 + d)%N.

(** ['%0<width>x' % n] *)
Fixpoint hex (width : nat) (n : N) : str :=
  match width with
  | O => []
  | S w => hex w (n / 16)%N ++ [hex_digit (n mod 16)%N]
  end.

(** [str(u)]: the 8-4-4-4-12 form. *)
Definition to_str (int : N) : str :=
  let h := hex 32 int in
  take 8 h ++ lit "-" ++ take 4 (drop 8 h) ++ lit "-" ++ take 4 (drop 12 h)
    ++ lit "-" ++ take 4 (drop 16 h) ++ lit "-" ++ drop 20 h.

End Uuid.

(** [generate_uuid()]: 24 upper-case hexadecimal characters. [random] is the
    value [os.urandom(16)] returned to [uuid4]. *)
Definition generate_uuid (random : N) : str :=
  upper (slice_to 24 (replace (lit "-") [] (Uuid.to_str (Uuid.uuid4 random)))).

(** ** The text of the four records of a registration *)

Definition new_build_file (build_file_uuid file_ref_uuid file_name : str) : str :=
  [TAB; TAB] ++ build_file_uuid ++ lit " /* " ++ file_name
    ++ lit " in Sources */ = {isa = PBXBuildFile; fileRef = " ++ file_ref_uuid
    ++ lit " /* " ++ file_name ++ lit " */; };" ++ [NL].

Definition new_file_ref (file_ref_uuid file_name : str) : str :=
  [TAB; TAB] ++ file_ref_uuid ++ lit " /* " ++ file_name
    ++ lit " */ = {isa = PBXFileReference; lastKnownFileType = sourcecode.swift; path = "
    ++ file_name ++ lit "; sourceTree = " ++ [DQUOTE] ++ lit "<group>" ++ [DQUOTE]
    ++ lit "; };" ++ [NL].

Definition new_child (file_ref_uuid file_name : str) : str :=
  [TAB; TAB; TAB; TAB] ++ file_ref_uuid ++ lit " /* " ++ file_name ++ lit " */,"
    ++ [NL; TAB; TAB; TAB].

Definition new_source (build_file_uuid file_name : str) : str :=
  [TAB; TAB; TAB; TAB] ++ build_file_uuid ++ lit " /* " ++ file_name
    ++ lit " in Sources */," ++ [NL; TAB; TAB; TAB].

(** ** The sub-insertions, one per commented block of the scripts *)

(** "Add to PBXBuildFile section" (no check of either lookup). *)
Definition add_to_PBXBuildFile_section
    (build_file_uuid file_ref_uuid file_name content : str) : str :=
  let pbx_build_file_section := find (lit "/* Begin PBXBuildFile section */") content 0 in
  let insert_pos := (find [NL] content pbx_build_file_section + 1)%Z in
  splice insert_pos (new_build_file build_file_uuid file_ref_uuid file_name) content.

(** "Add to PBXFileReference section" (no check of either lookup). *)
Definition add_to_PBXFileReference_section
    (file_ref_uuid file_name content : str) : str :=
  let file_ref_section := find (lit "/* Begin PBXFileReference section */") content 0 in
  let insert_pos := (find [NL] content file_ref_section + 1)%Z in
  splice insert_pos (new_file_ref file_ref_uuid file_name) content.

(** "Add to NaviGPT group's children array": the children list opened last
    before the first [ContentView.swift]. *)
Definition add_to_NaviGPT_group (file_ref_uuid file_name content : str) : str :=
  let content_view_pos := find (lit "ContentView.swift") content 0 in
  if negb (content_view_pos =? -1)%Z then
    let search_start := rfind (lit "children = (") content 0 content_view_pos in
    if negb (search_start =? -1)%Z then
      let children_end := find (lit ");") content search_start in
      splice children_end (new_child file_ref_uuid file_name) content
    else content
  else content.

(** "Add to NaviGPT/Services group's children array", with the fall back to
    the main NaviGPT group. *)
Definition add_to_Services_group (file_ref_uuid file_name content : str) : str :=
  let services_group_marker := find (lit "/* Services */") content 0 in
  if negb (services_group_marker =? -1)%Z then
    let search_start :=
      rfind (lit "children = (") content 0 (services_group_marker + 100)%Z in
    if negb (search_start =? -1)%Z then
      let children_end := find (lit ");") content search_start in
      splice children_end (new_child file_ref_uuid file_name) content
    else content
  else
    add_to_NaviGPT_group file_ref_uuid file_name content.

(** "Add to Intern1Tests group". *)
Definition add_to_Intern1Tests_group (file_ref_uuid file_name content : str) : str :=
  let intern1tests_pos :=
    find (lit "E1F569E22C501D8A0010BF96 /* Intern1Tests */") content 0 in
  if negb (intern1tests_pos =? -1)%Z then
    let children_start := find (lit "children = (") content intern1tests_pos in
    let children_end := find (lit ");") content children_start in
    splice children_end (new_child file_ref_uuid file_name) content
  else content.

(** "Add to ... target's PBXSourcesBuildPhase": the files list after the
    marker of the target's Sources phase. *)
Definition add_to_PBXSourcesBuildPhase
    (target_marker build_file_uuid file_name content : str) : str :=
  let target := find target_marker content 0 in
  if negb (target =? -1)%Z then
    let files_start := find (lit "files = (") content target in
    let files_end := find (lit ");") content files_start in
    splice files_end (new_source build_file_uuid file_name) content
  else content.

Definition navigpt_sources : str := lit "E1F569CB2C501D880010BF96 /* Sources */".
Definition navigpttests_sources : str := lit "E1F569DB2C501D8A0010BF96 /* Sources */".

(** ** Interpreter state of [add_files_to_project] *)

Record env := Env {
  content : str;
  file_uuids : gmap str (str * str * str);
  stdout : list str;
  draws : nat   (* calls of [os.urandom] so far *)
}.

Definition print (msg : str) (e : env) : env :=
  Env (content e) (file_uuids e) (stdout e ++ [msg]) (draws e).

(** What one script run leaves behind. *)
Record outcome := Outcome {
  written : option str;   (* the text passed to [f.write], if it was reached *)
  printed : list str;
  exit_code : Z
}.

Definition file_after (before : option str) (o : outcome) : option str :=
  match written o with
  | Some text => Some text
  | None => before
  end.

Definition skip_msg (file_name : str) : str :=
  lit "  ⚠️  " ++ file_name ++ lit " already in project, skipping...".
Definition added_msg (file_name : str) : str := lit "  ✅ Added " ++ file_name.
Definition processing_msg (file_name : str) : str := lit "Processing: " ++ file_name.

Definition trailer (title : str) (groups : list (str * list (str * str))) : list str :=
  [[NL] ++ times (lit "=") 50; title; times (lit "=") 50]
    ++ flat_map (fun g => ([NL] ++ fst g) :: map (fun f => lit "  • " ++ snd f) (snd g)) groups
    ++ [[NL] ++ lit "⚠️  You may need to:";
        lit "  1. Clean the build folder in Xcode (Shift+Cmd+K)";
        lit "  2. Rebuild the project (Cmd+B)";
        lit "  3. Verify files appear in Project Navigator"].

(** ** [add_phase_files_to_xcode.py] *)
Module AddPhaseFiles.

Definition main_target_files : list (str * str) :=
  [ (lit "NaviGPT/ConfigManager.swift", lit "ConfigManager.swift");
    (lit "NaviGPT/NaviGPTCore.swift", lit "NaviGPTCore.swift");
    (lit "NaviGPT/Models/ModelTypes.swift", lit "ModelTypes.swift");
    (lit "NaviGPT/Models/NavigationContext.swift", lit "NavigationContext.swift");
    (lit "NaviGPT/Models/ObstacleInfo.swift", lit "ObstacleInfo.swift");
    (lit "NaviGPT/Models/VisionModels.swift", lit "VisionModels.swift");
    (lit "NaviGPT/Services/CoreMLModelManager.swift", lit "CoreMLModelManager.swift");
    (lit "NaviGPT/Services/VisionModelProcessor.swift", lit "VisionModelProcessor.swift");
    (lit "NaviGPT/Services/DepthEstimationProcessor.swift", lit "DepthEstimationProcessor.swift") ].

Definition test_target_files : list (str * str) :=
  [ (lit "NaviGPT/Tests/ConfigManagerTests.swift", lit "ConfigManagerTests.swift");
    (lit "NaviGPT/Tests/ObstacleInfoTests.swift", lit "ObstacleInfoTests.swift");
    (lit "Intern1Tests/Phase2Tests.swift", lit "Phase2Tests.swift") ].

Section Run.
(** [os_urandom n] is the value of the [n]-th call of [os.urandom(16)] in
    this process; [project_file] is the path printed in the messages. *)
Variable os_urandom : nat -> N.
Variable project_file : str.

(** Body of the loop over [main_target_files]. *)
Definition add_main_target_file (e : env) (f : str * str) : env :=
  let file_path := fst f in
  let file_name := snd f in
  let e := print (processing_msg file_name) e in
  if contains file_name (content e) then
    print (skip_msg file_name) e
  else
    let file_ref_uuid := generate_uuid (os_urandom (draws e)) in
    let build_file_uuid := generate_uuid (os_urandom (S (draws e))) in
    let file_uuids :=
      <[file_name := (file_ref_uuid, build_file_uuid, file_path)]> (file_uuids e) in
    let content :=
      add_to_PBXBuildFile_section build_file_uuid file_ref_uuid file_name (content e) in
    let path_only := replace (lit "NaviGPT/") [] file_path in
    let content := add_to_PBXFileReference_section file_ref_uuid file_name content in
    let content := add_to_NaviGPT_group file_ref_uuid file_name content in
    let content :=
      add_to_PBXSourcesBuildPhase navigpt_sources build_file_uuid file_name content in
    print (added_msg file_name) (Env content file_uuids (stdout e) (S (S (draws e)))).

(** Body of the loop over [test_target_files]. *)
Definition add_test_target_file (e : env) (f : str * str) : env :=
  let file_path := fst f in
  let file_name := snd f in
  let e := print (processing_msg file_name) e in
  if contains file_name (content e) then
    print (skip_msg file_name) e
  else
    let file_ref_uuid := generate_uuid (os_urandom (draws e)) in
    let build_file_uuid := generate_uuid (os_urandom (S (draws e))) in
    let content :=
      add_to_PBXBuildFile_section build_file_uuid file_ref_uuid file_name (content e) in
    let content := add_to_PBXFileReference_section file_ref_uuid file_name content in
    let content :=
      if contains (lit "Phase2Tests") file_name
      then add_to_Intern1Tests_group file_ref_uuid file_name content
      else add_to_NaviGPT_group file_ref_uuid file_name content in
    let content :=
      add_to_PBXSourcesBuildPhase navigpttests_sources build_file_uuid file_name content in
    print (added_msg file_name) (Env content (file_uuids e) (stdout e) (S (S (draws e)))).

(** The two loops of [add_files_to_project]. *)
Definition process_files (e : env) : env :=
  let e := print ([NL] ++ lit "=== Adding Main Target Files ===") e in
  let e := fold_left add_main_target_file main_target_files e in
  let e := print ([NL] ++ lit "=== Adding Test Target Files ===") e in
  fold_left add_test_target_file test_target_files e.

(** The state once the project file is read: its text in [content], nothing
    drawn yet. *)
Definition loaded (on_disk : str) (console : list str) : env :=
  Env on_disk ∅ (console ++ [lit "Reading project file: " ++ project_file]) 0.

(** [add_files_to_project()], started on the text [on_disk] of the project
    file: the text written back, the console and the returned value. *)
Definition add_files_to_project (on_disk : str) (console : list str)
    : str * list str * bool :=
  let e := loaded on_disk console in
  let e := process_files e in
  let e := print ([NL] ++ lit "Writing updated project file...") e in
  (content e,
   stdout e ++ trailer (lit "✅ Successfully added all Phase 1 & 2 files!")
     [(lit "Files added to NaviGPT target:", main_target_files);
      (lit "Files added to NaviGPTTests target:", test_target_files)],
   true).

(** The [__main__] block; [disk] is [None] when the project file is absent. *)
Definition banner : list str :=
  [times (lit "=") 50; lit "Adding Phase 1 & 2 Files to Xcode Project"; times (lit "=") 50].

Definition main (disk : option str) : outcome :=
  let console := banner in
  match disk with
  | None =>
    Outcome None
      (console ++ [[NL] ++ lit "❌ Error: Project file not found at " ++ project_file]) 1
  | Some on_disk =>
    let r := add_files_to_project on_disk console in
    if snd r then Outcome (Some (fst (fst r))) (snd (fst r)) 0
    else Outcome (Some (fst (fst r)))
           (snd (fst r) ++ [[NL] ++ lit "❌ Failed to add files"]) 1
  end.

End Run.
End AddPhaseFiles.

(** ** [add_phase3_files_to_xcode.py] *)
Module AddPhase3Files.

Definition main_target_files : list (str * str) :=
  [ (lit "NaviGPT/Services/RealTimeCameraProcessor.swift", lit "RealTimeCameraProcessor.swift");
    (lit "NaviGPT/Services/EnhancedLiDARProcessor.swift", lit "EnhancedLiDARProcessor.swift") ].

Section Run.
Variable os_urandom : nat -> N.
Variable project_file : str.

(** Body of the loop over [main_target_files]. *)
Definition add_main_target_file (e : env) (f : str * str) : env :=
  let file_path := fst f in
  let file_name := snd f in
  let e := print (processing_msg file_name) e in
  if contains file_name (content e) then
    print (skip_msg file_name) e
  else
    let file_ref_uuid := generate_uuid (os_urandom (draws e)) in
    let build_file_uuid := generate_uuid (os_urandom (S (draws e))) in
    let file_uuids :=
      <[file_name := (file_ref_uuid, build_file_uuid, file_path)]> (file_uuids e) in
    let content :=
      add_to_PBXBuildFile_section build_file_uuid file_ref_uuid file_name (content e) in
    let content := add_to_PBXFileReference_section file_ref_uuid file_name content in
    let content := add_to_Services_group file_ref_uuid file_name content in
    let content :=
      add_to_PBXSourcesBuildPhase navigpt_sources build_file_uuid file_name content in
    print (added_msg file_name) (Env content file_uuids (stdout e) (S (S (draws e)))).

Definition process_files (e : env) : env :=
  let e := print ([NL] ++ lit "=== Adding Phase 3 Files ===") e in
  fold_left add_main_target_file main_target_files e.

(** The state once the project file is read: its text in [content], nothing
    drawn yet. *)
Definition loaded (on_disk : str) (console : list str) : env :=
  Env on_disk ∅ (console ++ [lit "Reading project file: " ++ project_file]) 0.

Definition add_files_to_project (on_disk : str) (console : list str)
    : str * list str * bool :=
  let e := loaded on_disk console in
  let e := process_files e in
  let e := print ([NL] ++ lit "Writing updated project file...") e in
  (content e,
   stdout e ++ trailer (lit "✅ Successfully added all Phase 3 files!")
     [(lit "Files added to NaviGPT target:", main_target_files)],
   true).

Definition banner : list str :=
  [times (lit "=") 50; lit "Adding Phase 3 Files to Xcode Project"; times (lit "=") 50].

Definition main (disk : option str) : outcome :=
  let console := banner in
  match disk with
  | None =>
    Outcome None
      (console ++ [[NL] ++ lit "❌ Error: Project file not found at " ++ project_file]) 1
  | Some on_disk =>
    let r := add_files_to_project on_disk console in
    if snd r then Outcome (Some (fst (fst r))) (snd (fst r)) 0
    else Outcome (Some (fst (fst r)))
           (snd (fst r) ++ [[NL] ++ lit "❌ Failed to add files"]) 1
  end.

End Run.
End AddPhase3Files.

(** ** [add_to_xcode.py] *)
Module AddToXcode.

Definition file_name : str := lit "NaviGPTCore.swift".

Section Run.
Variable os_urandom : nat -> N.

(** [add_file_manually()]: the text written back (if the write is reached),
    the console and the returned value. The f-strings of this script are the
    record templates above with [NaviGPTCore.swift] spelled out. *)
Definition add_file_manually (on_disk : str) (console : list str)
    : option str * list str * bool :=
  let content := on_disk in
  let file_ref_uuid := generate_uuid (os_urandom 0) in
  let build_file_uuid := generate_uuid (os_urandom 1) in
  let pbx_build_file_section := find (lit "/* Begin PBXBuildFile section */") content 0 in
  if (pbx_build_file_section =? -1)%Z then
    (None, console ++ [lit "Error: Could not find PBXBuildFile section"], false)
  else
    let insert_pos := (find [NL] content pbx_build_file_section + 1)%Z in
    let content :=
      splice insert_pos (new_build_file build_file_uuid file_ref_uuid file_name) content in
    let file_ref_section := find (lit "/* Begin PBXFileReference section */") content 0 in
    if (file_ref_section =? -1)%Z then
      (None, console ++ [lit "Error: Could not find PBXFileReference section"], false)
    else
      let insert_pos := (find [NL] content file_ref_section + 1)%Z in
      let content := splice insert_pos (new_file_ref file_ref_uuid file_name) content in
      let content := add_to_NaviGPT_group file_ref_uuid file_name content in
      let sources_phase := find (lit "/* Sources */ = {") content 0 in
      let content :=
        if negb (sources_phase =? -1)%Z then
          let files_start := find (lit "files = (") content sources_phase in
          if negb (files_start =? -1)%Z then
            let files_end := find (lit ");") content files_start in
            splice files_end (new_source build_file_uuid file_name) content
          else content
        else content in
      (Some content,
       console ++ [lit "Successfully added NaviGPTCore.swift to project";
                   lit "  File Reference UUID: " ++ file_ref_uuid;
                   lit "  Build File UUID: " ++ build_file_uuid],
       true).

(** The [__main__] block. Opening an absent file raises; the process then
    ends with status 1 before anything is written. *)
Definition main (disk : option str) : outcome :=
  let console := [lit "Adding NaviGPTCore.swift to Xcode project..."] in
  match disk with
  | None => Outcome None console 1
  | Some on_disk =>
    let r := add_file_manually on_disk console in
    if snd r then
      Outcome (fst (fst r))
        (snd (fst r) ++ [[NL] ++ lit "✅ File added successfully!";
                         lit "You may need to clean and rebuild the project in Xcode."]) 0
    else Outcome (fst (fst r)) (snd (fst r) ++ [[NL] ++ lit "❌ Failed to add file"]) 1
  end.

End Run.
End AddToXcode.

(** [str(i)] for a natural number. *)
Definition str_of_nat (i : nat) : str := lit (NilEmpty.string_of_uint (Nat.to_uint i)).

(** ** [fix_path.py] *)
Module FixPath.

(** The text the script writes, for the text it read. *)
Definition fixed (on_disk : str) : str :=
  replace (lit "path = NaviGPTCore.swift;") (lit "path = NaviGPTCore.swift;") on_disk.

(** The messages of the scan over the lines. *)
Definition report (content : str) : list str :=
  if contains (lit "NaviGPTCore.swift") content then
    lit "Found NaviGPTCore.swift references in project file"
    :: flat_map
         (fun il => if contains (lit "NaviGPTCore.swift") (snd il)
                    then [lit "Line " ++ str_of_nat (fst il) ++ lit ": " ++ snd il]
                    else [])
         (imap (fun i line => (i, line)) (split NL content))
  else [].

(** The module body. *)
Definition main (disk : option str) : outcome :=
  match disk with
  | None => Outcome None [] 1
  | Some on_disk =>
    let content := fixed on_disk in
    Outcome (Some content) (report content ++ [lit "Project file checked/updated"]) 0
  end.

End FixPath.

(** ** [remove_refs.py] *)
Module RemoveRefs.

(** The loop of the script for the display name [name]: the lines of
    [content] that do not contain it. *)
Definition new_lines (name content : str) : list str :=
  filter (fun line => negb (contains name line) = true) (split NL content).

(** The text written back. *)
Definition unregister (name content : str) : str := join [NL] (new_lines name content).

(** The module body, whose display name is fixed. *)
Definition main (disk : option str) : outcome :=
  match disk with
  | None => Outcome None [] 1
  | Some on_disk =>
    Outcome (Some (unregister (lit "NaviGPTCore.swift") on_disk))
      [lit "✅ Removed NaviGPTCore.swift references from project"] 0
  end.

End RemoveRefs.

(** ** Notions used in the statements *)

(** [sub] occurs in [s] (the meaning of [sub in s]). *)
Definition occurs (sub s : str) : Prop := exists a b : str, s = a ++ sub ++ b.

(** [s'] is [s] with one piece of text inserted, nothing else touched. *)
Inductive insertion : str -> str -> Prop :=
| insertion_at (a x b : str) : insertion (a ++ b) (a ++ x ++ b).

(** Any number of insertions, one after the other. *)
Definition insertions : str -> str -> Prop := rtc insertion.

Definition RPAREN : char := 41%N.
Definition LETTER_t : char := 116%N.
Definition LETTER_f : char := 102%N.

(** A place of a text, between [a] and [b], where the scripts insert: the
    very start, the very end, just after a line break, just before a closing
    parenthesis, or just before the last character (where a slice at [-1]
    cuts). *)
Definition cut (a b : str) : Prop :=
  a = [] \/ b = [] \/ last a = Some NL \/ head b = Some RPAREN \/ exists c, b = [c].

(** One insertion of the scripts: text ending in a line break or a tab, put
    at such a place. *)
Inductive edit : str -> str -> Prop :=
| edit_at (a x b : str) :
    cut a b -> (last x = Some NL \/ last x = Some TAB) ->
    edit (a ++ b) (a ++ x ++ b).

(** A display name without line break, tab or closing parenthesis. *)
Definition plain_name (n : str) : bool :=
  forallb (fun c => negb (c =? NL)%N && negb (c =? TAB)%N && negb (c =? RPAREN)%N) n.

(** A plain display name that ends with the character [t]. *)
Definition good (t : char) (n : str) : Prop := plain_name n = true /\ last n = Some t.

(** The shape shared by the three loop bodies: a request whose display name
    occurs is skipped with its message, any other request draws two
    identifiers, inserts its build-file record and goes on with further
    edits. *)
Definition registers (body : env -> str * str -> env) : Prop :=
  forall (e : env) (f : str * str),
    (contains (snd f) (content e) = true
     /\ content (body e f) = content e
     /\ file_uuids (body e f) = file_uuids e
     /\ draws (body e f) = draws e
     /\ stdout (body e f) = stdout e ++ [processing_msg (snd f); skip_msg (snd f)])
    \/ (contains (snd f) (content e) = false
        /\ draws (body e f) = S (S (draws e))
        /\ stdout (body e f) = stdout e ++ [processing_msg (snd f); added_msg (snd f)]
        /\ exists b r : str,
             plain_name b = true /\ plain_name r = true
             /\ rtc edit (add_to_PBXFileReference_section r (snd f)
                            (add_to_PBXBuildFile_section b r (snd f) (content e)))
                         (content (body e f))).

(** The loop body [body] took the request [f] for a duplicate in state [e]:
    nothing is inserted or drawn, and the skip is reported. *)
Definition skipped (body : env -> str * str -> env) (e : env) (f : str * str) : Prop :=
  content (body e f) = content e
  /\ file_uuids (body e f) = file_uuids e
  /\ draws (body e f) = draws e
  /\ stdout (body e f) = stdout e ++ [processing_msg (snd f); skip_msg (snd f)].

(** The records of a registration as they stand in the manifest: the two
    entries are the inserted lines without their line break, the two
    memberships are the identifier with its comment and comma. *)
Definition build_file_entry (build_file_uuid file_ref_uuid file_name : str) : str :=
  [TAB; TAB] ++ build_file_uuid ++ lit " /* " ++ file_name
    ++ lit " in Sources */ = {isa = PBXBuildFile; fileRef = " ++ file_ref_uuid
    ++ lit " /* " ++ file_name ++ lit " */; };".

Definition file_ref_entry (file_ref_uuid file_name : str) : str :=
  [TAB; TAB] ++ file_ref_uuid ++ lit " /* " ++ file_name
    ++ lit " */ = {isa = PBXFileReference; lastKnownFileType = sourcecode.swift; path = "
    ++ file_name ++ lit "; sourceTree = " ++ [DQUOTE] ++ lit "<group>" ++ [DQUOTE]
    ++ lit "; };".

Definition group_member (file_ref_uuid file_name : str) : str :=
  file_ref_uuid ++ lit " /* " ++ file_name ++ lit " */,".

Definition sources_member (build_file_uuid file_name : str) : str :=
  build_file_uuid ++ lit " /* " ++ file_name ++ lit " in Sources */,".

(** [x] stands in [s], followed by more text. *)
Definition present (x s : str) : Prop := exists p q : str, s = p ++ x ++ q /\ q <> [].

(** A text without line break or closing parenthesis. *)
Definition no_break (x : str) : bool :=
  forallb (fun c => negb (c =? NL)%N && negb (c =? RPAREN)%N) x.

(** Both entries of [file_name] stand in the manifest [w], under some pair
    of identifiers. *)
Definition entries_present (file_name w : str) : Prop :=
  exists b r : str,
    plain_name b = true /\ plain_name r = true
    /\ present (build_file_entry b r file_name) w
    /\ present (file_ref_entry r file_name) w.

(** The reading of "all four records exist, or none does" for the records
    made with the identifiers [b] and [r]. *)
Definition all_or_nothing (b r file_name w : str) : Prop :=
  (occurs (build_file_entry b r file_name) w /\ occurs (file_ref_entry r file_name) w
   /\ occurs (group_member r file_name) w /\ occurs (sources_member b file_name) w)
  \/ (~ occurs (build_file_entry b r file_name) w /\ ~ occurs (file_ref_entry r file_name) w
      /\ ~ occurs (group_member r file_name) w /\ ~ occurs (sources_member b file_name) w).

(** What a request leaves behind, in a text [w] and a console [out]: its
    skip message, or its "Added" message and its two entries. *)
Definition settled (w : str) (out : list str) (f : str * str) : Prop :=
  skip_msg (snd f) ∈ out \/ (added_msg (snd f) ∈ out /\ entries_present (snd f) w).

(** A request was dealt with: its skip message or its "Added" message is on
    the console. *)
Definition handled (out : list str) (f : str * str) : Prop :=
  skip_msg (snd f) ∈ out \/ added_msg (snd f) ∈ out.

(** The lookups of the group sub-insertion all succeed on [c]. *)
Definition group_located (c : str) : Prop :=
  let content_view_pos := find (lit "ContentView.swift") c 0 in
  let search_start := rfind (lit "children = (") c 0 content_view_pos in
  content_view_pos <> (-1)%Z /\ search_start <> (-1)%Z
  /\ find (lit ");") c search_start <> (-1)%Z.

(** The lookups of the target sub-insertion all succeed on [c]. *)
Definition sources_located (target_marker c : str) : Prop :=
  let target := find target_marker c 0 in
  let files_start := find (lit "files = (") c target in
  target <> (-1)%Z /\ files_start <> (-1)%Z /\ find (lit ");") c files_start <> (-1)%Z.

(** [c'] is [c] with the text [x] inserted. *)
Definition inserted (x c c' : str) : Prop :=
  exists a b : str, c = a ++ b /\ c' = a ++ x ++ b.

(** The group sub-insertion restricted to the children list opened last
    before [limit]. *)
Definition add_child_before (limit : Z) (file_ref_uuid file_name content : str) : str :=
  let search_start := rfind (lit "children = (") content 0 limit in
  if negb (search_start =? -1)%Z then
    splice (find (lit ");") content search_start) (new_child file_ref_uuid file_name) content
  else content.

(** ** Sample inputs *)

(** A text made of the given lines, each ended by a line break. *)
Definition lines (ls : list str) : str := flat_map (fun l => l ++ [NL]) ls.

Definition text_of (o : option str) : str :=
  match o with Some w => w | None => [] end.

(** A source of random values that gives every draw its own identifier. *)
Definition sample_urandom (n : nat) : N := (N.of_nat (S n) * 2 ^ 100)%N.

(** A small manifest with a group, the two entry sections and the Sources
    phase of the main target. *)
Definition grouped_project : str :=
  lines [ lit "// !$*UTF8*$!"; lit "{";
          lit "/* Begin PBXGroup section */";
          lit "children = (";
          lit "AAAA /* ContentView.swift */,";
          lit ");";
          lit "/* End PBXGroup section */";
          lit "/* Begin PBXBuildFile section */";
          lit "/* End PBXBuildFile section */";
          lit "/* Begin PBXFileReference section */";
          lit "/* End PBXFileReference section */";
          lit "/* Begin PBXSourcesBuildPhase section */";
          lit "E1F569CB2C501D880010BF96 /* Sources */ = {";
          lit "files = (";
          lit ");";
          lit "};";
          lit "/* End PBXSourcesBuildPhase section */";
          lit "}" ].

(** A manifest cut short: its children list is never closed and its last
    line, a requested display name, has no line break. *)
Definition truncated_manifest : str :=
  lines [ lit "/* Begin PBXBuildFile section */";
          lit "/* Begin PBXFileReference section */";
          lit "children = (";
          lit "AAAA /* ContentView.swift */," ]
  ++ lit "BBBB /* ConfigManager.swift".

(** A manifest with the two entry sections and nothing else: no group, no
    anchor file, no target. *)
Definition bare_manifest : str :=
  lines [ lit "// !$*UTF8*$!"; lit "{";
          lit "/* Begin PBXBuildFile section */";
          lit "/* End PBXBuildFile section */";
          lit "/* Begin PBXFileReference section */";
          lit "/* End PBXFileReference section */";
          lit "}" ].

(** A manifest without any section. *)
Definition empty_manifest : str := lines [ lit "// !$*UTF8*$!"; lit "{"; lit "}" ].

Definition config_manager : str * str :=
  (lit "NaviGPT/ConfigManager.swift", lit "ConfigManager.swift").

Definition camera_processor : str * str :=
  (lit "NaviGPT/Services/RealTimeCameraProcessor.swift", lit "RealTimeCameraProcessor.swift").

(** The first request of the main loop on [grouped_project]: the state it
    starts from, its two identifiers, and the text after the two entry
    insertions and after the group sub-insertion. *)
Definition grouped_env : env := AddPhaseFiles.loaded [] grouped_project [].
Definition grouped_ref_uuid : str := generate_uuid (sample_urandom 0).
Definition grouped_build_uuid : str := generate_uuid (sample_urandom 1).
Definition grouped_entries : str :=
  add_to_PBXFileReference_section grouped_ref_uuid (snd config_manager)
    (add_to_PBXBuildFile_section grouped_build_uuid grouped_ref_uuid (snd config_manager)
       (content grouped_env)).
Definition grouped_member : str :=
  add_to_NaviGPT_group grouped_ref_uuid (snd config_manager) grouped_entries.


(** What the records made with the identifiers [b] and [r] say of each
    other, whatever the manifest: the build-file line declares [b] and
    names [r] in its [fileRef] field, the file-reference line declares [r],
    the group membership is [r] and the target membership is [b]. *)
Definition cross_referenced (b r n : str) : Prop :=
  ([TAB; TAB] ++ b) `prefix_of` new_build_file b r n
  /\ occurs (lit "fileRef = " ++ r) (new_build_file b r n)
  /\ ([TAB; TAB] ++ r) `prefix_of` new_file_ref r n
  /\ occurs (group_member r n) (new_child r n)
  /\ occurs (sources_member b n) (new_source b n).

(** The single request of [add_to_xcode.py] on [grouped_project]. *)
Definition manual_ref_uuid : str := generate_uuid (sample_urandom 0).
Definition manual_build_uuid : str := generate_uuid (sample_urandom 1).
Definition manual_entries : str :=
  add_to_PBXFileReference_section manual_ref_uuid AddToXcode.file_name
    (add_to_PBXBuildFile_section manual_build_uuid manual_ref_uuid AddToXcode.file_name
       grouped_project).
Definition manual_member : str :=
  add_to_NaviGPT_group manual_ref_uuid AddToXcode.file_name manual_entries.

(** The character [ch] does not occur in [x]. *)
Definition avoids (ch : char) (x : str) : bool := forallb (fun c => negb (c =? ch)%N) x.

Definition LETTER_g : char := 103%N.

(** ** Notions used in the further properties *)

(** An upper-case hexadecimal digit, [0-9A-F]. *)
Definition upper_hex_digit (c : char) : bool :=
  ((48 <=? c)%N && (c <=? 57)%N) || ((65 <=? c)%N && (c <=? 70)%N).

(** [sub] does not start anywhere inside [a], for a text that goes on with
    [sub] itself: no occurrence of [sub] ends before the last character of
    that following [sub]. *)
Definition first_in (sub a : str) : Prop := ~ occurs sub (a ++ removelast sub).

Definition build_file_section : str := lit "/* Begin PBXBuildFile section */".
Definition file_reference_section : str := lit "/* Begin PBXFileReference section */".

(** The text ends with a line break. *)
Definition ends_with_newline (c : str) : bool :=
  match last c with
  | Some z => (z =? NL)%N
  | None => false
  end.

Definition intern1tests_group : str := lit "E1F569E22C501D8A0010BF96 /* Intern1Tests */".

(** The lookups of the [Intern1Tests] sub-insertion all succeed on [c]. *)
Definition intern1tests_located (c : str) : Prop :=
  let intern1tests_pos := find intern1tests_group c 0 in
  let children_start := find (lit "children = (") c intern1tests_pos in
  intern1tests_pos <> (-1)%Z /\ children_start <> (-1)%Z
  /\ find (lit ");") c children_start <> (-1)%Z.

(** Sample pieces of a manifest: the lines before a section header, the
    lines after it, and a record to insert. *)
Definition sample_before : str := lines [lit "// !$*UTF8*$!"; lit "{"].
Definition sample_after : str := lines [lit "/* End of the section */"; lit "}"].
Definition sample_build_uuid : str := lit "BBBBBBBBBBBBBBBBBBBBBBBB".
Definition sample_ref_uuid : str := lit "AAAAAAAAAAAAAAAAAAAAAAAA".
Definition sample_name : str := lit "Sample.swift".

(** A manifest whose lists are opened and never closed. *)
Definition unclosed_manifest_body : str :=
  lines [ lit "children = (";
          lit "AAAA /* ContentView.swift */,";
          lit "E1F569E22C501D8A0010BF96 /* Intern1Tests */ = {";
          lit "children = (";
          lit "E1F569CB2C501D880010BF96 /* Sources */ = {";
          lit "files = (" ].
Definition RBRACE : char := 125%N.
Definition unclosed_manifest : str := unclosed_manifest_body ++ [RBRACE].

(** The literals the lookups of the memberships share. *)
Definition children_opening : str := lit "children = (".
Definition files_opening : str := lit "files = (".
Definition list_closing : str := lit ");".
Definition content_view : str := lit "ContentView.swift".

(** The exit status tells whether the project file was written: status 0
    with a text written, or status 1 with nothing written. *)
Definition status_tells_write (o : outcome) : Prop :=
  (exit_code o = 0%Z /\ exists w, written o = Some w)
  \/ (exit_code o = 1%Z /\ written o = None).

(** The run ended with status 1 and left the file system as it was. *)
Definition failed_without_writing (disk : option str) (o : outcome) : Prop :=
  exit_code o = 1%Z /\ written o = None /\ file_after disk o = disk.

(** Every display name requested in [files] occurs in the text [w]. *)
Definition all_registered (files : list (str * str)) (w : str) : Prop :=
  Forall (fun f => contains (snd f) w = true) files.






Definition core_name : str := lit "NaviGPTCore.swift".

(** The number of lines of [s] that mention [n]. *)
Definition mentions (n s : str) : nat :=
  length (filter (fun line => contains n line = true) (split NL s)).

(** The messages of [fix_path.py]. *)
Definition found_msg : str := lit "Found NaviGPTCore.swift references in project file".
Definition checked_msg : str := lit "Project file checked/updated".
Definition line_msg (i : nat) (line : str) : str :=
  lit "Line " ++ str_of_nat i ++ lit ": " ++ line.

(** Line [i] of the text [d], counted from 0, mentions [NaviGPTCore.swift]. *)
Definition mention_at (d : str) (i : nat) (line : str) : Prop :=
  split NL d !! i = Some line /\ contains core_name line = true.

Definition LETTER_c : char := 99%N.

(** A small manifest with the group of the [Intern1Tests] folder and the
    Sources phase of the test target. *)
Definition tests_project : str :=
  lines [ lit "// !$*UTF8*$!"; lit "{";
          lit "/* Begin PBXBuildFile section */";
          lit "/* End PBXBuildFile section */";
          lit "/* Begin PBXFileReference section */";
          lit "/* End PBXFileReference section */";
          lit "/* Begin PBXGroup section */";
          lit "E1F569E22C501D8A0010BF96 /* Intern1Tests */ = {";
          lit "children = (";
          lit ");";
          lit "};";
          lit "/* End PBXGroup section */";
          lit "/* Begin PBXSourcesBuildPhase section */";
          lit "E1F569DB2C501D8A0010BF96 /* Sources */ = {";
          lit "files = (";
          lit ");";
          lit "};";
          lit "/* End PBXSourcesBuildPhase section */";
          lit "}" ].

Definition phase2_tests : str * str :=
  (lit "Intern1Tests/Phase2Tests.swift", lit "Phase2Tests.swift").

(** The request [phase2_tests] of the test loop on [tests_project]: the
    state it starts from, the text after the two entry insertions and after
    the group sub-insertion. *)
Definition tests_env : env := AddPhaseFiles.loaded [] tests_project [].
Definition tests_entries : str :=
  add_to_PBXFileReference_section (generate_uuid (sample_urandom 0)) (snd phase2_tests)
    (add_to_PBXBuildFile_section (generate_uuid (sample_urandom 1))
       (generate_uuid (sample_urandom 0)) (snd phase2_tests) (content tests_env)).
Definition tests_member : str :=
  add_to_Intern1Tests_group (generate_uuid (sample_urandom 0)) (snd phase2_tests)
    tests_entries.

(** A manifest laid out as Xcode writes it: the build-file section, which
    names [ContentView.swift] first, stands before the group section. *)
Definition xcode_layout_before : str :=
  lines [ lit "// !$*UTF8*$!"; lit "{";
          lit "/* Begin PBXBuildFile section */" ]
  ++ lit "AAAA /* ".
Definition xcode_layout_after : str :=
  lines [ lit " in Sources */ = {isa = PBXBuildFile; fileRef = BBBB /* ContentView.swift */; };";
          lit "/* End PBXBuildFile section */";
          lit "/* Begin PBXGroup section */";
          lit "CCCC /* NaviGPT */ = {";
          lit "children = (";
          lit "BBBB /* ContentView.swift */,";
          lit ");";
          lit "};";
          lit "/* End PBXGroup section */";
          lit "}" ].

Definition services_marker : str := lit "/* Services */".

(** The lookups of the [Services] sub-insertion all succeed on [c]. *)
Definition services_located (c : str) : Prop :=
  let services_group_marker := find services_marker c 0 in
  let search_start := rfind (lit "children = (") c 0 (services_group_marker + 100)%Z in
  services_group_marker <> (-1)%Z /\ search_start <> (-1)%Z
  /\ find (lit ");") c search_start <> (-1)%Z.

(** The children list that opens right after [before] is the one opened
    last among those whose opening ends within [limit] characters of [c]. *)
Definition opened_last_before (limit : Z) (before c : str) : Prop :=
  (len before + len (lit "children = (") <= limit)%Z
  /\ forall k : nat,
       lit "children = (" `prefix_of` drop k c ->
       (Z.of_nat k + len (lit "children = (") <= Z.min limit (len c))%Z ->
       (k <= length before)%nat.

(** A small manifest with the group of the [Services] folder and the
    Sources phase of the main target. *)
Definition services_project : str :=
  lines [ lit "// !$*UTF8*$!"; lit "{";
          lit "/* Begin PBXBuildFile section */";
          lit "/* End PBXBuildFile section */";
          lit "/* Begin PBXFileReference section */";
          lit "/* End PBXFileReference section */";
          lit "/* Begin PBXGroup section */";
          lit "CCCC /* NaviGPT */ = {";
          lit "children = (";
          lit ");";
          lit "};";
          lit "DDDD /* Services */ = {";
          lit "isa = PBXGroup;";
          lit "children = (";
          lit ");";
          lit "};";
          lit "/* End PBXGroup section */";
          lit "/* Begin PBXSourcesBuildPhase section */";
          lit "E1F569CB2C501D880010BF96 /* Sources */ = {";
          lit "files = (";
          lit ");";
          lit "};";
          lit "/* End PBXSourcesBuildPhase section */";
          lit "}" ].

(** The first request of [add_phase3_files_to_xcode.py] on
    [services_project]. *)
Definition services_env : env := AddPhase3Files.loaded [] services_project [].
Definition services_entries : str :=
  add_to_PBXFileReference_section (generate_uuid (sample_urandom 0)) (snd camera_processor)
    (add_to_PBXBuildFile_section (generate_uuid (sample_urandom 1))
       (generate_uuid (sample_urandom 0)) (snd camera_processor) (content services_env)).
Definition services_member : str :=
  add_to_Services_group (generate_uuid (sample_urandom 0)) (snd camera_processor)
    services_entries.

Definition LETTER_N : char := 78%N.

(** The request of [NaviGPTCore.swift] and the requests that follow it in
    the main loop of [add_phase_files_to_xcode.py]. *)
Definition core_request : str * str := (lit "NaviGPT/NaviGPTCore.swift", lit "NaviGPTCore.swift").
Definition requests_after_core : list (str * str) :=
  [ (lit "NaviGPT/Models/ModelTypes.swift", lit "ModelTypes.swift");
    (lit "NaviGPT/Models/NavigationContext.swift", lit "NavigationContext.swift");
    (lit "NaviGPT/Models/ObstacleInfo.swift", lit "ObstacleInfo.swift");
    (lit "NaviGPT/Models/VisionModels.swift", lit "VisionModels.swift");
    (lit "NaviGPT/Services/CoreMLModelManager.swift", lit "CoreMLModelManager.swift");
    (lit "NaviGPT/Services/VisionModelProcessor.swift", lit "VisionModelProcessor.swift");
    (lit "NaviGPT/Services/DepthEstimationProcessor.swift", lit "DepthEstimationProcessor.swift") ].

(** The two console lines of a processed request: its "Processing" line and
    its verdict, the "Added" message or the skip message. *)
Definition transcript_of (f : str * str) (added : bool) : list str :=
  [processing_msg (snd f); if added then added_msg (snd f) else skip_msg (snd f)].

(** The console lines of a loop over [files] with the given verdicts. *)
Definition transcript (files : list (str * str)) (verdicts : list bool) : list str :=
  concat (zip_with transcript_of files verdicts).

(** No request was added. *)
Definition all_skipped (verdicts : list bool) : bool := forallb negb verdicts.

(** [c'] is [c] with the membership [x] put at the end of the first list
    that [opening] opens at or after the first occurrence of [marker]: just
    before the first closing that follows that opening. *)
Definition appended_to_first_list (marker opening x c c' : str) : Prop :=
  exists before between members rest : str,
    c = before ++ marker ++ between ++ opening ++ members ++ lit ");" ++ rest
    /\ first_in marker before
    /\ first_in opening (marker ++ between)
    /\ first_in (lit ");") (opening ++ members)
    /\ c' = before ++ marker ++ between ++ opening ++ members ++ x ++ lit ");" ++ rest.

(** [c'] is [c] with the membership [x] put at the end of the children list
    opened last among those whose opening ends within the first [limit]
    characters: just before the first closing that follows that opening. *)
Definition appended_to_last_list_before (limit : Z) (x c c' : str) : Prop :=
  exists before members rest : str,
    c = before ++ lit "children = (" ++ members ++ lit ");" ++ rest
    /\ opened_last_before limit before c
    /\ first_in (lit ");") (lit "children = (" ++ members)
    /\ c' = before ++ lit "children = (" ++ members ++ x ++ lit ");" ++ rest.

(** The same, the limit being [offset] characters past the start of the
    first occurrence of [anchor]. *)
Definition appended_near_anchor (anchor : str) (offset : Z) (x c c' : str) : Prop :=
  exists pre post : str,
    c = pre ++ anchor ++ post /\ first_in anchor pre
    /\ appended_to_last_list_before (len pre + offset) x c c'.

(** A manifest with its sections in the order Xcode writes them, in five
    parts: up to the header of the build-file section, up to the header of
    the file-reference section, up to the last member of the group's
    children list, up to the last member of the files list of the
    Resources phase, and the rest, which holds the Sources phase of the
    main target. The marker of that phase occurs first in the list of
    build phases of the target. *)
Definition ordered_part1 : str :=
  lines [ lit "// !$*UTF8*$!"; lit "{";
          lit "/* Begin PBXBuildFile section */" ].
Definition ordered_part2 : str :=
  lines [ lit "/* End PBXBuildFile section */";
          lit "/* Begin PBXFileReference section */" ].
Definition ordered_part3 : str :=
  lines [ lit "/* End PBXFileReference section */";
          lit "/* Begin PBXGroup section */";
          lit "children = (";
          lit "AAAA /* ContentView.swift */," ].
Definition ordered_part4 : str :=
  lines [ lit ");";
          lit "/* End PBXGroup section */";
          lit "/* Begin PBXNativeTarget section */";
          lit "buildPhases = (";
          lit "E1F569CB2C501D880010BF96 /* Sources */,";
          lit "E1F569CD2C501D880010BF96 /* Resources */,";
          lit ");";
          lit "/* End PBXNativeTarget section */";
          lit "/* Begin PBXResourcesBuildPhase section */";
          lit "E1F569CD2C501D880010BF96 /* Resources */ = {";
          lit "files = (";
          lit "CCCC /* Assets.xcassets in Resources */," ].
Definition ordered_part5 : str :=
  lines [ lit ");";
          lit "};";
          lit "/* End PBXResourcesBuildPhase section */";
          lit "/* Begin PBXSourcesBuildPhase section */";
          lit "E1F569CB2C501D880010BF96 /* Sources */ = {";
          lit "files = (";
          lit ");";
          lit "};";
          lit "/* End PBXSourcesBuildPhase section */";
          lit "}" ].
Definition xcode_ordered_project : str :=
  ordered_part1 ++ ordered_part2 ++ ordered_part3 ++ ordered_part4 ++ ordered_part5.

(** The first request of the main loop on [xcode_ordered_project]. *)
Definition ordered_env : env := AddPhaseFiles.loaded [] xcode_ordered_project [].
Definition ordered_after : env :=
  AddPhaseFiles.add_main_target_file sample_urandom ordered_env config_manager.





(** The bits of the random value that [uuid4] overwrites. *)
Definition forced_bits : list N := [62; 63; 76; 77; 78; 79]%N.

(** * Properties *)

(** ** Facts about the string primitives *)

Example lit_decodes_utf8 : lit "⚠️" = [9888; 65039]%N.
Proof. reflexivity. Qed.

Example find_from_minus_1 :
  find [NL] (lit "ab" ++ [NL]) (-1) = 2%Z
  /\ find [NL] (lit "abc") (-1) = (-1)%Z
  /\ find (lit ");") (lit "ab);") (-1) = (-1)%Z.
Proof. repeat split. Qed.

Example splice_at_minus_1 : splice (-1) (lit "X") (lit "abc") = lit "abXc".
Proof. reflexivity. Qed.

Example rfind_end_is_clamped :
  rfind (lit "ab") (lit "ab ab ab") 0 100 = 6%Z
  /\ rfind (lit "ab") (lit "ab ab ab") 0 7 = 3%Z
  /\ rfind (lit "ab") (lit "ab") 0 1 = (-1)%Z.
Proof. repeat split. Qed.

Example split_keeps_empty_lines :
  split NL (lit "a" ++ [NL] ++ lit "b" ++ [NL]) = [lit "a"; lit "b"; []]
  /\ split NL [] = [[]] /\ join [NL] [] = [].
Proof. repeat split. Qed.

Example replace_left_to_right : replace (lit "aa") (lit "b") (lit "aaaxaa") = lit "baxb".
Proof. reflexivity. Qed.

Example generate_uuid_of_zero : generate_uuid 0 = lit "000000000000400080000000".
Proof. reflexivity. Qed.

Lemma starts_with_prefix (sub s : str) :
  starts_with sub s = true <-> sub `prefix_of` s.
Proof.
  revert s. induction sub as [|a sub IH]; intros s; simpl.
  - split; [intros _; apply prefix_nil | reflexivity].
  - destruct s as [|b s].
    + split; [discriminate | intros H; apply prefix_nil_inv in H; discriminate].
    + rewrite andb_true_iff, N.eqb_eq, IH. split.
      * intros [-> H]. by apply prefix_cons.
      * intros H. split; [by apply prefix_cons_inv_1 in H | by apply prefix_cons_inv_2 in H].
Qed.

Lemma starts_with_false (sub s : str) :
  starts_with sub s = false <-> ~ sub `prefix_of` s.
Proof.
  rewrite <- starts_with_prefix. destruct (starts_with sub s); split; congruence.
Qed.

Lemma len_nonneg (s : str) : (0 <= len s)%Z.
Proof. unfold len. lia. Qed.

Lemma len_app (a b : str) : len (a ++ b) = (len a + len b)%Z.
Proof. unfold len. rewrite length_app. lia. Qed.

Lemma adjust_nonneg (k : Z) (s : str) : (0 <= adjust k s)%Z.
Proof. unfold adjust. destruct (Z.ltb_spec k 0); lia. Qed.

(** [s[:k] + s[k:] == s] for every integer [k]. *)
Lemma slice_to_from (k : Z) (s : str) : slice_to k s ++ slice_from k s = s.
Proof. unfold slice_to, slice_from. apply take_drop. Qed.

Lemma find_at_none (sub s : str) (i : Z) :
  (0 <= i)%Z -> find_at sub s i = (-1)%Z ->
  forall n : nat, ~ sub `prefix_of` drop n s.
Proof.
  revert i. induction s as [|c s IH]; intros i Hi; simpl.
  - destruct (starts_with sub []) eqn:E; [lia|].
    intros _ n. rewrite drop_nil. by apply starts_with_false.
  - destruct (starts_with sub (c :: s)) eqn:E; [lia|].
    intros H [|n].
    + by apply starts_with_false.
    + simpl. apply (IH (i + 1)%Z); [lia | done].
Qed.

Lemma find_at_some (sub s : str) (i r : Z) :
  (0 <= i)%Z -> find_at sub s i = r -> r <> (-1)%Z ->
  exists n : nat, r = (i + Z.of_nat n)%Z /\ (n <= length s)%nat
    /\ sub `prefix_of` drop n s
    /\ forall m : nat, (m < n)%nat -> ~ sub `prefix_of` drop m s.
Proof.
  revert i. induction s as [|c s IH]; intros i Hi; simpl.
  - destruct (starts_with sub []) eqn:E; [|congruence].
    intros <- _. exists 0%nat. repeat split; [lia | done | | lia].
    by apply starts_with_prefix.
  - destruct (starts_with sub (c :: s)) eqn:E.
    + intros <- _. exists 0%nat. repeat split; [lia | simpl; lia | | lia].
      by apply starts_with_prefix.
    + intros H Hr. destruct (IH (i + 1)%Z ltac:(lia) H Hr) as (n & -> & Hn & Hp & Hmin).
      exists (S n). repeat split; [lia | simpl; lia | done |].
      intros [|m] Hm; simpl.
      * by apply starts_with_false.
      * apply Hmin. lia.
Qed.

(** What [find] returns: [-1], or a position at or after the (adjusted)
    start at which [sub] occurs, the first such. *)
Lemma find_some (sub s : str) (start r : Z) :
  find sub s start = r -> r <> (-1)%Z ->
  (adjust start s <= r <= len s)%Z
  /\ sub `prefix_of` drop (Z.to_nat r) s
  /\ forall m : Z, (adjust start s <= m < r)%Z -> ~ sub `prefix_of` drop (Z.to_nat m) s.
Proof.
  unfold find. pose proof (adjust_nonneg start s) as Ha.
  set (st := adjust start s) in *.
  destruct (Z.ltb_spec (len s) st) as [Hlt|Hge]; [congruence|].
  intros H Hr. destruct (find_at_some _ _ _ _ Ha H Hr) as (n & -> & Hn & Hp & Hmin).
  rewrite length_drop in Hn. rewrite drop_drop in Hp. unfold len in *.
  replace (Z.to_nat (st + Z.of_nat n)) with (Z.to_nat st + n)%nat by lia.
  repeat split; [lia | lia | done |].
  intros m Hm. specialize (Hmin (Z.to_nat m - Z.to_nat st)%nat ltac:(lia)).
  rewrite drop_drop in Hmin.
  by replace (Z.to_nat st + (Z.to_nat m - Z.to_nat st))%nat with (Z.to_nat m) in Hmin by lia.
Qed.

Lemma find_none (sub s : str) (start : Z) :
  find sub s start = (-1)%Z ->
  forall m : Z, (adjust start s <= m <= len s)%Z -> ~ sub `prefix_of` drop (Z.to_nat m) s.
Proof.
  unfold find. pose proof (adjust_nonneg start s) as Ha.
  set (st := adjust start s) in *. destruct (Z.ltb_spec (len s) st) as [Hlt|Hge].
  - intros _ m Hm. lia.
  - intros H m Hm. pose proof (find_at_none _ _ _ Ha H (Z.to_nat m - Z.to_nat st)%nat) as Hn.
    rewrite drop_drop in Hn.
    by replace (Z.to_nat st + (Z.to_nat m - Z.to_nat st))%nat with (Z.to_nat m) in Hn by lia.
Qed.

Lemma adjust_0 (s : str) : adjust 0 s = 0%Z.
Proof. reflexivity. Qed.

Lemma prefix_drop_split (sub s : str) (n : nat) :
  sub `prefix_of` drop n s -> exists b, s = take n s ++ sub ++ b.
Proof. intros [b Hb]. exists b. rewrite <- Hb. symmetry. apply take_drop. Qed.

(** [sub in s] holds exactly when [sub] occurs in [s]. *)
Lemma contains_occurs (sub s : str) : contains sub s = true <-> occurs sub s.
Proof.
  unfold contains. rewrite negb_true_iff, Z.eqb_neq. split.
  - intros Hr. destruct (find_some sub s 0 _ eq_refl Hr) as (_ & Hp & _).
    destruct (prefix_drop_split _ _ _ Hp) as [b Hb]. by eexists _, _.
  - intros (a & b & ->) Hf.
    apply (find_none _ _ _ Hf (len a)).
    + rewrite adjust_0, len_app. pose proof (len_nonneg a). pose proof (len_nonneg (sub ++ b)). lia.
    + unfold len. rewrite Nat2Z.id, drop_app_length. by eexists.
Qed.

Lemma contains_false (sub s : str) : contains sub s = false <-> ~ occurs sub s.
Proof. rewrite <- contains_occurs. destruct (contains sub s); split; congruence. Qed.

Lemma find_0_none (sub s : str) : find sub s 0 = (-1)%Z <-> ~ occurs sub s.
Proof.
  rewrite <- contains_false. unfold contains. rewrite negb_false_iff. symmetry. apply Z.eqb_eq.
Qed.

Lemma rfind_at_spec (sub s : str) (i lo hi best r : Z) :
  rfind_at sub s i lo hi best = r ->
  r = best \/ exists n : nat, r = (i + Z.of_nat n)%Z /\ (n <= length s)%nat
    /\ sub `prefix_of` drop n s /\ (lo <= r)%Z /\ (r + len sub <= hi)%Z.
Proof.
  revert i best. induction s as [|c s IH]; intros i best; simpl.
  - destruct (starts_with sub []) eqn:E; simpl; [|by left].
    destruct (Z.leb_spec lo i); simpl; [|by left].
    destruct (Z.leb_spec (i + len sub) hi); simpl; [|by left].
    intros <-. right. exists 0%nat. apply starts_with_prefix in E.
    repeat split; try done; lia.
  - intros H. apply IH in H as [H | (n & -> & Hn & Hp & Hlo & Hhi)].
    + destruct (starts_with sub (c :: s)) eqn:E; simpl in H; [|by left].
      destruct (Z.leb_spec lo i); simpl in H; [|by left].
      destruct (Z.leb_spec (i + len sub) hi); simpl in H; [|by left].
      right. exists 0%nat. apply starts_with_prefix in E. subst r.
      repeat split; try done; simpl; lia.
    + right. exists (S n). repeat split; try done; simpl; lia.
Qed.

(** What [rfind] returns when it is not [-1]: a position at which [sub]
    occurs, wholly before the (clamped) end. *)
Lemma rfind_some (sub s : str) (start end_ r : Z) :
  rfind sub s start end_ = r -> r <> (-1)%Z ->
  (0 <= r)%Z /\ sub `prefix_of` drop (Z.to_nat r) s
  /\ (r + len sub <= adjust end_ s)%Z /\ (r + len sub <= len s)%Z.
Proof.
  unfold rfind. intros H Hr. apply rfind_at_spec in H as [H | (n & -> & Hn & Hp & Hlo & Hhi)].
  - congruence.
  - rewrite Z.add_0_l, Nat2Z.id in *. repeat split; try done; lia.
Qed.

(** ** Every splice is an insertion *)

Lemma splice_insertion (pos : Z) (x s : str) : insertion s (splice pos x s).
Proof.
  unfold splice. rewrite <- (slice_to_from pos s) at 1. constructor.
Qed.

Lemma edit_insertion (s s' : str) : edit s s' -> insertion s s'.
Proof. intros []. constructor. Qed.

Lemma insertion_sublist (s s' : str) : insertion s s' -> s `sublist_of` s'.
Proof.
  intros []. apply sublist_app; [done|]. by apply sublist_inserts_l.
Qed.

Lemma insertions_sublist (s s' : str) : insertions s s' -> s `sublist_of` s'.
Proof.
  induction 1 as [|s1 s2 s3 H _ IH]; [done|].
  etrans; [by apply insertion_sublist | done].
Qed.

(** ** Where the scripts cut the text *)

Lemma lit_close : lit ");" = [RPAREN; 59%N].
Proof. reflexivity. Qed.

(** [content.find('\n', start) + 1] is the start of the text or the place
    just after a line break. *)
Lemma after_newline (s : str) (start : Z) :
  let insert_pos := (find [NL] s start + 1)%Z in
  slice_to insert_pos s = [] \/ last (slice_to insert_pos s) = Some NL.
Proof.
  intros insert_pos. subst insert_pos. unfold slice_to.
  destruct (decide (find [NL] s start = (-1)%Z)) as [->|Hr]; [by left|].
  destruct (find_some _ _ _ _ eq_refl Hr) as (Hb & Hp & _).
  pose proof (adjust_nonneg start s) as Ha.
  set (r := find [NL] s start) in *.
  right. unfold adjust.
  destruct (Z.ltb_spec (r + 1) 0) as [?|_]; [lia|].
  replace (Z.to_nat (r + 1)) with (S (Z.to_nat r)) by lia.
  rewrite (take_S_r _ _ NL); [apply last_snoc|].
  destruct Hp as [k Hk].
  rewrite <- (Nat.add_0_r (Z.to_nat r)), <- lookup_drop, Hk. done.
Qed.

Lemma cut_after_newline (s : str) (start : Z) :
  let insert_pos := (find [NL] s start + 1)%Z in
  cut (slice_to insert_pos s) (slice_from insert_pos s).
Proof.
  intros insert_pos. unfold cut.
  destruct (after_newline s start) as [H | H]; [by left | by do 2 right; left].
Qed.

Lemma slice_at_minus_1 (s : str) :
  slice_to (-1) s = [] \/ exists c, slice_from (-1) s = [c].
Proof.
  unfold slice_to, slice_from, adjust. simpl.
  destruct s as [|c0 s0] using rev_ind; [by left|].
  right. exists c0. unfold len. rewrite length_app. simpl.
  replace (Z.to_nat (Z.max 0 (-1 + Z.of_nat (length s0 + 1)))) with (length s0) by lia.
  by rewrite drop_app_length.
Qed.

(** [content.find(');', start)] is the place just before a closing
    parenthesis or, when nothing is found, the index [-1], at which a slice
    cuts before the last character. *)
Lemma cut_before_close (s : str) (start : Z) :
  let pos := find (lit ");") s start in
  cut (slice_to pos s) (slice_from pos s).
Proof.
  intros pos. subst pos. unfold cut.
  destruct (decide (find (lit ");") s start = (-1)%Z)) as [->|Hr].
  - destruct (slice_at_minus_1 s) as [H|H]; [by left | by do 4 right].
  - destruct (find_some _ _ _ _ eq_refl Hr) as (Hb & Hp & _).
    pose proof (adjust_nonneg start s) as Ha.
    set (r := find (lit ");") s start) in *.
    do 3 right; left. unfold slice_from, adjust.
    destruct (Z.ltb_spec r 0) as [?|_]; [lia|].
    destruct Hp as [k ->]. by rewrite lit_close.
Qed.

Lemma last_new_build_file (b f n : str) : last (new_build_file b f n) = Some NL.
Proof. unfold new_build_file. rewrite !app_assoc. apply last_snoc. Qed.

Lemma last_new_file_ref (f n : str) : last (new_file_ref f n) = Some NL.
Proof. unfold new_file_ref. rewrite !app_assoc. apply last_snoc. Qed.

Lemma last_new_child (f n : str) : last (new_child f n) = Some TAB.
Proof.
  unfold new_child. rewrite !app_assoc.
  change [NL; TAB; TAB; TAB] with ([NL; TAB; TAB] ++ [TAB]).
  rewrite app_assoc. apply last_snoc.
Qed.

Lemma last_new_source (b n : str) : last (new_source b n) = Some TAB.
Proof.
  unfold new_source. rewrite !app_assoc.
  change [NL; TAB; TAB; TAB] with ([NL; TAB; TAB] ++ [TAB]).
  rewrite app_assoc. apply last_snoc.
Qed.

Lemma splice_after_newline_edit (s x : str) (start : Z) :
  last x = Some NL \/ last x = Some TAB ->
  edit s (splice (find [NL] s start + 1) x s).
Proof.
  intros Hx. unfold splice.
  rewrite <- (slice_to_from (find [NL] s start + 1) s) at 1.
  constructor; [apply cut_after_newline | done].
Qed.

Lemma splice_before_close_edit (s x : str) (start : Z) :
  last x = Some NL \/ last x = Some TAB ->
  edit s (splice (find (lit ");") s start) x s).
Proof.
  intros Hx. unfold splice.
  rewrite <- (slice_to_from (find (lit ");") s start) s) at 1.
  constructor; [apply cut_before_close | done].
Qed.

(** Each sub-insertion leaves the text alone or performs one [edit]. *)
Lemma add_to_PBXBuildFile_section_edit (b f n c : str) :
  edit c (add_to_PBXBuildFile_section b f n c).
Proof.
  unfold add_to_PBXBuildFile_section. apply splice_after_newline_edit.
  left. apply last_new_build_file.
Qed.

Lemma add_to_PBXFileReference_section_edit (f n c : str) :
  edit c (add_to_PBXFileReference_section f n c).
Proof.
  unfold add_to_PBXFileReference_section. apply splice_after_newline_edit.
  left. apply last_new_file_ref.
Qed.

Lemma add_to_NaviGPT_group_edit (f n c : str) :
  add_to_NaviGPT_group f n c = c \/ edit c (add_to_NaviGPT_group f n c).
Proof.
  unfold add_to_NaviGPT_group.
  destruct (negb _); [|by left]. destruct (negb _); [|by left].
  right. apply splice_before_close_edit. right. apply last_new_child.
Qed.

Lemma add_to_Services_group_edit (f n c : str) :
  add_to_Services_group f n c = c \/ edit c (add_to_Services_group f n c).
Proof.
  unfold add_to_Services_group.
  destruct (negb _); [|apply add_to_NaviGPT_group_edit]. destruct (negb _); [|by left].
  right. apply splice_before_close_edit. right. apply last_new_child.
Qed.

Lemma add_to_Intern1Tests_group_edit (f n c : str) :
  add_to_Intern1Tests_group f n c = c \/ edit c (add_to_Intern1Tests_group f n c).
Proof.
  unfold add_to_Intern1Tests_group.
  destruct (negb _); [|by left].
  right. apply splice_before_close_edit. right. apply last_new_child.
Qed.

Lemma add_to_PBXSourcesBuildPhase_edit (m b n c : str) :
  add_to_PBXSourcesBuildPhase m b n c = c \/ edit c (add_to_PBXSourcesBuildPhase m b n c).
Proof.
  unfold add_to_PBXSourcesBuildPhase.
  destruct (negb _); [|by left].
  right. apply splice_before_close_edit. right. apply last_new_source.
Qed.

(** ** Display names survive the insertions *)

Lemma plain_name_spec (n : str) (c : char) :
  plain_name n = true -> c ∈ n -> c <> NL /\ c <> TAB /\ c <> RPAREN.
Proof.
  unfold plain_name. rewrite forallb_forall. intros H Hc.
  apply list_elem_of_In, H in Hc.
  rewrite !andb_true_iff, !negb_true_iff, !N.eqb_neq in Hc. tauto.
Qed.

Section Survival.
(** [t] is the last character of the display names at hand. *)
Variable t : char.

Lemma good_last (n : str) : good t n -> t <> NL /\ t <> TAB.
Proof.
  intros [Hp Hl]. apply last_Some_elem_of in Hl.
  destruct (plain_name_spec _ _ Hp Hl) as (? & ? & ?). done.
Qed.

(** An occurrence of a good name is not broken by an [edit] of a text that
    does not end with [t]. *)
Lemma occurs_edit (n s s' : str) :
  good t n -> last s <> Some t -> edit s s' -> occurs n s -> occurs n s'.
Proof.
  intros [Hp Hl] Ht He (p & q & Hs). destruct He as [a x b Hcut Hx].
  apply app_eq_inv in Hs as [(k & -> & Hk) | (k & -> & ->)].
  - symmetry in Hk. apply app_eq_inv in Hk as [(k' & -> & ->) | (k' & -> & ->)].
    + exists p, (k' ++ x ++ b). by rewrite <- !app_assoc.
    + destruct k as [|k0 k1]; [exists ((p ++ []) ++ x), q; by rewrite <- !app_assoc|].
      destruct k' as [|k0' k1'];
        [exists p, (x ++ q); rewrite app_nil_r; by rewrite <- !app_assoc|].
      exfalso. destruct Hcut as [H | [H | [H | [H | [c H]]]]].
      * by destruct p.
      * discriminate.
      * rewrite last_app in H. destruct (last (k0 :: k1)) eqn:E.
        -- inversion H; subst. apply last_Some_elem_of in E.
           assert (NL ∈ (k0 :: k1) ++ k0' :: k1') as Hin by (apply elem_of_app; by left).
           by destruct (plain_name_spec _ _ Hp Hin) as (? & _).
        -- by apply last_None in E.
      * simpl in H. inversion H; subst.
        assert (RPAREN ∈ (k0 :: k1) ++ RPAREN :: k1') as Hin
          by (apply elem_of_app; right; left).
        by destruct (plain_name_spec _ _ Hp Hin) as (_ & _ & ?).
      * inversion H; subst. destruct k1'; [|discriminate]. destruct q; [|discriminate].
        rewrite last_snoc in Hl. inversion Hl; subst.
        apply Ht. simpl. rewrite ?app_nil_r. apply last_snoc.
  - exists (a ++ x ++ k), q. by rewrite <- !app_assoc.
Qed.

Lemma tail_edit (s s' : str) :
  t <> NL -> t <> TAB -> last s <> Some t -> edit s s' -> last s' <> Some t.
Proof.
  intros H1 H2 Ht He. destruct He as [a x b _ Hx].
  rewrite !last_app. rewrite last_app in Ht.
  destruct (last b); [done|]. destruct Hx as [-> | ->]; congruence.
Qed.

Lemma occurs_edits (n s s' : str) :
  good t n -> last s <> Some t -> rtc edit s s' -> occurs n s -> occurs n s'.
Proof.
  intros Hg Ht He. pose proof (good_last _ Hg) as [H1 H2].
  induction He as [|s1 s2 s3 H _ IH]; [done|].
  intros Ho. apply IH; [by eapply tail_edit | by eapply occurs_edit].
Qed.

Lemma tail_edits (s s' : str) :
  t <> NL -> t <> TAB -> last s <> Some t -> rtc edit s s' -> last s' <> Some t.
Proof.
  intros H1 H2 Ht He. induction He as [|s1 s2 s3 H _ IH]; [done|].
  apply IH. by eapply tail_edit.
Qed.

End Survival.

Lemma occurs_new_build_file (b f n : str) : occurs n (new_build_file b f n).
Proof.
  unfold new_build_file, occurs. exists ([TAB; TAB] ++ b ++ lit " /* "). eexists.
  rewrite <- !app_assoc. reflexivity.
Qed.

Lemma occurs_splice (n x s : str) (pos : Z) : occurs n x -> occurs n (splice pos x s).
Proof.
  intros (p & q & ->). unfold splice.
  exists (slice_to pos s ++ p), (q ++ slice_from pos s). by rewrite <- !app_assoc.
Qed.

(** ** Identifiers are plain *)

Lemma plain_name_Forall (n : str) :
  Forall (fun c => (42 <= c <= 102)%N) n -> plain_name n = true.
Proof.
  intros H. unfold plain_name. apply forallb_forall. intros c Hc.
  rewrite Forall_forall in H. apply list_elem_of_In, H in Hc.
  unfold NL, TAB, RPAREN. rewrite !andb_true_iff, !negb_true_iff, !N.eqb_neq. lia.
Qed.

Lemma hex_digit_range (d : N) : (d < 16)%N -> (42 <= Uuid.hex_digit d <= 102)%N.
Proof. intros Hd. unfold Uuid.hex_digit. destruct (N.ltb_spec d 10); lia. Qed.

Lemma hex_range (w : nat) (n : N) : Forall (fun c => (42 <= c <= 102)%N) (Uuid.hex w n).
Proof.
  revert n. induction w as [|w IH]; intros n; simpl; [constructor|].
  apply Forall_app. split; [apply IH|].
  constructor; [|constructor]. apply hex_digit_range. by apply N.mod_lt.
Qed.

Lemma to_str_range (u : N) : Forall (fun c => (42 <= c <= 102)%N) (Uuid.to_str u).
Proof.
  unfold Uuid.to_str. pose proof (hex_range 32 u) as H.
  assert (Forall (fun c => (42 <= c <= 102)%N) (lit "-")) as Hd
    by (constructor; [vm_compute; split; discriminate | constructor]).
  repeat (apply Forall_app; split);
    auto using Forall_take, Forall_drop.
Qed.

Lemma replace_go_Forall (P : char -> Prop) (old new s : str) (k : nat) :
  Forall P new -> Forall P s -> Forall P (replace_go old new s k).
Proof.
  intros Hn. revert k. induction s as [|c s IH]; intros k Hs; [constructor|].
  apply Forall_cons in Hs as [Hc Hs]. cbn [replace_go]. destruct k as [|k]; [|by apply IH].
  destruct (starts_with old (c :: s)).
  - apply Forall_app. split; [done | by apply IH].
  - constructor; [done | by apply IH].
Qed.

Lemma replace_Forall (P : char -> Prop) (old new s : str) :
  Forall P new -> Forall P s -> Forall P (replace old new s).
Proof.
  intros Hn Hs. unfold replace. destruct old as [|o old]; [|by apply replace_go_Forall].
  apply Forall_app. split; [done|].
  induction Hs as [|c s Hc Hs IH]; simpl; [constructor|].
  constructor; [done|]. apply Forall_app. by split.
Qed.

Lemma slice_to_Forall (P : char -> Prop) (k : Z) (s : str) :
  Forall P s -> Forall P (slice_to k s).
Proof. apply Forall_take. Qed.

Lemma upper_range (s : str) :
  Forall (fun c => (42 <= c <= 102)%N) s -> Forall (fun c => (42 <= c <= 102)%N) (upper s).
Proof.
  intros H. unfold upper. apply Forall_fmap. eapply Forall_impl; [exact H|].
  intros c Hc. simpl. unfold upper_char.
  destruct ((97 <=? c)%N && (c <=? 122)%N) eqn:E; [|done].
  apply andb_true_iff in E as [E1 E2]. apply N.leb_le in E1, E2. lia.
Qed.

(** The characters of an identifier lie between ['*'] and ['f']. *)
Lemma generate_uuid_range (random : N) :
  Forall (fun c => (42 <= c <= 102)%N) (generate_uuid random).
Proof.
  unfold generate_uuid.
  apply upper_range, slice_to_Forall, replace_Forall; [constructor | apply to_str_range].
Qed.

Lemma generate_uuid_plain (random : N) : plain_name (generate_uuid random) = true.
Proof. apply plain_name_Forall, generate_uuid_range. Qed.

(** ** The loop bodies *)

Lemma maybe_edit (c c' : str) : c' = c \/ edit c c' -> rtc edit c c'.
Proof. intros [-> | H]; [done | by apply rtc_once]. Qed.

Lemma registers_add_phase_main (os_urandom : nat -> N) :
  registers (AddPhaseFiles.add_main_target_file os_urandom).
Proof.
  intros e f. unfold AddPhaseFiles.add_main_target_file. simpl.
  destruct (contains (snd f) (content e)) eqn:E; [left | right]; simpl.
  - repeat split; by rewrite <- app_assoc.
  - repeat split; [by rewrite <- app_assoc|]. do 2 eexists.
    split; [apply generate_uuid_plain|]. split; [apply generate_uuid_plain|].
    etrans; [apply maybe_edit, add_to_NaviGPT_group_edit|].
    apply maybe_edit, add_to_PBXSourcesBuildPhase_edit.
Qed.

Lemma registers_add_phase_test (os_urandom : nat -> N) :
  registers (AddPhaseFiles.add_test_target_file os_urandom).
Proof.
  intros e f. unfold AddPhaseFiles.add_test_target_file. simpl.
  destruct (contains (snd f) (content e)) eqn:E; [left | right]; simpl.
  - repeat split; by rewrite <- app_assoc.
  - repeat split; [by rewrite <- app_assoc|]. do 2 eexists.
    split; [apply generate_uuid_plain|]. split; [apply generate_uuid_plain|].
    etrans; [|apply maybe_edit, add_to_PBXSourcesBuildPhase_edit].
    destruct (contains (lit "Phase2Tests") (snd f)).
    + apply maybe_edit, add_to_Intern1Tests_group_edit.
    + apply maybe_edit, add_to_NaviGPT_group_edit.
Qed.

Lemma registers_add_phase3 (os_urandom : nat -> N) :
  registers (AddPhase3Files.add_main_target_file os_urandom).
Proof.
  intros e f. unfold AddPhase3Files.add_main_target_file. simpl.
  destruct (contains (snd f) (content e)) eqn:E; [left | right]; simpl.
  - repeat split; by rewrite <- app_assoc.
  - repeat split; [by rewrite <- app_assoc|]. do 2 eexists.
    split; [apply generate_uuid_plain|]. split; [apply generate_uuid_plain|].
    etrans; [apply maybe_edit, add_to_Services_group_edit|].
    apply maybe_edit, add_to_PBXSourcesBuildPhase_edit.
Qed.

(** A loop body only ever edits the text. *)
Lemma registers_edits (body : env -> str * str -> env) (e : env) (f : str * str) :
  registers body -> rtc edit (content e) (content (body e f)).
Proof.
  intros Hb.
  destruct (Hb e f) as [(_ & -> & _) | (_ & _ & _ & b & r & _ & _ & H)]; [done|].
  eapply rtc_l; [apply add_to_PBXBuildFile_section_edit|].
  eapply rtc_l; [apply add_to_PBXFileReference_section_edit | done].
Qed.

Lemma fold_edits (body : env -> str * str -> env) (files : list (str * str)) (e : env) :
  registers body -> rtc edit (content e) (content (fold_left body files e)).
Proof.
  intros Hb. revert e. induction files as [|f files IH]; intros e; simpl; [done|].
  etrans; [by apply registers_edits | apply IH].
Qed.

Section Runs.
Variable t : char.
Variable body : env -> str * str -> env.
Hypothesis Hbody : registers body.

(** After its request is processed, a good display name occurs in the text,
    and the names that occurred before still do. *)
Lemma body_keeps (e : env) (f : str * str) (names : list str) :
  good t (snd f) -> Forall (good t) names ->
  last (content e) <> Some t ->
  Forall (fun n => occurs n (content e)) names ->
  last (content (body e f)) <> Some t
  /\ Forall (fun n => occurs n (content (body e f))) (snd f :: names).
Proof.
  intros Hf Hnames Ht Hocc. pose proof (good_last _ _ Hf) as [H1 H2].
  split; [eapply tail_edits; eauto; by apply registers_edits|].
  constructor.
  - destruct (Hbody e f) as [(Hc & -> & _) | (_ & _ & _ & b & r & _ & _ & H)].
    + by apply contains_occurs.
    + pose proof (add_to_PBXBuildFile_section_edit b r (snd f) (content e)) as He.
      eapply occurs_edits;
        [done | by eapply tail_edit
        | eapply rtc_l; [apply add_to_PBXFileReference_section_edit | done] |].
      unfold add_to_PBXBuildFile_section. apply occurs_splice, occurs_new_build_file.
  - rewrite Forall_forall in *. intros n Hn.
    eapply occurs_edits; [by apply Hnames | done | by apply registers_edits | by apply Hocc].
Qed.

Lemma fold_keeps (files : list (str * str)) (e : env) (names : list str) :
  Forall (fun f => good t (snd f)) files -> Forall (good t) names ->
  last (content e) <> Some t ->
  Forall (fun n => occurs n (content e)) names ->
  last (content (fold_left body files e)) <> Some t
  /\ Forall (fun n => occurs n (content (fold_left body files e)))
       (names ++ map snd files).
Proof.
  revert e names. induction files as [|f files IH]; intros e names Hfiles Hnames Ht Hocc; simpl.
  - by rewrite app_nil_r.
  - apply Forall_cons in Hfiles as [Hf Hfiles].
    destruct (body_keeps e f names Hf Hnames Ht Hocc) as [Ht' Hocc'].
    destruct (IH (body e f) (snd f :: names) Hfiles ltac:(by constructor) Ht' Hocc')
      as [Ht'' Hocc''].
    split; [done|]. rewrite Forall_forall in *. intros n Hn. apply Hocc''.
    apply elem_of_app in Hn as [Hn | Hn]; [apply elem_of_app; left; by right|].
    apply elem_of_cons in Hn as [-> | Hn]; apply elem_of_app; [left; by left | by right].
Qed.

(** When every requested name occurs already, the loop changes nothing and
    prints one skip message per request. *)
Lemma fold_skips (files : list (str * str)) (e : env) :
  Forall (fun f => occurs (snd f) (content e)) files ->
  content (fold_left body files e) = content e
  /\ draws (fold_left body files e) = draws e
  /\ file_uuids (fold_left body files e) = file_uuids e
  /\ stdout (fold_left body files e)
     = stdout e ++ flat_map (fun f => [processing_msg (snd f); skip_msg (snd f)]) files.
Proof.
  revert e. induction files as [|f files IH]; intros e Hocc; simpl.
  - by rewrite app_nil_r.
  - apply Forall_cons in Hocc as [Hf Hocc].
    destruct (Hbody e f) as [(_ & Hc & Hu & Hd & Ho) | (Hc & _)].
    + destruct (IH (body e f)) as (-> & -> & -> & ->); [by rewrite Hc|].
      rewrite Hc, Hu, Hd, Ho, <- app_assoc. done.
    + apply contains_false in Hc. done.
Qed.

End Runs.

(** ** The request lists *)

Lemma Forall_map_snd (P : str -> Prop) (l : list (str * str)) :
  Forall P (map snd l) <-> Forall (fun f => P (snd f)) l.
Proof.
  induction l as [|f l IH]; simpl; [split; constructor|].
  split; inversion 1; subst; constructor; tauto.
Qed.

Lemma add_phase_main_good :
  Forall (fun f => good LETTER_t (snd f)) AddPhaseFiles.main_target_files.
Proof. repeat (constructor; [split; reflexivity|]). constructor. Qed.

Lemma add_phase_test_good :
  Forall (fun f => good LETTER_t (snd f)) AddPhaseFiles.test_target_files.
Proof. repeat (constructor; [split; reflexivity|]). constructor. Qed.

Lemma add_phase3_good :
  Forall (fun f => good LETTER_t (snd f)) AddPhase3Files.main_target_files.
Proof. repeat (constructor; [split; reflexivity|]). constructor. Qed.

Section TwoLoops.
(** Two loops in a row, each introduced by a message, as in
    [add_phase_files_to_xcode.py]; with an empty second list this is the one
    loop of [add_phase3_files_to_xcode.py]. *)
Variable t : char.
Variables body1 body2 : env -> str * str -> env.
Hypothesis Hbody1 : registers body1.
Hypothesis Hbody2 : registers body2.
Variables files1 files2 : list (str * str).
Variables msg1 msg2 : str.

Lemma loops_keep (e : env) :
  Forall (fun f => good t (snd f)) files1 ->
  Forall (fun f => good t (snd f)) files2 ->
  last (content e) <> Some t ->
  Forall (fun f => occurs (snd f) (content (fold_left body2 files2 (print msg2 (fold_left body1 files1 (print msg1 e)))))) (files1 ++ files2).
Proof.
  intros Hg1 Hg2 Ht.
  destruct (fold_keeps t body1 Hbody1 files1 (print msg1 e) [] Hg1
              ltac:(constructor) Ht ltac:(constructor)) as [Ht2 Ho2].
  revert Ht2 Ho2. generalize (fold_left body1 files1 (print msg1 e)). intros e2 Ht2 Ho2.
  assert (Forall (good t) (map snd files1)) as Hg by (by apply Forall_map_snd).
  destruct (fold_keeps t body2 Hbody2 files2 (print msg2 e2) (map snd files1)
              Hg2 Hg Ht2 Ho2) as [_ Ho4].
  rewrite <- map_app in Ho4. apply Forall_map_snd in Ho4. exact Ho4.
Qed.

Lemma loops_skip (e : env) :
  Forall (fun f => occurs (snd f) (content e)) (files1 ++ files2) ->
  content (fold_left body2 files2 (print msg2 (fold_left body1 files1 (print msg1 e)))) = content e
  /\ draws (fold_left body2 files2 (print msg2 (fold_left body1 files1 (print msg1 e)))) = draws e
  /\ forall f, f ∈ files1 ++ files2 -> skip_msg (snd f) ∈ stdout (fold_left body2 files2 (print msg2 (fold_left body1 files1 (print msg1 e)))).
Proof.
  intros Ho. apply Forall_app in Ho as [Hm Ht].
  destruct (fold_skips body1 Hbody1 files1 (print msg1 e) Hm) as (Hc2 & Hd2 & _ & Hs2).
  revert Hc2 Hd2 Hs2. generalize (fold_left body1 files1 (print msg1 e)).
  intros e2 Hc2 Hd2 Hs2.
  destruct (fold_skips body2 Hbody2 files2 (print msg2 e2)) as (Hc4 & Hd4 & _ & Hs4).
  { simpl. by rewrite Hc2. }
  split; [by rewrite Hc4; simpl; rewrite Hc2|].
  split; [by rewrite Hd4; simpl; rewrite Hd2|].
  intros f Hf. rewrite Hs4. simpl. rewrite Hs2.
  rewrite !elem_of_app. apply elem_of_app in Hf as [Hf | Hf].
  - left; left; right. apply list_elem_of_In, in_flat_map. exists f.
    split; [by apply list_elem_of_In | right; by left].
  - right. apply list_elem_of_In, in_flat_map. exists f.
    split; [by apply list_elem_of_In | right; by left].
Qed.

End TwoLoops.

Section OneLoop.
Variable t : char.
Variable body : env -> str * str -> env.
Hypothesis Hbody : registers body.
Variable files : list (str * str).
Variable msg : str.

Lemma loop_keep (e : env) :
  Forall (fun f => good t (snd f)) files ->
  last (content e) <> Some t ->
  Forall (fun f => occurs (snd f) (content (fold_left body files (print msg e)))) files.
Proof.
  intros Hg Ht.
  destruct (fold_keeps t body Hbody files (print msg e) [] Hg
              ltac:(constructor) Ht ltac:(constructor)) as [_ Ho].
  apply Forall_map_snd in Ho. exact Ho.
Qed.

Lemma loop_skip (e : env) :
  Forall (fun f => occurs (snd f) (content e)) files ->
  content (fold_left body files (print msg e)) = content e
  /\ draws (fold_left body files (print msg e)) = draws e
  /\ forall f, f ∈ files -> skip_msg (snd f) ∈ stdout (fold_left body files (print msg e)).
Proof.
  intros Ho.
  destruct (fold_skips body Hbody files (print msg e) Ho) as (Hc & Hd & _ & Hs).
  split; [done|]. split; [done|].
  intros f Hf. rewrite Hs. apply elem_of_app. right.
  apply list_elem_of_In, in_flat_map. exists f.
  split; [by apply list_elem_of_In | right; by left].
Qed.

End OneLoop.

(** ** The runs of the two batch scripts *)

Lemma add_phase_written (os_urandom : nat -> N) (project_file on_disk : str) :
  written (AddPhaseFiles.main os_urandom project_file (Some on_disk))
  = Some (content (AddPhaseFiles.process_files os_urandom
                     (AddPhaseFiles.loaded project_file on_disk AddPhaseFiles.banner))).
Proof.
  unfold AddPhaseFiles.main, AddPhaseFiles.add_files_to_project.
  cbv beta iota zeta delta [fst snd written print content]. reflexivity.
Qed.

Lemma add_phase_printed (os_urandom : nat -> N) (project_file on_disk : str) :
  stdout (AddPhaseFiles.process_files os_urandom
            (AddPhaseFiles.loaded project_file on_disk AddPhaseFiles.banner))
  `prefix_of` printed (AddPhaseFiles.main os_urandom project_file (Some on_disk)).
Proof.
  unfold AddPhaseFiles.main, AddPhaseFiles.add_files_to_project.
  cbv beta iota zeta delta [fst snd printed print stdout].
  rewrite <- app_assoc. by eexists.
Qed.

Lemma add_phase3_written (os_urandom : nat -> N) (project_file on_disk : str) :
  written (AddPhase3Files.main os_urandom project_file (Some on_disk))
  = Some (content (AddPhase3Files.process_files os_urandom
                     (AddPhase3Files.loaded project_file on_disk AddPhase3Files.banner))).
Proof.
  unfold AddPhase3Files.main, AddPhase3Files.add_files_to_project.
  cbv beta iota zeta delta [fst snd written print content]. reflexivity.
Qed.

Lemma add_phase3_printed (os_urandom : nat -> N) (project_file on_disk : str) :
  stdout (AddPhase3Files.process_files os_urandom
            (AddPhase3Files.loaded project_file on_disk AddPhase3Files.banner))
  `prefix_of` printed (AddPhase3Files.main os_urandom project_file (Some on_disk)).
Proof.
  unfold AddPhase3Files.main, AddPhase3Files.add_files_to_project.
  cbv beta iota zeta delta [fst snd printed print stdout].
  rewrite <- app_assoc. by eexists.
Qed.

Lemma add_phase_process_files_eq (rnd : nat -> N) (e : env) :
  AddPhaseFiles.process_files rnd e
  = fold_left (AddPhaseFiles.add_test_target_file rnd) AddPhaseFiles.test_target_files
      (print ([NL] ++ lit "=== Adding Test Target Files ===")
         (fold_left (AddPhaseFiles.add_main_target_file rnd) AddPhaseFiles.main_target_files
            (print ([NL] ++ lit "=== Adding Main Target Files ===") e))).
Proof. reflexivity. Qed.

Lemma add_phase3_process_files_eq (rnd : nat -> N) (e : env) :
  AddPhase3Files.process_files rnd e
  = fold_left (AddPhase3Files.add_main_target_file rnd) AddPhase3Files.main_target_files
      (print ([NL] ++ lit "=== Adding Phase 3 Files ===") e).
Proof. reflexivity. Qed.

(** A first run on a text that does not end with [t] leaves every requested
    display name in the text it writes. *)
Lemma add_phase_first_run (rnd : nat -> N) (pf on_disk : str) :
  last on_disk <> Some LETTER_t ->
  exists w, written (AddPhaseFiles.main rnd pf (Some on_disk)) = Some w
    /\ Forall (fun f => occurs (snd f) w)
         (AddPhaseFiles.main_target_files ++ AddPhaseFiles.test_target_files).
Proof.
  intros Ht. eexists. split; [apply add_phase_written|].
  rewrite add_phase_process_files_eq.
  exact (loops_keep LETTER_t _ _ (registers_add_phase_main rnd)
           (registers_add_phase_test rnd) _ _ _ _
           (AddPhaseFiles.loaded pf on_disk AddPhaseFiles.banner)
           add_phase_main_good add_phase_test_good Ht).
Qed.

(** A run on a text in which every requested display name occurs writes the
    text back as it is and prints a skip message for every request. *)
Lemma add_phase_second_run (rnd : nat -> N) (pf w : str) :
  Forall (fun f => occurs (snd f) w)
    (AddPhaseFiles.main_target_files ++ AddPhaseFiles.test_target_files) ->
  written (AddPhaseFiles.main rnd pf (Some w)) = Some w
  /\ forall f, f ∈ AddPhaseFiles.main_target_files ++ AddPhaseFiles.test_target_files ->
       skip_msg (snd f) ∈ printed (AddPhaseFiles.main rnd pf (Some w)).
Proof.
  intros Hocc.
  destruct (loops_skip _ _ (registers_add_phase_main rnd)
              (registers_add_phase_test rnd) _ _
              ([NL] ++ lit "=== Adding Main Target Files ===")
              ([NL] ++ lit "=== Adding Test Target Files ===")
              (AddPhaseFiles.loaded pf w AddPhaseFiles.banner) Hocc) as (Hc & _ & Hs).
  rewrite <- add_phase_process_files_eq in Hc, Hs.
  split.
  - rewrite add_phase_written. rewrite Hc. reflexivity.
  - intros f Hf. destruct (add_phase_printed rnd pf w) as [k ->].
    apply elem_of_app. left. exact (Hs f Hf).
Qed.

Lemma add_phase3_first_run (rnd : nat -> N) (pf on_disk : str) :
  last on_disk <> Some LETTER_t ->
  exists w, written (AddPhase3Files.main rnd pf (Some on_disk)) = Some w
    /\ Forall (fun f => occurs (snd f) w) AddPhase3Files.main_target_files.
Proof.
  intros Ht. eexists. split; [apply add_phase3_written|].
  rewrite add_phase3_process_files_eq.
  exact (loop_keep LETTER_t _ (registers_add_phase3 rnd) _ _
           (AddPhase3Files.loaded pf on_disk AddPhase3Files.banner)
           add_phase3_good Ht).
Qed.

Lemma add_phase3_second_run (rnd : nat -> N) (pf w : str) :
  Forall (fun f => occurs (snd f) w) AddPhase3Files.main_target_files ->
  written (AddPhase3Files.main rnd pf (Some w)) = Some w
  /\ forall f, f ∈ AddPhase3Files.main_target_files ->
       skip_msg (snd f) ∈ printed (AddPhase3Files.main rnd pf (Some w)).
Proof.
  intros Hocc.
  destruct (loop_skip _ (registers_add_phase3 rnd) _
              ([NL] ++ lit "=== Adding Phase 3 Files ===")
              (AddPhase3Files.loaded pf w AddPhase3Files.banner) Hocc) as (Hc & _ & Hs).
  rewrite <- add_phase3_process_files_eq in Hc, Hs.
  split.
  - rewrite add_phase3_written. rewrite Hc. reflexivity.
  - intros f Hf. destruct (add_phase3_printed rnd pf w) as [k ->].
    apply elem_of_app. left. exact (Hs f Hf).
Qed.

(** ** Registration only inserts *)

Lemma edits_insertions (s s' : str) : rtc edit s s' -> insertions s s'.
Proof. apply rtc_subrel. exact edit_insertion. Qed.

Section Frame.
Variables body1 body2 : env -> str * str -> env.
Hypothesis Hbody1 : registers body1.
Hypothesis Hbody2 : registers body2.
Variables files1 files2 : list (str * str).
Variables msg1 msg2 : str.

Lemma loop_edits (e : env) :
  rtc edit (content e) (content (fold_left body1 files1 (print msg1 e))).
Proof. exact (fold_edits body1 files1 (print msg1 e) Hbody1). Qed.

Lemma loops_edits (e : env) :
  rtc edit (content e)
    (content (fold_left body2 files2 (print msg2 (fold_left body1 files1 (print msg1 e))))).
Proof.
  etrans; [apply loop_edits|].
  generalize (fold_left body1 files1 (print msg1 e)). intros e2.
  exact (fold_edits body2 files2 (print msg2 e2) Hbody2).
Qed.

End Frame.

Lemma add_phase_run_inserts (rnd : nat -> N) (pf on_disk : str) :
  exists w, written (AddPhaseFiles.main rnd pf (Some on_disk)) = Some w
            /\ insertions on_disk w.
Proof.
  eexists. split; [apply add_phase_written|].
  rewrite add_phase_process_files_eq. apply edits_insertions.
  exact (loops_edits _ _ (registers_add_phase_main rnd) (registers_add_phase_test rnd)
           _ _ _ _ (AddPhaseFiles.loaded pf on_disk AddPhaseFiles.banner)).
Qed.

Lemma add_phase3_run_inserts (rnd : nat -> N) (pf on_disk : str) :
  exists w, written (AddPhase3Files.main rnd pf (Some on_disk)) = Some w
            /\ insertions on_disk w.
Proof.
  eexists. split; [apply add_phase3_written|].
  rewrite add_phase3_process_files_eq. apply edits_insertions.
  exact (loop_edits _ (registers_add_phase3 rnd) _ _
           (AddPhase3Files.loaded pf on_disk AddPhase3Files.banner)).
Qed.

Lemma add_file_manually_inserts (rnd : nat -> N) (on_disk : str) (console : list str) :
  match fst (fst (AddToXcode.add_file_manually rnd on_disk console)) with
  | Some w => insertions on_disk w
  | None => True
  end.
Proof.
  unfold AddToXcode.add_file_manually.
  destruct (_ =? _)%Z; [done|]. cbv zeta.
  destruct (_ =? _)%Z; [done|]. cbv zeta.
  cbn [fst]. unfold insertions.
  eapply rtc_l; [apply splice_insertion|].
  eapply rtc_l; [apply splice_insertion|].
  etrans; [apply edits_insertions, maybe_edit, add_to_NaviGPT_group_edit|].
  destruct (negb _); [|done]. destruct (negb _); [|done].
  apply rtc_once, splice_insertion.
Qed.

Lemma add_to_xcode_run_inserts (rnd : nat -> N) (on_disk : str) :
  exists w, file_after (Some on_disk) (AddToXcode.main rnd (Some on_disk)) = Some w
            /\ insertions on_disk w.
Proof.
  unfold AddToXcode.main, file_after.
  pose proof (add_file_manually_inserts rnd on_disk
                [lit "Adding NaviGPTCore.swift to Xcode project..."]) as H.
  destruct (AddToXcode.add_file_manually _ _ _) as [[[w|] out] [|]]; cbn in *;
    eexists; (split; [reflexivity|]); done.
Qed.

(** C7. The registration runs only insert: the text left in the project file
    by each of the three registration scripts is the original text with
    pieces of text inserted, so the original is a subsequence of it and
    nothing of it is modified or deleted. *)
Theorem registration_only_inserts (rnd : nat -> N) (project_file on_disk : str) :
  (exists w, written (AddPhaseFiles.main rnd project_file (Some on_disk)) = Some w
             /\ insertions on_disk w /\ on_disk `sublist_of` w)
  /\ (exists w, written (AddPhase3Files.main rnd project_file (Some on_disk)) = Some w
                /\ insertions on_disk w /\ on_disk `sublist_of` w)
  /\ (exists w, file_after (Some on_disk) (AddToXcode.main rnd (Some on_disk)) = Some w
                /\ insertions on_disk w /\ on_disk `sublist_of` w).
Proof.
  split; [|split].
  - destruct (add_phase_run_inserts rnd project_file on_disk) as (w & Hw & Hi).
    exists w. auto using insertions_sublist.
  - destruct (add_phase3_run_inserts rnd project_file on_disk) as (w & Hw & Hi).
    exists w. auto using insertions_sublist.
  - destruct (add_to_xcode_run_inserts rnd on_disk) as (w & Hw & Hi).
    exists w. auto using insertions_sublist.
Qed.

(** ** Duplicates *)

Lemma registers_skipped (body : env -> str * str -> env) (e : env) (f : str * str) :
  registers body -> contains (snd f) (content e) = true -> skipped body e f.
Proof.
  intros Hb Hc. destruct (Hb e f) as [(_ & H) | (Hn & _)]; [exact H | congruence].
Qed.

(** C4. A request whose display name occurs anywhere in the current text of
    the manifest, in whatever state of the run, is skipped by each of the
    three loops: no insertion, no identifier drawn, and the skip message
    printed. *)
Theorem duplicate_is_skipped (rnd : nat -> N) (e : env) (f : str * str) :
  contains (snd f) (content e) = true ->
  skipped (AddPhaseFiles.add_main_target_file rnd) e f
  /\ skipped (AddPhaseFiles.add_test_target_file rnd) e f
  /\ skipped (AddPhase3Files.add_main_target_file rnd) e f.
Proof.
  intros Hc. repeat split.
  all: first [ apply (registers_skipped _ e f (registers_add_phase_main rnd) Hc)
             | apply (registers_skipped _ e f (registers_add_phase_test rnd) Hc)
             | apply (registers_skipped _ e f (registers_add_phase3 rnd) Hc) ].
Qed.

(** ** [fix_path.py] *)

Lemma replace_go_same (old' : str) (o : char) (s : str) (k : nat) :
  replace_go (o :: old') (o :: old') s k = drop k s.
Proof.
  revert k. induction s as [|c s IH]; intros k; [by destruct k|].
  destruct k as [|k]; [|apply IH].
  cbn [replace_go]. destruct (starts_with (o :: old') (c :: s)) eqn:E.
  - apply starts_with_prefix in E as [rest E]. rewrite IH.
    simplify_eq/=. rewrite Nat.sub_0_r, drop_app_length. done.
  - by rewrite IH.
Qed.

(** Replacing a non-empty string by itself changes nothing. *)
Lemma replace_same (old s : str) : old <> [] -> replace old old s = s.
Proof.
  destruct old as [|o old']; [done|]. intros _. unfold replace. apply replace_go_same.
Qed.

(** C10. The path fix is the identity on the manifest: whatever text it
    reads, it writes that text back. *)
Theorem fix_path_writes_what_it_read (on_disk : str) :
  written (FixPath.main (Some on_disk)) = Some on_disk
  /\ file_after (Some on_disk) (FixPath.main (Some on_disk)) = Some on_disk.
Proof.
  assert (FixPath.fixed on_disk = on_disk) as H
    by (apply replace_same; discriminate).
  unfold FixPath.main, file_after. cbn [written]. by rewrite H.
Qed.

(** ** [remove_refs.py] *)

Lemma split_nonempty (sep : char) (s : str) : split sep s <> [].
Proof.
  induction s as [|c s IH]; simpl; [done|].
  destruct (c =? sep)%N; [done|]. by destruct (split sep s).
Qed.

Lemma split_no_sep (sep : char) (s : str) : Forall (fun l => sep ∉ l) (split sep s).
Proof.
  induction s as [|c s IH]; simpl.
  - constructor; [apply not_elem_of_nil | constructor].
  - destruct (N.eqb_spec c sep) as [->|Hne].
    + constructor; [apply not_elem_of_nil | done].
    + destruct (split sep s) as [|l ls].
      { constructor; [|constructor]. intros [?|[]%elem_of_nil]%elem_of_cons. congruence. }
      apply Forall_cons in IH as [Hl Hls]. constructor; [|done].
      intros [?|?]%elem_of_cons; congruence.
Qed.

Lemma join_cons (sep l : str) (ls : list str) :
  ls <> [] -> join sep (l :: ls) = l ++ sep ++ join sep ls.
Proof. by destruct ls. Qed.

Lemma join_cons_head (sep l : str) (c : char) (ls : list str) :
  join sep ((c :: l) :: ls) = c :: join sep (l :: ls).
Proof. by destruct ls. Qed.

(** [sep.join(s.split(sep)) == s] *)
Lemma join_split (sep : char) (s : str) : join [sep] (split sep s) = s.
Proof.
  induction s as [|c s IH]; simpl; [done|].
  destruct (N.eqb_spec c sep) as [->|Hne].
  - rewrite join_cons by apply split_nonempty. simpl. by rewrite IH.
  - destruct (split sep s) as [|l ls] eqn:E; [by apply split_nonempty in E|].
    rewrite join_cons_head. by rewrite IH.
Qed.

Lemma split_app_sep (sep : char) (l rest : str) :
  sep ∉ l -> split sep (l ++ sep :: rest) = l :: split sep rest.
Proof.
  induction l as [|c l IH]; intros Hl; simpl.
  - by rewrite N.eqb_refl.
  - destruct (N.eqb_spec c sep) as [->|Hne]; [exfalso; apply Hl; left|].
    rewrite IH; [done|]. intros ?. apply Hl. by right.
Qed.

Lemma split_one (sep : char) (l : str) : sep ∉ l -> split sep l = [l].
Proof.
  induction l as [|c l IH]; intros Hl; simpl; [done|].
  destruct (N.eqb_spec c sep) as [->|Hne]; [exfalso; apply Hl; left|].
  rewrite IH; [done|]. intros ?. apply Hl. by right.
Qed.

(** [sep.join(ls).split(sep) == ls] for a non-empty list of lines without
    the separator. *)
Lemma split_join (sep : char) (ls : list str) :
  ls <> [] -> Forall (fun l => sep ∉ l) ls -> split sep (join [sep] ls) = ls.
Proof.
  induction ls as [|l ls IH]; [done|]. intros _ H.
  apply Forall_cons in H as [Hl Hls]. destruct ls as [|l2 ls].
  - simpl. by apply split_one.
  - cbn [join]. simpl app. rewrite split_app_sep by done. f_equal. by apply IH.
Qed.

Lemma new_lines_spec (name content : str) :
  RemoveRefs.new_lines name content
  = filter (fun line => contains name line = false) (split NL content).
Proof.
  unfold RemoveRefs.new_lines. apply list_filter_iff. intros line.
  by rewrite negb_true_iff.
Qed.

Lemma new_lines_no_sep (name content : str) :
  Forall (fun l => NL ∉ l) (RemoveRefs.new_lines name content).
Proof.
  apply Forall_forall. intros l Hl. unfold RemoveRefs.new_lines in Hl.
  apply list_elem_of_filter in Hl as [_ Hl].
  pose proof (split_no_sep NL content) as H. rewrite Forall_forall in H. by apply H.
Qed.

Lemma contains_nil_false (name : str) : name <> [] -> contains name [] = false.
Proof. by destruct name. Qed.

Lemma join_sublist (sep : str) (ls ls' : list str) :
  ls `sublist_of` ls' -> join sep ls `sublist_of` join sep ls'.
Proof.
  induction 1 as [|x l1 l2 H IH|x l1 l2 H IH].
  - done.
  - destruct l1 as [|y l1].
    + destruct l2; cbn [join]; [done | by apply sublist_inserts_r].
    + destruct l2 as [|z l2]; [by apply sublist_nil_r in H|].
      cbn [join] in *. apply sublist_app; [done|]. by apply sublist_app.
  - destruct l2 as [|z l2].
    + apply sublist_nil_r in H as ->. apply sublist_nil_l.
    + cbn [join] in *. by do 2 apply sublist_inserts_l.
Qed.

(** C9. The unregister operation touches nothing but the matching lines:
    the lines of the manifest written back are exactly the lines of the
    original that do not contain the display name, unchanged and in their
    original order (when no line is left, the text written is empty), and
    the text written is a subsequence of the original, so nothing new is
    introduced. *)
Theorem unregister_keeps_the_other_lines (name on_disk : str) :
  let kept := filter (fun line => contains name line = false) (split NL on_disk) in
  let after := RemoveRefs.unregister name on_disk in
  (split NL after = kept \/ (kept = [] /\ after = []))
  /\ after `sublist_of` on_disk
  /\ written (RemoveRefs.main (Some on_disk))
     = Some (RemoveRefs.unregister (lit "NaviGPTCore.swift") on_disk).
Proof.
  intros kept after. subst kept after. rewrite <- new_lines_spec.
  split; [|split; [|reflexivity]].
  - unfold RemoveRefs.unregister.
    destruct (RemoveRefs.new_lines name on_disk) as [|l ls] eqn:E; [by right|].
    left. apply split_join; [done|]. rewrite <- E. apply new_lines_no_sep.
  - unfold RemoveRefs.unregister. rewrite <- (join_split NL on_disk) at 2.
    apply join_sublist. unfold RemoveRefs.new_lines. apply sublist_filter.
Qed.

(** ** The two entries of a processed request stay *)

Lemma no_break_spec (x : str) (c : char) :
  no_break x = true -> c ∈ x -> c <> NL /\ c <> RPAREN.
Proof.
  unfold no_break. rewrite forallb_forall. intros H Hc.
  apply list_elem_of_In, H in Hc.
  rewrite !andb_true_iff, !negb_true_iff, !N.eqb_neq in Hc. tauto.
Qed.

Lemma no_break_app (x y : str) : no_break (x ++ y) = no_break x && no_break y.
Proof. apply forallb_app. Qed.

Lemma plain_no_break (n : str) : plain_name n = true -> no_break n = true.
Proof.
  unfold plain_name, no_break. rewrite !forallb_forall. intros H c Hc.
  specialize (H c Hc). rewrite !andb_true_iff in *. tauto.
Qed.

Lemma build_file_entry_no_break (b r n : str) :
  plain_name b = true -> plain_name r = true -> plain_name n = true ->
  no_break (build_file_entry b r n) = true.
Proof.
  intros Hb Hr Hn. apply plain_no_break in Hb, Hr, Hn.
  unfold build_file_entry. rewrite !no_break_app, Hb, Hr, Hn. reflexivity.
Qed.

Lemma file_ref_entry_no_break (r n : str) :
  plain_name r = true -> plain_name n = true ->
  no_break (file_ref_entry r n) = true.
Proof.
  intros Hr Hn. apply plain_no_break in Hr, Hn.
  unfold file_ref_entry. rewrite !no_break_app, Hr, Hn. reflexivity.
Qed.

Lemma new_build_file_entry (b r n : str) :
  new_build_file b r n = build_file_entry b r n ++ [NL].
Proof. unfold new_build_file, build_file_entry. by rewrite <- !app_assoc. Qed.

Lemma new_file_ref_entry (r n : str) : new_file_ref r n = file_ref_entry r n ++ [NL].
Proof. unfold new_file_ref, file_ref_entry. by rewrite <- !app_assoc. Qed.

Lemma present_occurs (x s : str) : present x s -> occurs x s.
Proof. intros (p & q & -> & _). by exists p, q. Qed.

(** An entry followed by more text is not broken by an [edit]. *)
Lemma present_edit (x s s' : str) :
  no_break x = true -> edit s s' -> present x s -> present x s'.
Proof.
  intros Hx He (p & q & Hs & Hq). destruct He as [a y b Hcut Hy].
  apply app_eq_inv in Hs as [(k & -> & Hk) | (k & -> & ->)].
  - symmetry in Hk. apply app_eq_inv in Hk as [(k' & -> & ->) | (k' & -> & ->)].
    + exists p, (k' ++ y ++ b). rewrite <- !app_assoc. split; [done|].
      destruct k'; [|done]. simpl. destruct Hy as [Hy|Hy]; by destruct y.
    + destruct k as [|k0 k1].
      { exists ((p ++ []) ++ y), q. by rewrite <- !app_assoc. }
      destruct k' as [|k0' k1'].
      { exists p, (y ++ q). rewrite app_nil_r, <- !app_assoc. split; [done|].
        destruct Hy as [Hy|Hy]; by destruct y. }
      exfalso. destruct Hcut as [H | [H | [H | [H | [c H]]]]].
      * by destruct p.
      * discriminate.
      * rewrite last_app in H. destruct (last (k0 :: k1)) eqn:E.
        -- inversion H; subst. apply last_Some_elem_of in E.
           assert (NL ∈ (k0 :: k1) ++ k0' :: k1') as Hin by (apply elem_of_app; by left).
           by destruct (no_break_spec _ _ Hx Hin) as (? & _).
        -- by apply last_None in E.
      * simpl in H. inversion H; subst.
        assert (RPAREN ∈ (k0 :: k1) ++ RPAREN :: k1') as Hin
          by (apply elem_of_app; right; left).
        by destruct (no_break_spec _ _ Hx Hin) as (_ & ?).
      * inversion H; subst. destruct k1'; [|discriminate]. by destruct q.
  - exists (a ++ y ++ k), q. by rewrite <- !app_assoc.
Qed.

Lemma present_edits (x s s' : str) :
  no_break x = true -> rtc edit s s' -> present x s -> present x s'.
Proof. intros Hx He. induction He; eauto using present_edit. Qed.

Lemma present_splice_line (x rest s : str) (pos : Z) :
  present x (splice pos (x ++ NL :: rest) s).
Proof.
  unfold splice. exists (slice_to pos s), (NL :: rest ++ slice_from pos s).
  by rewrite <- !app_assoc.
Qed.

Lemma entries_present_edits (n s s' : str) :
  plain_name n = true -> rtc edit s s' -> entries_present n s -> entries_present n s'.
Proof.
  intros Hn He (b & r & Hb & Hr & H1 & H2). exists b, r. repeat split; try done.
  - eapply present_edits; eauto using build_file_entry_no_break.
  - eapply present_edits; eauto using file_ref_entry_no_break.
Qed.

Lemma registers_entries (body : env -> str * str -> env) (e : env) (f : str * str) :
  registers body -> plain_name (snd f) = true ->
  contains (snd f) (content e) = false ->
  entries_present (snd f) (content (body e f))
  /\ stdout (body e f) = stdout e ++ [processing_msg (snd f); added_msg (snd f)].
Proof.
  intros Hb Hn Hc.
  destruct (Hb e f) as [(Hc' & _) | (_ & _ & Ho & b & r & Hpb & Hpr & He)]; [congruence|].
  split; [|done]. eapply entries_present_edits; [done | exact He |].
  exists b, r. repeat split; try done.
  - eapply present_edit;
      [by apply build_file_entry_no_break | apply add_to_PBXFileReference_section_edit|].
    unfold add_to_PBXBuildFile_section. rewrite new_build_file_entry.
    apply (present_splice_line _ []).
  - unfold add_to_PBXFileReference_section. rewrite new_file_ref_entry.
    apply (present_splice_line _ []).
Qed.

Lemma registers_stdout (body : env -> str * str -> env) (e : env) (f : str * str) :
  registers body -> stdout e `prefix_of` stdout (body e f).
Proof.
  intros Hb. destruct (Hb e f) as [(_ & _ & _ & _ & ->) | (_ & _ & -> & _)]; by eexists.
Qed.

Lemma fold_stdout (body : env -> str * str -> env) (files : list (str * str)) (e : env) :
  registers body -> stdout e `prefix_of` stdout (fold_left body files e).
Proof.
  intros Hb. revert e. induction files as [|f files IH]; intros e; simpl; [done|].
  etrans; [by apply registers_stdout | apply IH].
Qed.

Lemma settled_mono (w w' : str) (out out' : list str) (f : str * str) :
  plain_name (snd f) = true -> rtc edit w w' -> out `prefix_of` out' ->
  settled w out f -> settled w' out' f.
Proof.
  intros Hn He [k ->] [H | [H1 H2]].
  - left. apply elem_of_app. by left.
  - right. split; [apply elem_of_app; by left | by eapply entries_present_edits].
Qed.

Lemma fold_settled (body : env -> str * str -> env) (files : list (str * str)) (e : env) :
  registers body -> Forall (fun f => plain_name (snd f) = true) files ->
  Forall (settled (content (fold_left body files e)) (stdout (fold_left body files e)))
    files.
Proof.
  intros Hb. revert e. induction files as [|f files IH]; intros e Hp; simpl; [constructor|].
  apply Forall_cons in Hp as [Hf Hp]. constructor; [|by apply IH].
  apply (settled_mono (content (body e f)) _ (stdout (body e f)));
    [done | by apply fold_edits | by apply fold_stdout|].
  destruct (contains (snd f) (content e)) eqn:Hc.
  - left. destruct (registers_skipped _ e f Hb Hc) as (_ & _ & _ & ->).
    apply elem_of_app. right. right. left.
  - right. destruct (registers_entries _ e f Hb Hf Hc) as [H1 ->].
    split; [|done]. apply elem_of_app. right. right. left.
Qed.

Section Settled.
Variables body1 body2 : env -> str * str -> env.
Hypothesis Hbody1 : registers body1.
Hypothesis Hbody2 : registers body2.
Variables files1 files2 : list (str * str).
Hypothesis Hfiles1 : Forall (fun f => plain_name (snd f) = true) files1.
Hypothesis Hfiles2 : Forall (fun f => plain_name (snd f) = true) files2.
Variables msg1 msg2 : str.

Lemma loop_settled (e : env) :
  let final := fold_left body1 files1 (print msg1 e) in
  Forall (settled (content final) (stdout final)) files1.
Proof. intros final. by apply fold_settled. Qed.

Lemma loops_settled (e : env) :
  let final := fold_left body2 files2 (print msg2 (fold_left body1 files1 (print msg1 e))) in
  Forall (settled (content final) (stdout final)) (files1 ++ files2).
Proof.
  intros final. subst final. apply Forall_app. split; [|by apply fold_settled].
  pose proof (loop_settled e) as H. cbv zeta in H. revert H.
  generalize (fold_left body1 files1 (print msg1 e)). intros e2 H.
  rewrite Forall_forall in *. intros f Hf.
  assert (plain_name (snd f) = true) as Hn by auto.
  apply (settled_mono (content e2) _ (stdout e2)); [done | | | by apply H].
  - exact (fold_edits body2 files2 (print msg2 e2) Hbody2).
  - etrans; [|exact (fold_stdout body2 files2 (print msg2 e2) Hbody2)].
    by exists [msg2].
Qed.

End Settled.

Lemma good_plain (t : char) (files : list (str * str)) :
  Forall (fun f => good t (snd f)) files ->
  Forall (fun f => plain_name (snd f) = true) files.
Proof. intros H. eapply Forall_impl; [exact H|]. by intros f [? _]. Qed.

Lemma settled_printed (w : str) (out out' : list str) (files : list (str * str)) :
  out `prefix_of` out' -> Forall (settled w out) files -> Forall (settled w out') files.
Proof.
  intros [k ->] H0. eapply Forall_impl; [exact H0|]. intros f [H | [H1 H2]].
  - left. apply elem_of_app. by left.
  - right. split; [apply elem_of_app; by left | done].
Qed.

Lemma not_found_NaviGPT_group (r n c : str) :
  contains (lit "ContentView.swift") c = true \/ add_to_NaviGPT_group r n c = c.
Proof.
  unfold contains, add_to_NaviGPT_group. destruct (_ =? _)%Z; [by right | by left].
Qed.

Lemma not_found_Services_group (r n c : str) :
  contains (lit "/* Services */") c = true \/ contains (lit "ContentView.swift") c = true
  \/ add_to_Services_group r n c = c.
Proof.
  unfold add_to_Services_group. unfold contains at 1.
  destruct (_ =? _)%Z; [right | by left]. apply not_found_NaviGPT_group.
Qed.

Lemma not_found_Intern1Tests_group (r n c : str) :
  contains (lit "E1F569E22C501D8A0010BF96 /* Intern1Tests */") c = true
  \/ add_to_Intern1Tests_group r n c = c.
Proof.
  unfold contains, add_to_Intern1Tests_group. destruct (_ =? _)%Z; [by right | by left].
Qed.

Lemma not_found_PBXSourcesBuildPhase (m b n c : str) :
  contains m c = true \/ add_to_PBXSourcesBuildPhase m b n c = c.
Proof.
  unfold contains, add_to_PBXSourcesBuildPhase. destruct (_ =? _)%Z; [by right | by left].
Qed.

Lemma registration_settles (rnd : nat -> N) (project_file on_disk : str) :
  (exists w, written (AddPhaseFiles.main rnd project_file (Some on_disk)) = Some w
     /\ Forall (settled w (printed (AddPhaseFiles.main rnd project_file (Some on_disk))))
          (AddPhaseFiles.main_target_files ++ AddPhaseFiles.test_target_files))
  /\ (exists w, written (AddPhase3Files.main rnd project_file (Some on_disk)) = Some w
        /\ Forall (settled w (printed (AddPhase3Files.main rnd project_file (Some on_disk))))
             AddPhase3Files.main_target_files).
Proof.
  split.
  - eexists. split; [apply add_phase_written|].
    eapply settled_printed; [apply add_phase_printed|].
    rewrite add_phase_process_files_eq.
    exact (loops_settled _ _ (registers_add_phase_main rnd) (registers_add_phase_test rnd)
             _ _ (good_plain _ _ add_phase_main_good) (good_plain _ _ add_phase_test_good)
             _ _ (AddPhaseFiles.loaded project_file on_disk AddPhaseFiles.banner)).
  - eexists. split; [apply add_phase3_written|].
    eapply settled_printed; [apply add_phase3_printed|].
    rewrite add_phase3_process_files_eq.
    exact (loop_settled _ (registers_add_phase3 rnd) _ (good_plain _ _ add_phase3_good)
             _ (AddPhase3Files.loaded project_file on_disk AddPhase3Files.banner)).
Qed.

(** C3, as amended. Registration is not atomic and nothing is rolled back.
    After a run of either batch script, every request has its skip message
    on the console, or its "Added" message on the console and both its
    build-file entry and its file-reference entry in the manifest written
    back. The group membership and the target membership come on top only
    where their anchor is found: without the anchor, the sub-insertion
    leaves the text as the earlier sub-insertions made it. *)
Theorem registration_is_not_rolled_back (rnd : nat -> N) (project_file on_disk : str) :
  (exists w, written (AddPhaseFiles.main rnd project_file (Some on_disk)) = Some w
     /\ Forall (settled w (printed (AddPhaseFiles.main rnd project_file (Some on_disk))))
          (AddPhaseFiles.main_target_files ++ AddPhaseFiles.test_target_files))
  /\ (exists w, written (AddPhase3Files.main rnd project_file (Some on_disk)) = Some w
        /\ Forall (settled w (printed (AddPhase3Files.main rnd project_file (Some on_disk))))
             AddPhase3Files.main_target_files)
  /\ forall b r n m c : str,
       (contains (lit "ContentView.swift") c = true \/ add_to_NaviGPT_group r n c = c)
       /\ (contains (lit "/* Services */") c = true
           \/ contains (lit "ContentView.swift") c = true
           \/ add_to_Services_group r n c = c)
       /\ (contains (lit "E1F569E22C501D8A0010BF96 /* Intern1Tests */") c = true
           \/ add_to_Intern1Tests_group r n c = c)
       /\ (contains m c = true \/ add_to_PBXSourcesBuildPhase m b n c = c).
Proof.
  destruct (registration_settles rnd project_file on_disk) as [H1 H3].
  split; [exact H1 | split; [exact H3|]].
  intros b r n m c.
  auto using not_found_NaviGPT_group, not_found_Services_group,
    not_found_Intern1Tests_group, not_found_PBXSourcesBuildPhase.
Qed.

(** ** Missing markers and anchors *)

Lemma settled_handled (w : str) (out : list str) (files : list (str * str)) :
  Forall (settled w out) files -> Forall (handled out) files.
Proof. intros H. eapply Forall_impl; [exact H|]. intros f [?|[? _]]; [by left | by right]. Qed.

Lemma add_phase_exit_code (rnd : nat -> N) (pf on_disk : str) :
  exit_code (AddPhaseFiles.main rnd pf (Some on_disk)) = 0%Z.
Proof. reflexivity. Qed.

Lemma add_phase3_exit_code (rnd : nat -> N) (pf on_disk : str) :
  exit_code (AddPhase3Files.main rnd pf (Some on_disk)) = 0%Z.
Proof. reflexivity. Qed.

(** A text without line break that occurs in [s] still occurs after an
    insertion at the start of a line. *)
Lemma occurs_splice_after_newline (sub x s : str) (start : Z) :
  NL ∉ sub -> occurs sub s -> occurs sub (splice (find [NL] s start + 1) x s).
Proof.
  intros Hsub (p & q & Hs). unfold splice.
  pose proof (after_newline s start) as Hcut. cbv zeta in Hcut.
  pose proof (slice_to_from (find [NL] s start + 1) s) as Hab.
  revert Hcut Hab. generalize (slice_to (find [NL] s start + 1) s).
  generalize (slice_from (find [NL] s start + 1) s). intros b a Hcut Hab.
  rewrite Hs in Hab. apply app_eq_inv in Hab as [(k & -> & Hk) | (k & -> & ->)].
  - apply app_eq_inv in Hk as [(k' & -> & ->) | (k' & -> & ->)].
    + destruct k as [|k0 k1]; [exists ((p ++ []) ++ x), q; by rewrite <- !app_assoc|].
      destruct k' as [|k0' k1'];
        [exists p, (x ++ q); rewrite app_nil_r; by rewrite <- !app_assoc|].
      destruct Hcut as [H | H]; [by destruct p|].
      exfalso. apply Hsub. rewrite last_app in H.
      destruct (last (k0 :: k1)) eqn:E; [|by apply last_None in E].
      inversion H; subst. apply last_Some_elem_of in E. apply elem_of_app. by left.
    + exists p, (k' ++ x ++ b). by rewrite <- !app_assoc.
  - exists (a ++ x ++ k), q. by rewrite <- !app_assoc.
Qed.

Lemma found_after_newline (sub x s : str) (start : Z) :
  contains sub s = true -> NL ∉ sub ->
  Z.eqb (find sub (splice (find [NL] s start + 1) x s) 0) (-1) = false.
Proof.
  intros Hc Hsub. apply Z.eqb_neq. intros H. apply find_0_none in H. apply H.
  apply occurs_splice_after_newline; [done | by apply contains_occurs].
Qed.

(** An occurrence in a text with [x] inserted was there before, or takes in
    the first or the last character of [x], or lies within [x]. *)
Lemma occurs_insert_inv (sub a x b : str) :
  occurs sub (a ++ x ++ b) ->
  occurs sub (a ++ b)
  \/ (exists c, head x = Some c /\ c ∈ sub)
  \/ (exists c, last x = Some c /\ c ∈ sub)
  \/ occurs sub x.
Proof.
  intros (p & q & H).
  apply app_eq_inv in H as [(k & -> & Hk) | (k & -> & Hk)].
  - apply app_eq_inv in Hk as [(k' & -> & Hk') | (k' & -> & ->)].
    + destruct k' as [|c k'].
      { left. exists p, b. by rewrite app_nil_r, <- !app_assoc. }
      destruct x as [|x0 x].
      { left. exists p, q. simpl in Hk'. rewrite Hk'. by rewrite <- !app_assoc. }
      right; left. exists c. simplify_eq/=. split; [done|].
      apply elem_of_app. right. left.
    + left. exists p, (k' ++ b). by rewrite <- !app_assoc.
  - apply app_eq_inv in Hk as [(k' & -> & Hk') | (k' & -> & ->)].
    + apply app_eq_inv in Hk' as [(k'' & -> & ->) | (k'' & -> & ->)].
      * destruct k' as [|c k' _] using rev_ind.
        { left. by exists a, q. }
        right; right; left. exists c. split.
        -- rewrite app_assoc. apply last_snoc.
        -- apply elem_of_app. left. apply elem_of_app. right. left.
      * right; right; right. by exists k, k''.
    + left. exists (a ++ k'), q. by rewrite <- !app_assoc.
Qed.

Lemma avoids_spec (ch : char) (x : str) : avoids ch x = true -> ch ∉ x.
Proof.
  unfold avoids. rewrite forallb_forall. intros H Hin.
  apply list_elem_of_In, H in Hin. by rewrite N.eqb_refl in Hin.
Qed.

Lemma avoids_app (ch : char) (x y : str) : avoids ch (x ++ y) = avoids ch x && avoids ch y.
Proof. apply forallb_app. Qed.

Lemma generate_uuid_avoids_g (random : N) : avoids LETTER_g (generate_uuid random) = true.
Proof.
  unfold avoids. apply forallb_forall. intros c Hc.
  pose proof (generate_uuid_range random) as H. rewrite Forall_forall in H.
  apply list_elem_of_In, H in Hc. apply negb_true_iff, N.eqb_neq. unfold LETTER_g. lia.
Qed.

(** The build-file line of [add_to_xcode.py] does not bring in the marker of
    the file-reference section. *)
Lemma not_found_after_build_file (rnd : nat -> N) (pos : Z) (on_disk : str) :
  contains (lit "/* Begin PBXFileReference section */") on_disk = false ->
  Z.eqb (find (lit "/* Begin PBXFileReference section */")
           (splice pos (new_build_file (generate_uuid (rnd 1)) (generate_uuid (rnd 0))
                          AddToXcode.file_name) on_disk) 0) (-1) = true.
Proof.
  intros Hc. apply Z.eqb_eq, find_0_none. apply contains_false in Hc.
  unfold splice. intros Ho.
  apply occurs_insert_inv in Ho as [Ho | [(c & Hh & Hin) | [(c & Hl & Hin) | Ho]]].
  - by rewrite slice_to_from in Ho.
  - unfold new_build_file in Hh. simpl in Hh. inversion Hh; subst.
    revert Hin. apply avoids_spec. reflexivity.
  - rewrite last_new_build_file in Hl. inversion Hl; subst.
    revert Hin. apply avoids_spec. reflexivity.
  - destruct Ho as (p & q & Ho).
    assert (avoids LETTER_g (new_build_file (generate_uuid (rnd 1)) (generate_uuid (rnd 0))
                               AddToXcode.file_name) = true) as Hg.
    { unfold new_build_file. rewrite !avoids_app, !generate_uuid_avoids_g. reflexivity. }
    apply avoids_spec in Hg. apply Hg. rewrite Ho.
    apply elem_of_app. right. apply elem_of_app. left.
    vm_compute. do 5 right. left.
Qed.

Lemma add_to_xcode_aborts_too (rnd : nat -> N) (on_disk : str) :
  contains (lit "/* Begin PBXFileReference section */") on_disk = false ->
  written (AddToXcode.main rnd (Some on_disk)) = None
  /\ exit_code (AddToXcode.main rnd (Some on_disk)) = 1%Z.
Proof.
  intros H. unfold AddToXcode.main, AddToXcode.add_file_manually.
  destruct (_ =? _)%Z; [split; reflexivity|]. cbv zeta.
  rewrite (not_found_after_build_file rnd _ on_disk H). split; reflexivity.
Qed.

Lemma add_to_xcode_aborts (rnd : nat -> N) (on_disk : str) :
  contains (lit "/* Begin PBXBuildFile section */") on_disk = false ->
  written (AddToXcode.main rnd (Some on_disk)) = None
  /\ exit_code (AddToXcode.main rnd (Some on_disk)) = 1%Z.
Proof.
  unfold contains. rewrite negb_false_iff. intros H.
  unfold AddToXcode.main, AddToXcode.add_file_manually. rewrite H. split; reflexivity.
Qed.

Lemma add_to_xcode_writes (rnd : nat -> N) (on_disk : str) :
  contains (lit "/* Begin PBXBuildFile section */") on_disk = true ->
  contains (lit "/* Begin PBXFileReference section */") on_disk = true ->
  (exists w, written (AddToXcode.main rnd (Some on_disk)) = Some w)
  /\ exit_code (AddToXcode.main rnd (Some on_disk)) = 0%Z.
Proof.
  intros H1 H2. pose proof H1 as H1'. unfold contains in H1'.
  rewrite negb_true_iff in H1'.
  unfold AddToXcode.main, AddToXcode.add_file_manually. rewrite H1'. cbv zeta.
  rewrite (found_after_newline (lit "/* Begin PBXFileReference section */")); [|done|].
  - cbn [snd fst written exit_code]. split; [by eexists | done].
  - vm_compute. intros Hin.
    repeat (apply elem_of_cons in Hin as [Hin|Hin]; [discriminate|]).
    by apply elem_of_nil in Hin.
Qed.

(** C6, as amended. In the two batch scripts a lookup that fails never stops
    the run: every request is dealt with, the manifest is written and the
    exit status is 0; a missing group anchor or target marker skips only
    its own sub-insertion. In [add_to_xcode.py] a missing group anchor or
    [Sources] marker is as soft, but a missing [PBXBuildFile] or
    [PBXFileReference] section marker ends the run with status 1 and nothing
    written. *)
Theorem missing_anchor_is_soft (rnd : nat -> N) (project_file on_disk : str) :
  ((exists w, written (AddPhaseFiles.main rnd project_file (Some on_disk)) = Some w)
   /\ exit_code (AddPhaseFiles.main rnd project_file (Some on_disk)) = 0%Z
   /\ Forall (handled (printed (AddPhaseFiles.main rnd project_file (Some on_disk))))
        (AddPhaseFiles.main_target_files ++ AddPhaseFiles.test_target_files))
  /\ ((exists w, written (AddPhase3Files.main rnd project_file (Some on_disk)) = Some w)
      /\ exit_code (AddPhase3Files.main rnd project_file (Some on_disk)) = 0%Z
      /\ Forall (handled (printed (AddPhase3Files.main rnd project_file (Some on_disk))))
           AddPhase3Files.main_target_files)
  /\ (forall b r n m c : str,
        (contains (lit "ContentView.swift") c = true \/ add_to_NaviGPT_group r n c = c)
        /\ (contains (lit "/* Services */") c = true
            \/ contains (lit "ContentView.swift") c = true
            \/ add_to_Services_group r n c = c)
        /\ (contains (lit "E1F569E22C501D8A0010BF96 /* Intern1Tests */") c = true
            \/ add_to_Intern1Tests_group r n c = c)
        /\ (contains m c = true \/ add_to_PBXSourcesBuildPhase m b n c = c))
  /\ (contains (lit "/* Begin PBXBuildFile section */") on_disk = true
      \/ (written (AddToXcode.main rnd (Some on_disk)) = None
          /\ exit_code (AddToXcode.main rnd (Some on_disk)) = 1%Z))
  /\ (contains (lit "/* Begin PBXFileReference section */") on_disk = true
      \/ (written (AddToXcode.main rnd (Some on_disk)) = None
          /\ exit_code (AddToXcode.main rnd (Some on_disk)) = 1%Z))
  /\ (contains (lit "/* Begin PBXBuildFile section */") on_disk = false
      \/ contains (lit "/* Begin PBXFileReference section */") on_disk = false
      \/ ((exists w, written (AddToXcode.main rnd (Some on_disk)) = Some w)
          /\ exit_code (AddToXcode.main rnd (Some on_disk)) = 0%Z)).
Proof.
  destruct (registration_settles rnd project_file on_disk) as ((w & Hw & H) & (w3 & Hw3 & H3)).
  split; [|split; [|split; [|split; [|split]]]].
  - split; [exists w; exact Hw|].
    split; [apply add_phase_exit_code | exact (settled_handled _ _ _ H)].
  - split; [exists w3; exact Hw3|].
    split; [apply add_phase3_exit_code | exact (settled_handled _ _ _ H3)].
  - intros b r n m c.
    auto using not_found_NaviGPT_group, not_found_Services_group,
      not_found_Intern1Tests_group, not_found_PBXSourcesBuildPhase.
  - destruct (contains (lit "/* Begin PBXBuildFile section */") on_disk) eqn:E;
      [left; reflexivity | right; exact (add_to_xcode_aborts rnd on_disk E)].
  - destruct (contains (lit "/* Begin PBXFileReference section */") on_disk) eqn:E;
      [left; reflexivity | right; exact (add_to_xcode_aborts_too rnd on_disk E)].
  - destruct (contains (lit "/* Begin PBXBuildFile section */") on_disk) eqn:E1;
      [|left; reflexivity].
    destruct (contains (lit "/* Begin PBXFileReference section */") on_disk) eqn:E2;
      [|right; left; reflexivity].
    right; right. exact (add_to_xcode_writes rnd on_disk E1 E2).
Qed.

(** ** Where the memberships go *)

Lemma splice_nonneg (j : Z) (x s : str) :
  (0 <= j)%Z -> splice j x s = take (Z.to_nat j) s ++ x ++ drop (Z.to_nat j) s.
Proof.
  intros Hj. unfold splice, slice_to, slice_from, adjust.
  by destruct (Z.ltb_spec j 0); [lia|].
Qed.

Lemma navigpt_sources_no_f : LETTER_f ∉ navigpt_sources.
Proof.
  vm_compute. intros Hin.
  repeat (apply elem_of_cons in Hin as [Hin|Hin]; [discriminate|]).
  by apply elem_of_nil in Hin.
Qed.

Lemma splice_inserted (pos : Z) (x s : str) : inserted x s (splice pos x s).
Proof.
  exists (slice_to pos s), (slice_from pos s). by rewrite slice_to_from.
Qed.

Lemma records_cross_referenced (b r n : str) : cross_referenced b r n.
Proof.
  unfold cross_referenced.
  split; [unfold new_build_file; eexists; by rewrite <- !app_assoc|].
  split.
  { unfold new_build_file. eexists ([TAB; TAB] ++ b ++ lit " /* " ++ n
      ++ lit " in Sources */ = {isa = PBXBuildFile; "), _.
    change (lit " in Sources */ = {isa = PBXBuildFile; fileRef = ")
      with (lit " in Sources */ = {isa = PBXBuildFile; " ++ lit "fileRef = ").
    rewrite <- !app_assoc. reflexivity. }
  split; [unfold new_file_ref; eexists; by rewrite <- !app_assoc|].
  split.
  - unfold new_child, group_member. exists [TAB; TAB; TAB; TAB], [NL; TAB; TAB; TAB].
    by rewrite <- !app_assoc.
  - unfold new_source, sources_member. exists [TAB; TAB; TAB; TAB], [NL; TAB; TAB; TAB].
    by rewrite <- !app_assoc.
Qed.

Lemma sources_marker_no_f : LETTER_f ∉ lit "/* Sources */ = {".
Proof.
  vm_compute. intros Hin.
  repeat (apply elem_of_cons in Hin as [Hin|Hin]; [discriminate|]).
  by apply elem_of_nil in Hin.
Qed.

Lemma section_marker_no_newline : NL ∉ lit "/* Begin PBXFileReference section */".
Proof.
  vm_compute. intros Hin.
  repeat (apply elem_of_cons in Hin as [Hin|Hin]; [discriminate|]).
  by apply elem_of_nil in Hin.
Qed.

(** What [add_file_manually] writes when both section markers are there and
    the lookups of its Sources block succeed. *)
Lemma add_file_manually_written (rnd : nat -> N) (on_disk : str) :
  let n := AddToXcode.file_name in
  let r := generate_uuid (rnd 0) in
  let b := generate_uuid (rnd 1) in
  let c3 := add_to_NaviGPT_group r n
              (add_to_PBXFileReference_section r n
                 (add_to_PBXBuildFile_section b r n on_disk)) in
  contains (lit "/* Begin PBXBuildFile section */") on_disk = true ->
  contains (lit "/* Begin PBXFileReference section */") on_disk = true ->
  sources_located (lit "/* Sources */ = {") c3 ->
  written (AddToXcode.main rnd (Some on_disk))
  = Some (add_to_PBXSourcesBuildPhase (lit "/* Sources */ = {") b n c3).
Proof.
  intros n r b c3 H1 H2 (Hs1 & Hs2 & _).
  unfold contains in H1. rewrite negb_true_iff in H1.
  apply Z.eqb_neq in Hs1, Hs2.
  unfold AddToXcode.main, AddToXcode.add_file_manually. rewrite H1. cbv zeta.
  rewrite (found_after_newline (lit "/* Begin PBXFileReference section */"))
    by (done || apply section_marker_no_newline).
  fold n r b.
  change (splice (find [NL] on_disk (find (lit "/* Begin PBXBuildFile section */") on_disk 0) + 1)
            (new_build_file b r n) on_disk)
    with (add_to_PBXBuildFile_section b r n on_disk).
  change (splice (find [NL] (add_to_PBXBuildFile_section b r n on_disk)
                    (find (lit "/* Begin PBXFileReference section */")
                       (add_to_PBXBuildFile_section b r n on_disk) 0) + 1)
            (new_file_ref r n) (add_to_PBXBuildFile_section b r n on_disk))
    with (add_to_PBXFileReference_section r n (add_to_PBXBuildFile_section b r n on_disk)).
  fold c3. unfold add_to_PBXSourcesBuildPhase. rewrite Hs1, Hs2. reflexivity.
Qed.

(** ** Where the group membership is looked for *)

Lemma add_to_NaviGPT_group_resolution (r n c : str) :
  add_to_NaviGPT_group r n c
  = if contains (lit "ContentView.swift") c
    then add_child_before (find (lit "ContentView.swift") c 0) r n c
    else c.
Proof.
  unfold add_to_NaviGPT_group, add_child_before, contains. by destruct (negb _).
Qed.

Lemma add_to_Services_group_resolution (r n c : str) :
  add_to_Services_group r n c
  = if contains (lit "/* Services */") c
    then add_child_before (find (lit "/* Services */") c 0 + 100) r n c
    else if contains (lit "ContentView.swift") c
    then add_child_before (find (lit "ContentView.swift") c 0) r n c
    else c.
Proof.
  unfold add_to_Services_group. rewrite add_to_NaviGPT_group_resolution.
  unfold add_child_before, contains. by destruct (negb _).
Qed.

(** ** The claims on the sample inputs *)

(** C1. The code at the failing input [truncated_manifest]: the second run
    does not write back what the first run wrote. The first run skips
    [ConfigManager.swift], which the manifest ends with, and then cuts that
    name in two when it inserts a group membership at the unchecked index
    [-1] of a failed lookup; the second run no longer finds the name and
    registers the file. *)
Lemma register_twice_differs :
  written (AddPhaseFiles.main sample_urandom []
             (file_after (Some truncated_manifest)
                (AddPhaseFiles.main sample_urandom [] (Some truncated_manifest))))
  <> written (AddPhaseFiles.main sample_urandom [] (Some truncated_manifest)).
Proof.
  intros H. apply (f_equal (fun o => length (text_of o))) in H.
  vm_compute in H. discriminate.
Qed.

(** C3 as stated fails on [bare_manifest]: after the run the build-file
    entry of [ConfigManager.swift] stands in the manifest, its group
    membership does not. *)
Lemma registration_not_atomic :
  ~ all_or_nothing (generate_uuid (sample_urandom 1)) (generate_uuid (sample_urandom 0))
      (lit "ConfigManager.swift")
      (text_of (written (AddPhaseFiles.main sample_urandom [] (Some bare_manifest)))).
Proof.
  intros [(_ & _ & H & _) | (H & _)].
  - apply contains_occurs in H. vm_compute in H. discriminate.
  - apply H. apply contains_occurs. vm_compute. reflexivity.
Qed.

(** The hypothesis of C4 holds of a state whose text mentions the name. *)
Lemma duplicate_is_skipped_witness :
  contains (snd config_manager) (content (Env (lit "/* ConfigManager.swift */") ∅ [] 0))
  = true
  /\ skipped (AddPhaseFiles.add_main_target_file sample_urandom)
       (Env (lit "/* ConfigManager.swift */") ∅ [] 0) config_manager.
Proof.
  assert (contains (snd config_manager)
            (content (Env (lit "/* ConfigManager.swift */") ∅ [] 0)) = true) as H
    by (vm_compute; reflexivity).
  split; [exact H|].
  exact (proj1 (duplicate_is_skipped sample_urandom _ config_manager H)).
Defined.

(** C6 as stated fails on [empty_manifest]: [add_to_xcode.py] finds no
    [PBXBuildFile] section marker, writes nothing and ends with status 1. *)
Lemma missing_section_aborts :
  contains (lit "/* Begin PBXBuildFile section */") empty_manifest = false
  /\ written (AddToXcode.main sample_urandom (Some empty_manifest)) = None
  /\ exit_code (AddToXcode.main sample_urandom (Some empty_manifest)) = 1%Z
  /\ file_after (Some empty_manifest) (AddToXcode.main sample_urandom (Some empty_manifest))
     = Some empty_manifest.
Proof. vm_compute. repeat split. Qed.


(** * Further properties of the scripts *)

(** ** Registering twice *)

(** X20. Registering twice is registering once on every manifest that does
    not end with the letter [t], the last character of every requested
    display name (so on every manifest that ends with a line break): the
    second run, whatever identifiers it would draw, writes back the text of
    the first run and prints a skip message for every request. This holds
    for both batch scripts. *)
Theorem register_twice_is_register_once
    (rnd1 rnd2 : nat -> N) (project_file on_disk : str) :
  last on_disk <> Some LETTER_t ->
  (let once := AddPhaseFiles.main rnd1 project_file (Some on_disk) in
   let twice := AddPhaseFiles.main rnd2 project_file (file_after (Some on_disk) once) in
   written twice = written once
   /\ forall f, f ∈ AddPhaseFiles.main_target_files ++ AddPhaseFiles.test_target_files ->
        skip_msg (snd f) ∈ printed twice)
  /\ (let once := AddPhase3Files.main rnd1 project_file (Some on_disk) in
      let twice := AddPhase3Files.main rnd2 project_file (file_after (Some on_disk) once) in
      written twice = written once
      /\ forall f, f ∈ AddPhase3Files.main_target_files -> skip_msg (snd f) ∈ printed twice).
Proof.
  intros Ht. split; intros once twice; subst once twice.
  - destruct (add_phase_first_run rnd1 project_file on_disk Ht) as (w & Hw & Hocc).
    unfold file_after. rewrite Hw.
    destruct (add_phase_second_run rnd2 project_file w Hocc) as [H1 H2]. by rewrite H1.
  - destruct (add_phase3_first_run rnd1 project_file on_disk Ht) as (w & Hw & Hocc).
    unfold file_after. rewrite Hw.
    destruct (add_phase3_second_run rnd2 project_file w Hocc) as [H1 H2]. by rewrite H1.
Qed.

(** The hypothesis of X20 holds of [grouped_project], which is therefore
    left as the first run made it by a second run. *)
Lemma register_twice_witness :
  last grouped_project <> Some LETTER_t
  /\ written (AddPhaseFiles.main sample_urandom []
                (file_after (Some grouped_project)
                   (AddPhaseFiles.main sample_urandom [] (Some grouped_project))))
     = written (AddPhaseFiles.main sample_urandom [] (Some grouped_project)).
Proof.
  assert (last grouped_project <> Some LETTER_t) as H by (vm_compute; discriminate).
  split; [exact H|].
  exact (proj1 (proj1 (register_twice_is_register_once
                         sample_urandom sample_urandom [] grouped_project H))).
Defined.

(** ** The identifier generator *)

Lemma hex_length (w : nat) (n : N) : length (Uuid.hex w n) = w.
Proof.
  revert n. induction w as [|w IH]; intros n; simpl; [done|].
  rewrite length_app, IH. simpl. lia.
Qed.

Lemma hex_digit_lower (d : N) :
  (d < 16)%N ->
  let c := Uuid.hex_digit d in
  (48 <= c <= 57)%N \/ (97 <= c <= 102)%N.
Proof. intros Hd c. subst c. unfold Uuid.hex_digit. destruct (N.ltb_spec d 10); lia. Qed.

Lemma hex_lower (w : nat) (n : N) :
  Forall (fun c => (48 <= c <= 57)%N \/ (97 <= c <= 102)%N) (Uuid.hex w n).
Proof.
  revert n. induction w as [|w IH]; intros n; simpl; [constructor|].
  apply Forall_app. split; [apply IH|].
  constructor; [|constructor]. apply hex_digit_lower. by apply N.mod_lt.
Qed.

(** Replacing a one-character string by the empty string deletes that
    character. *)
Lemma replace_single_by_empty (c : char) (s : str) :
  replace [c] [] s = filter (fun x => x <> c) s.
Proof.
  unfold replace. induction s as [|x s IH]; [done|].
  cbn [replace_go starts_with]. rewrite filter_cons.
  destruct (N.eqb_spec c x) as [->|Hne]; cbn [andb length Nat.sub app].
  - rewrite IH. by destruct (decide (x <> x)).
  - rewrite IH. destruct (decide (x <> c)) as [|Hn]; [done|].
    exfalso. apply Hn. congruence.
Qed.

Lemma filter_Forall_id (P : char -> Prop) `{!forall x, Decision (P x)} (l : str) :
  Forall P l -> filter P l = l.
Proof.
  induction 1 as [|x l Hx Hl IH]; [done|].
  rewrite filter_cons. destruct (decide (P x)); [by rewrite IH | done].
Qed.

Lemma regroup_8_4_4_4_12 (h : str) :
  take 8 h ++ take 4 (drop 8 h) ++ take 4 (drop 12 h) ++ take 4 (drop 16 h) ++ drop 20 h = h.
Proof.
  rewrite !app_assoc.
  rewrite (take_take_drop h 8 4). simpl Nat.add.
  rewrite (take_take_drop h 12 4). simpl Nat.add.
  rewrite (take_take_drop h 16 4). simpl Nat.add.
  apply take_drop.
Qed.

(** The hyphens that [str(uuid)] puts in are the ones [replace] takes out. *)
Lemma to_str_without_hyphens (u : N) :
  replace (lit "-") [] (Uuid.to_str u) = Uuid.hex 32 u.
Proof.
  unfold Uuid.to_str. cbv zeta.
  pose proof (hex_lower 32 u) as Hh. revert Hh. generalize (Uuid.hex 32 u). intros h Hh.
  change (lit "-") with [45%N]. rewrite replace_single_by_empty.
  assert (forall l : str,
            Forall (fun c => (48 <= c <= 57)%N \/ (97 <= c <= 102)%N) l ->
            filter (fun x => x <> 45%N) l = l) as Hid.
  { intros l Hl. apply filter_Forall_id. eapply Forall_impl; [exact Hl|].
    intros c Hc. cbv beta in *. lia. }
  assert (filter (fun x : N => x <> 45%N) [45%N] = []) as Hhy by reflexivity.
  rewrite !filter_app, !Hhy, !app_nil_l.
  rewrite !Hid by auto using Forall_take, Forall_drop.
  apply regroup_8_4_4_4_12.
Qed.

(** [generate_uuid] is the upper-case form of the first 24 hexadecimal
    digits of the uuid. *)
Lemma generate_uuid_digits (random : N) :
  generate_uuid random = upper (take 24 (Uuid.hex 32 (Uuid.uuid4 random))).
Proof. unfold generate_uuid. by rewrite to_str_without_hyphens. Qed.

Lemma generate_uuid_hex_digits (random : N) :
  forallb upper_hex_digit (generate_uuid random) = true.
Proof.
  rewrite generate_uuid_digits.
  pose proof (hex_lower 32 (Uuid.uuid4 random)) as H.
  revert H. generalize (Uuid.hex 32 (Uuid.uuid4 random)). intros h H.
  apply forallb_forall. intros c Hc. unfold upper in Hc.
  apply in_map_iff in Hc as (x & <- & Hx). apply list_elem_of_In in Hx.
  apply (Forall_take _ 24) in H. rewrite Forall_forall in H. specialize (H x Hx).
  unfold upper_hex_digit, upper_char.
  destruct (N.leb_spec 97 x), (N.leb_spec x 122); cbn [andb];
    repeat match goal with
           | |- context [N.leb ?a ?b] => destruct (N.leb_spec a b)
           end; cbn [andb orb]; try reflexivity; lia.
Qed.

(** X1. Every identifier has exactly 24 characters, each an upper-case
    hexadecimal digit, whatever the random value drawn. *)
Theorem generate_uuid_format (random : N) :
  length (generate_uuid random) = 24%nat
  /\ forallb upper_hex_digit (generate_uuid random) = true.
Proof.
  split; [|apply generate_uuid_hex_digits].
  rewrite generate_uuid_digits. unfold upper.
  rewrite length_map, length_take, hex_length. reflexivity.
Qed.

(** ** Where the lookups land *)

(** The value of a lookup is fixed by an occurrence with none before it. *)
Lemma find_is (sub s : str) (start v : Z) :
  (adjust start s <= v <= len s)%Z ->
  sub `prefix_of` drop (Z.to_nat v) s ->
  (forall m : Z, (adjust start s <= m < v)%Z -> ~ sub `prefix_of` drop (Z.to_nat m) s) ->
  find sub s start = v.
Proof.
  intros Hv Hp Hbefore.
  destruct (Z.eq_dec (find sub s start) (-1)%Z) as [Hn | Hn].
  - exfalso. exact (find_none _ _ _ Hn v Hv Hp).
  - destruct (find_some _ _ _ _ eq_refl Hn) as (Hb & Hp' & Hmin).
    destruct (Z.lt_trichotomy (find sub s start) v) as [Hlt | [Heq | Hgt]].
    + exfalso. apply (Hbefore (find sub s start)); [lia | exact Hp'].
    + exact Heq.
    + exfalso. apply (Hmin v); [lia | exact Hp].
Qed.

Lemma removelast_snoc (sub : str) :
  sub <> [] -> exists z, sub = removelast sub ++ [z].
Proof.
  intros Hs. destruct (exists_last Hs) as (l & z & ->). exists z.
  by rewrite removelast_last.
Qed.

(** An occurrence of [sub] that starts inside [mid], in a text that goes on
    with [sub], contradicts [first_in sub mid]. *)
Lemma prefix_drop_first_in (sub mid rest : str) (k : nat) :
  (k < length mid)%nat -> sub `prefix_of` drop k (mid ++ sub ++ rest) ->
  occurs sub (mid ++ removelast sub).
Proof.
  intros Hk [q Hq].
  destruct sub as [|s0 sub0]; [exists [], (mid ++ removelast []); done|].
  destruct (removelast_snoc (s0 :: sub0) ltac:(done)) as [z Hz].
  set (sub := s0 :: sub0) in *.
  assert (length sub = S (length (removelast sub))) as Hlen.
  { rewrite Hz at 1. rewrite length_app. simpl. lia. }
  exists (take k mid), (drop (k + length sub) (mid ++ removelast sub)).
  assert (take (k + length sub) (mid ++ sub ++ rest)
          = take k mid ++ sub) as Ht.
  { rewrite <- (take_take_drop _ k (length sub)), Hq.
    rewrite take_app_le by lia. f_equal.
    by rewrite take_app_length. }
  assert (take (k + length sub) (mid ++ sub ++ rest)
          = take (k + length sub) (mid ++ removelast sub)) as Ht'.
  { rewrite Hz at 2. rewrite <- !app_assoc, (app_assoc mid).
    rewrite take_app_le; [done|]. rewrite length_app. lia. }
  rewrite app_assoc, <- Ht, Ht'. symmetry. apply take_drop.
Qed.

(** The first occurrence of [sub] at or after the end of [pre]. *)
Lemma find_after (sub pre mid rest : str) :
  first_in sub mid ->
  find sub (pre ++ mid ++ sub ++ rest) (len pre) = (len pre + len mid)%Z.
Proof.
  intros Hfirst.
  assert (adjust (len pre) (pre ++ mid ++ sub ++ rest) = len pre) as Ha.
  { unfold adjust. pose proof (len_nonneg pre). by destruct (Z.ltb_spec (len pre) 0); [lia|]. }
  apply find_is; rewrite ?Ha.
  - rewrite !len_app. pose proof (len_nonneg mid). pose proof (len_nonneg sub).
    pose proof (len_nonneg rest). lia.
  - unfold len. rewrite <- Nat2Z.inj_add, Nat2Z.id, <- length_app.
    rewrite app_assoc, drop_app_length. by eexists.
  - intros m Hm Hp. apply Hfirst.
    apply (prefix_drop_first_in sub mid rest (Z.to_nat m - length pre)).
    + unfold len in Hm. lia.
    + replace (Z.to_nat m) with (length pre + (Z.to_nat m - length pre))%nat in Hp
        by (unfold len in Hm; lia).
      by rewrite drop_app_add in Hp.
Qed.

Lemma find_first (sub a rest : str) :
  first_in sub a -> find sub (a ++ sub ++ rest) 0 = len a.
Proof. intros H. exact (find_after sub [] a rest H). Qed.

Lemma splice_at_len (p x q : str) : splice (len p) x (p ++ q) = p ++ x ++ q.
Proof.
  rewrite splice_nonneg by apply len_nonneg. unfold len. rewrite Nat2Z.id.
  by rewrite take_app_length, drop_app_length.
Qed.

Lemma not_occurs_single (c : char) (s : str) : c ∉ s -> ~ occurs [c] s.
Proof.
  intros Hc (p & q & ->). apply Hc. apply elem_of_app. right. by left.
Qed.

(** A text is spliced just after the line that holds the first [marker]. *)
Lemma splice_below_header (marker x a m rest : str) :
  first_in marker a -> NL ∉ marker -> NL ∉ m ->
  let c := a ++ marker ++ m ++ [NL] ++ rest in
  splice (find [NL] c (find marker c 0) + 1) x c = a ++ marker ++ m ++ [NL] ++ x ++ rest.
Proof.
  intros Hfirst Hmk Hm c. subst c.
  rewrite (find_first marker a (m ++ [NL] ++ rest) Hfirst).
  replace (a ++ marker ++ m ++ [NL] ++ rest) with (a ++ (marker ++ m) ++ [NL] ++ rest)
    by (by rewrite <- !app_assoc).
  rewrite (find_after [NL] a (marker ++ m) rest).
  - replace (len a + len (marker ++ m) + 1)%Z with (len (a ++ (marker ++ m) ++ [NL]))
      by (rewrite !len_app; change (len [NL]) with 1%Z; lia).
    replace (a ++ (marker ++ m) ++ [NL] ++ rest) with ((a ++ (marker ++ m) ++ [NL]) ++ rest)
      by (by rewrite <- !app_assoc).
    rewrite splice_at_len. by rewrite <- !app_assoc.
  - unfold first_in. simpl removelast. rewrite app_nil_r.
    apply not_occurs_single. intros Hin. apply elem_of_app in Hin as [Hin | Hin]; tauto.
Qed.

Lemma no_newline_in (s : str) : forallb (fun c => negb (c =? NL)%N) s = true -> NL ∉ s.
Proof. intros H. by apply (avoids_spec NL s). Qed.

Lemma build_file_section_no_newline : NL ∉ build_file_section.
Proof. apply no_newline_in. reflexivity. Qed.

Lemma file_reference_section_no_newline : NL ∉ file_reference_section.
Proof. apply no_newline_in. reflexivity. Qed.

(** The two entry insertions, with their section headers named. *)
Lemma add_to_PBXBuildFile_section_eq (b r n c : str) :
  add_to_PBXBuildFile_section b r n c
  = splice (find [NL] c (find build_file_section c 0) + 1) (new_build_file b r n) c.
Proof. unfold add_to_PBXBuildFile_section, build_file_section. reflexivity. Qed.

Lemma add_to_PBXFileReference_section_eq (r n c : str) :
  add_to_PBXFileReference_section r n c
  = splice (find [NL] c (find file_reference_section c 0) + 1) (new_file_ref r n) c.
Proof. unfold add_to_PBXFileReference_section, file_reference_section. reflexivity. Qed.

(** X2. When the section header is there and its line is ended by a line
    break, the new entry becomes the line directly below the first header:
    everything before it and everything after it is left as it was. *)
Theorem entry_goes_below_the_section_header (b r n a m rest : str) :
  NL ∉ m ->
  (first_in build_file_section a ->
   add_to_PBXBuildFile_section b r n (a ++ build_file_section ++ m ++ [NL] ++ rest)
   = a ++ build_file_section ++ m ++ [NL] ++ new_build_file b r n ++ rest)
  /\ (first_in file_reference_section a ->
      add_to_PBXFileReference_section r n (a ++ file_reference_section ++ m ++ [NL] ++ rest)
      = a ++ file_reference_section ++ m ++ [NL] ++ new_file_ref r n ++ rest).
Proof.
  intros Hm. split; intros Hfirst.
  - rewrite add_to_PBXBuildFile_section_eq.
    exact (splice_below_header build_file_section (new_build_file b r n) a m rest
             Hfirst build_file_section_no_newline Hm).
  - rewrite add_to_PBXFileReference_section_eq.
    exact (splice_below_header file_reference_section (new_file_ref r n) a m rest
             Hfirst file_reference_section_no_newline Hm).
Qed.

Lemma entry_goes_below_the_section_header_witness :
  (NL ∉ lit " (generated)")
  /\ first_in build_file_section sample_before
  /\ add_to_PBXBuildFile_section sample_build_uuid sample_ref_uuid sample_name
       (sample_before ++ build_file_section ++ lit " (generated)" ++ [NL] ++ sample_after)
     = sample_before ++ build_file_section ++ lit " (generated)" ++ [NL]
         ++ new_build_file sample_build_uuid sample_ref_uuid sample_name ++ sample_after.
Proof.
  assert (NL ∉ lit " (generated)") as Hm by (apply no_newline_in; reflexivity).
  assert (first_in build_file_section sample_before) as Hfirst
    by (apply contains_false; vm_compute; reflexivity).
  split; [exact Hm|]. split; [exact Hfirst|].
  exact (proj1 (entry_goes_below_the_section_header sample_build_uuid sample_ref_uuid
                  sample_name sample_before (lit " (generated)") sample_after Hm) Hfirst).
Defined.

(** ** Lookups that fail *)

(** [content.find('\n', -1) + 1]: the length of the text when it ends with a
    line break, 0 otherwise. *)
Lemma find_newline_from_minus_1 (c : str) :
  (find [NL] c (-1) + 1)%Z = if ends_with_newline c then len c else 0%Z.
Proof.
  destruct c as [|c0 c1] using rev_ind; [reflexivity|]. clear IHc1.
  rename c0 into z. rename c1 into body.
  unfold ends_with_newline. rewrite last_snoc.
  unfold find.
  assert (adjust (-1) (body ++ [z]) = len body) as ->.
  { unfold adjust. rewrite len_app. pose proof (len_nonneg body).
    change (len [z]) with 1%Z. change (-1 <? 0)%Z with true. cbv iota. lia. }
  rewrite len_app. change (len [z]) with 1%Z.
  destruct (Z.ltb_spec (len body + 1) (len body)) as [Hlt|_]; [lia|].
  unfold len. rewrite Nat2Z.id, drop_app_length.
  cbn [find_at starts_with]. rewrite (N.eqb_sym NL z).
  destruct (z =? NL)%N; cbn [andb]; lia.
Qed.

(** [content.find(sub, -1)] for a [sub] of two characters or more: nothing
    that long starts at the last character. *)
Lemma find_long_from_minus_1 (s0 s1 : char) (sub c : str) :
  find (s0 :: s1 :: sub) c (-1) = (-1)%Z.
Proof.
  destruct c as [|c0 c1] using rev_ind; [reflexivity|]. clear IHc1.
  rename c0 into z. rename c1 into body.
  unfold find.
  assert (adjust (-1) (body ++ [z]) = len body) as ->.
  { unfold adjust. rewrite len_app. pose proof (len_nonneg body).
    change (len [z]) with 1%Z. change (-1 <? 0)%Z with true. cbv iota. lia. }
  rewrite len_app. change (len [z]) with 1%Z.
  destruct (Z.ltb_spec (len body + 1) (len body)) as [Hlt|_]; [lia|].
  unfold len. rewrite Nat2Z.id, drop_app_length.
  cbn [find_at starts_with]. by rewrite andb_false_r.
Qed.

Lemma splice_before_last (x body : str) (z : char) :
  splice (-1) x (body ++ [z]) = body ++ x ++ [z].
Proof.
  unfold splice, slice_to, slice_from.
  assert (adjust (-1) (body ++ [z]) = len body) as ->.
  { unfold adjust. rewrite len_app. pose proof (len_nonneg body).
    change (len [z]) with 1%Z. change (-1 <? 0)%Z with true. cbv iota. lia. }
  unfold len. rewrite Nat2Z.id. by rewrite take_app_length, drop_app_length.
Qed.

Lemma splice_after_missing_header (x c : str) :
  splice (find [NL] c (-1) + 1) x c = if ends_with_newline c then c ++ x else x ++ c.
Proof.
  rewrite find_newline_from_minus_1. destruct (ends_with_newline c).
  - rewrite <- (app_nil_r c) at 2. rewrite splice_at_len. by rewrite app_nil_r.
  - exact (splice_at_len [] x c).
Qed.

Lemma contains_false_find (sub c : str) :
  contains sub c = false -> find sub c 0 = (-1)%Z.
Proof. unfold contains. rewrite negb_false_iff. apply Z.eqb_eq. Qed.

Lemma contains_true_find (sub c : str) :
  contains sub c = true -> (find sub c 0 =? -1)%Z = false.
Proof. unfold contains. by rewrite negb_true_iff. Qed.

(** X3. The batch scripts do not check the lookup of a section header. When
    the header is missing, the entry line is put at the very end of a text
    that ends with a line break, and in front of the first line of any
    other text. *)
Theorem entry_without_section_header (b r n c : str) :
  (contains build_file_section c = false ->
   add_to_PBXBuildFile_section b r n c
   = if ends_with_newline c then c ++ new_build_file b r n else new_build_file b r n ++ c)
  /\ (contains file_reference_section c = false ->
      add_to_PBXFileReference_section r n c
      = if ends_with_newline c then c ++ new_file_ref r n else new_file_ref r n ++ c).
Proof.
  split; intros Hc; apply contains_false_find in Hc.
  - rewrite add_to_PBXBuildFile_section_eq, Hc. apply splice_after_missing_header.
  - rewrite add_to_PBXFileReference_section_eq, Hc. apply splice_after_missing_header.
Qed.

Lemma entry_without_section_header_witness :
  contains build_file_section (lit "{}") = false
  /\ add_to_PBXBuildFile_section sample_build_uuid sample_ref_uuid sample_name (lit "{}")
     = new_build_file sample_build_uuid sample_ref_uuid sample_name ++ lit "{}".
Proof.
  assert (contains build_file_section (lit "{}") = false) as Hc by reflexivity.
  split; [exact Hc|].
  exact (proj1 (entry_without_section_header sample_build_uuid sample_ref_uuid sample_name
                  (lit "{}")) Hc).
Defined.

(** The membership sub-insertions, with their literals named. *)
Lemma add_to_PBXSourcesBuildPhase_eq (marker b n c : str) :
  add_to_PBXSourcesBuildPhase marker b n c
  = if negb (find marker c 0 =? -1)%Z
    then splice (find list_closing c (find files_opening c (find marker c 0)))
           (new_source b n) c
    else c.
Proof.
  unfold add_to_PBXSourcesBuildPhase, list_closing, files_opening. reflexivity.
Qed.

Lemma add_to_Intern1Tests_group_eq (r n c : str) :
  add_to_Intern1Tests_group r n c
  = if negb (find intern1tests_group c 0 =? -1)%Z
    then splice (find list_closing c (find children_opening c (find intern1tests_group c 0)))
           (new_child r n) c
    else c.
Proof.
  unfold add_to_Intern1Tests_group, list_closing, children_opening, intern1tests_group.
  reflexivity.
Qed.

Lemma add_child_before_eq (limit : Z) (r n c : str) :
  add_child_before limit r n c
  = if negb (rfind children_opening c 0 limit =? -1)%Z
    then splice (find list_closing c (rfind children_opening c 0 limit)) (new_child r n) c
    else c.
Proof. unfold add_child_before, list_closing, children_opening. reflexivity. Qed.

Lemma add_to_NaviGPT_group_eq (r n c : str) :
  add_to_NaviGPT_group r n c
  = if negb (find content_view c 0 =? -1)%Z
    then add_child_before (find content_view c 0) r n c
    else c.
Proof.
  unfold add_to_NaviGPT_group, add_child_before, content_view. reflexivity.
Qed.

Lemma sources_located_eq (marker c : str) :
  sources_located marker c
  <-> find marker c 0 <> (-1)%Z
      /\ find files_opening c (find marker c 0) <> (-1)%Z
      /\ find list_closing c (find files_opening c (find marker c 0)) <> (-1)%Z.
Proof. unfold sources_located, files_opening, list_closing. reflexivity. Qed.

Lemma intern1tests_located_eq (c : str) :
  intern1tests_located c
  <-> find intern1tests_group c 0 <> (-1)%Z
      /\ find children_opening c (find intern1tests_group c 0) <> (-1)%Z
      /\ find list_closing c (find children_opening c (find intern1tests_group c 0))
         <> (-1)%Z.
Proof. unfold intern1tests_located, children_opening, list_closing. reflexivity. Qed.

Lemma group_located_eq (c : str) :
  group_located c
  <-> find content_view c 0 <> (-1)%Z
      /\ rfind children_opening c 0 (find content_view c 0) <> (-1)%Z
      /\ find list_closing c (rfind children_opening c 0 (find content_view c 0))
         <> (-1)%Z.
Proof. unfold group_located, content_view, children_opening, list_closing. reflexivity. Qed.

Lemma find_closing_from_minus_1 (c : str) : find list_closing c (-1) = (-1)%Z.
Proof. unfold list_closing. rewrite lit_close. apply find_long_from_minus_1. Qed.

(** When the list is not located after [target], the lookup of its closing
    gives [-1]: the opening is missing and the search starts from [-1], or
    the closing is missing. *)
Lemma closing_not_found (opening c : str) (target : Z) :
  ~ (find opening c target <> (-1)%Z
     /\ find list_closing c (find opening c target) <> (-1)%Z) ->
  find list_closing c (find opening c target) = (-1)%Z.
Proof.
  intros Hloc.
  destruct (Z.eq_dec (find opening c target) (-1)%Z) as [-> | Hfs].
  - apply find_closing_from_minus_1.
  - destruct (Z.eq_dec (find list_closing c (find opening c target)) (-1)%Z) as [H | Hfe];
      [exact H | tauto].
Qed.

(** X4. A membership whose anchor is found but whose list is not (it is not
    opened after the anchor, or never closed) is inserted all the same: the
    unchecked [-1] of the failed lookup is used as a slice index, so the
    membership lands just before the last character of the manifest. *)
Theorem membership_lands_before_the_last_character
    (marker b r n body : str) (z : char) :
  let c := body ++ [z] in
  (contains marker c = true -> ~ sources_located marker c ->
   add_to_PBXSourcesBuildPhase marker b n c = body ++ new_source b n ++ [z])
  /\ (contains intern1tests_group c = true -> ~ intern1tests_located c ->
      add_to_Intern1Tests_group r n c = body ++ new_child r n ++ [z])
  /\ (contains content_view c = true ->
      rfind children_opening c 0 (find content_view c 0) <> (-1)%Z ->
      ~ group_located c ->
      add_to_NaviGPT_group r n c = body ++ new_child r n ++ [z]).
Proof.
  intros c. split; [|split].
  - intros Hm Hloc. rewrite add_to_PBXSourcesBuildPhase_eq.
    rewrite (contains_true_find _ _ Hm). cbn [negb].
    rewrite closing_not_found; [apply splice_before_last|].
    intros H. apply Hloc, sources_located_eq. split; [|exact H].
    apply Z.eqb_neq. exact (contains_true_find _ _ Hm).
  - intros Hm Hloc. rewrite add_to_Intern1Tests_group_eq.
    rewrite (contains_true_find _ _ Hm). cbn [negb].
    rewrite closing_not_found; [apply splice_before_last|].
    intros H. apply Hloc, intern1tests_located_eq. split; [|exact H].
    apply Z.eqb_neq. exact (contains_true_find _ _ Hm).
  - intros Hm Hss Hloc. rewrite add_to_NaviGPT_group_eq, add_child_before_eq.
    rewrite (contains_true_find _ _ Hm). cbn [negb].
    apply Z.eqb_neq in Hss as Hss'. rewrite Hss'. cbn [negb].
    destruct (Z.eq_dec (find list_closing c (rfind children_opening c 0
                                              (find content_view c 0))) (-1)%Z)
      as [-> | Hfe]; [apply splice_before_last|].
    exfalso. apply Hloc, group_located_eq. split; [|split; [exact Hss | exact Hfe]].
    apply Z.eqb_neq. exact (contains_true_find _ _ Hm).
Qed.

Lemma membership_lands_before_the_last_character_witness :
  (contains navigpt_sources unclosed_manifest = true
   /\ ~ sources_located navigpt_sources unclosed_manifest
   /\ add_to_PBXSourcesBuildPhase navigpt_sources sample_build_uuid sample_name
        unclosed_manifest
      = unclosed_manifest_body ++ new_source sample_build_uuid sample_name ++ [RBRACE])
  /\ (contains intern1tests_group unclosed_manifest = true
      /\ ~ intern1tests_located unclosed_manifest
      /\ add_to_Intern1Tests_group sample_ref_uuid sample_name unclosed_manifest
         = unclosed_manifest_body ++ new_child sample_ref_uuid sample_name ++ [RBRACE])
  /\ (contains content_view unclosed_manifest = true
      /\ rfind children_opening unclosed_manifest 0
           (find content_view unclosed_manifest 0) <> (-1)%Z
      /\ ~ group_located unclosed_manifest
      /\ add_to_NaviGPT_group sample_ref_uuid sample_name unclosed_manifest
         = unclosed_manifest_body ++ new_child sample_ref_uuid sample_name ++ [RBRACE]).
Proof.
  pose proof (membership_lands_before_the_last_character navigpt_sources sample_build_uuid
                sample_ref_uuid sample_name unclosed_manifest_body RBRACE) as (H1 & H2 & H3).
  assert (contains navigpt_sources unclosed_manifest = true) as Hs by (vm_compute; reflexivity).
  assert (~ sources_located navigpt_sources unclosed_manifest) as Hns.
  { intros (_ & _ & H). apply H. vm_compute. reflexivity. }
  assert (contains intern1tests_group unclosed_manifest = true) as Hi
    by (vm_compute; reflexivity).
  assert (~ intern1tests_located unclosed_manifest) as Hni.
  { intros (_ & _ & H). apply H. vm_compute. reflexivity. }
  assert (contains content_view unclosed_manifest = true) as Hc
    by (vm_compute; reflexivity).
  assert (rfind children_opening unclosed_manifest 0
            (find content_view unclosed_manifest 0) <> (-1)%Z) as Hr.
  { vm_compute. discriminate. }
  assert (~ group_located unclosed_manifest) as Hng.
  { intros (_ & _ & H). apply H. vm_compute. reflexivity. }
  split; [|split].
  - split; [exact Hs|]. split; [exact Hns|]. exact (H1 Hs Hns).
  - split; [exact Hi|]. split; [exact Hni|]. exact (H2 Hi Hni).
  - split; [exact Hc|]. split; [exact Hr|]. split; [exact Hng|]. exact (H3 Hc Hr Hng).
Defined.

(** ** The exit status *)

Lemma add_to_xcode_status (rnd : nat -> N) (on_disk : str) :
  status_tells_write (AddToXcode.main rnd (Some on_disk)).
Proof.
  destruct (contains (lit "/* Begin PBXBuildFile section */") on_disk) eqn:Hb.
  - destruct (contains (lit "/* Begin PBXFileReference section */") on_disk) eqn:Hr.
    + destruct (add_to_xcode_writes rnd on_disk Hb Hr) as [Hw He]. left. split; assumption.
    + destruct (add_to_xcode_aborts_too rnd on_disk Hr) as [Hw He]. right. split; assumption.
  - destruct (add_to_xcode_aborts rnd on_disk Hb) as [Hw He]. right. split; assumption.
Qed.

(** X5. For each of the five scripts the exit status is 0 exactly when the
    project file was written: a run ends with status 0 after writing, or
    with status 1 without writing. When the project file is absent, every
    script ends with status 1 and creates nothing. *)
Theorem exit_status_tells_write (rnd : nat -> N) (project_file : str) (disk : option str) :
  (status_tells_write (AddPhaseFiles.main rnd project_file disk)
   /\ status_tells_write (AddPhase3Files.main rnd project_file disk)
   /\ status_tells_write (AddToXcode.main rnd disk)
   /\ status_tells_write (FixPath.main disk)
   /\ status_tells_write (RemoveRefs.main disk))
  /\ (failed_without_writing None (AddPhaseFiles.main rnd project_file None)
      /\ failed_without_writing None (AddPhase3Files.main rnd project_file None)
      /\ failed_without_writing None (AddToXcode.main rnd None)
      /\ failed_without_writing None (FixPath.main None)
      /\ failed_without_writing None (RemoveRefs.main None)).
Proof.
  split.
  - destruct disk as [d|].
    + split; [|split; [|split; [|split]]].
      * left. split; [exact (add_phase_exit_code rnd project_file d)|].
        exact (ex_intro _ _ (add_phase_written rnd project_file d)).
      * left. split; [exact (add_phase3_exit_code rnd project_file d)|].
        exact (ex_intro _ _ (add_phase3_written rnd project_file d)).
      * exact (add_to_xcode_status rnd d).
      * left. split; [reflexivity|]. exact (ex_intro _ (FixPath.fixed d) eq_refl).
      * left. split; [reflexivity|].
        exact (ex_intro _ (RemoveRefs.unregister (lit "NaviGPTCore.swift") d) eq_refl).
    + repeat split; right; split; reflexivity.
  - repeat split.
Qed.

(** ** Runs that change nothing *)

Lemma length_splice (pos : Z) (x s : str) :
  length (splice pos x s) = (length s + length x)%nat.
Proof.
  unfold splice. rewrite <- (slice_to_from pos s) at 3.
  rewrite !length_app. lia.
Qed.

Lemma length_edit (s s' : str) : edit s s' -> (length s <= length s')%nat.
Proof. intros [a x b _ _]. rewrite !length_app. lia. Qed.

Lemma length_edits (s s' : str) : rtc edit s s' -> (length s <= length s')%nat.
Proof.
  induction 1 as [|s1 s2 s3 H _ IH]; [lia|].
  apply length_edit in H. lia.
Qed.

Lemma length_build_file_entry (b r n c : str) :
  (length c < length (add_to_PBXBuildFile_section b r n c))%nat.
Proof.
  rewrite add_to_PBXBuildFile_section_eq, length_splice.
  unfold new_build_file. rewrite length_app. simpl length. lia.
Qed.

Section Growth.
Variable body : env -> str * str -> env.
Hypothesis Hbody : registers body.

Lemma body_grows (e : env) (f : str * str) :
  contains (snd f) (content e) = false ->
  (length (content e) < length (content (body e f)))%nat.
Proof.
  intros Hc. destruct (Hbody e f) as [(Hc' & _) | (_ & _ & _ & b & r & _ & _ & H)];
    [congruence|].
  apply length_edits in H.
  pose proof (length_build_file_entry b r (snd f) (content e)) as H1.
  pose proof (length_edit _ _ (add_to_PBXFileReference_section_edit r (snd f)
                (add_to_PBXBuildFile_section b r (snd f) (content e)))) as H2.
  lia.
Qed.

Lemma fold_grows (files : list (str * str)) (e : env) :
  Exists (fun f => contains (snd f) (content e) = false) files ->
  (length (content e) < length (content (fold_left body files e)))%nat.
Proof.
  revert e. induction files as [|f files IH]; intros e Hex; [by inversion Hex|].
  cbn [fold_left].
  destruct (contains (snd f) (content e)) eqn:Hc.
  - destruct (Hbody e f) as [(_ & Hk & _) | (Hc' & _)]; [|congruence].
    rewrite <- Hk. apply IH. rewrite Hk.
    inversion Hex as [? ? Hf | ? ? Hr]; subst; [congruence | exact Hr].
  - pose proof (body_grows e f Hc) as H1.
    pose proof (length_edits _ _ (fold_edits body files (body e f) Hbody)) as H2. lia.
Qed.

End Growth.

Section TwoLoopsGrowth.
Variables body1 body2 : env -> str * str -> env.
Hypothesis Hbody1 : registers body1.
Hypothesis Hbody2 : registers body2.
Variables files1 files2 : list (str * str).
Variables msg1 msg2 : str.

Lemma loops_grow (e : env) :
  Exists (fun f => contains (snd f) (content e) = false) (files1 ++ files2) ->
  (length (content e)
   < length (content (fold_left body2 files2
                        (print msg2 (fold_left body1 files1 (print msg1 e))))))%nat.
Proof.
  intros Hex.
  pose proof (length_edits _ _ (fold_edits body1 files1 (print msg1 e) Hbody1)) as H1.
  destruct (decide (Forall (fun f => contains (snd f) (content e) = true) files1))
    as [Hall | Hsome].
  - apply Exists_app in Hex as [Hex | Hex].
    + exfalso. apply Exists_exists in Hex as (f & Hf & Hc).
      rewrite Forall_forall in Hall. specialize (Hall f Hf). congruence.
    + assert (Forall (fun f => occurs (snd f) (content (print msg1 e))) files1) as Hocc.
      { eapply Forall_impl; [exact Hall|]. intros f Hf. by apply contains_occurs. }
      destruct (fold_skips body1 Hbody1 files1 (print msg1 e) Hocc) as (Hk & _).
      revert Hk. generalize (fold_left body1 files1 (print msg1 e)). intros e2 Hk.
      pose proof (fold_grows body2 Hbody2 files2 (print msg2 e2)) as H2.
      change (content (print msg2 e2)) with (content e2) in H2.
      change (content (print msg1 e)) with (content e) in Hk.
      rewrite Hk in H2. exact (H2 Hex).
  - apply not_Forall_Exists in Hsome; [|intros f; apply _].
    assert (Exists (fun f => contains (snd f) (content (print msg1 e)) = false) files1) as Hex1.
    { eapply Exists_impl; [exact Hsome|]. intros f Hf. cbn in Hf.
      change (content (print msg1 e)) with (content e).
      by destruct (contains (snd f) (content e)). }
    pose proof (fold_grows body1 Hbody1 files1 (print msg1 e) Hex1) as H2.
    revert H2. generalize (fold_left body1 files1 (print msg1 e)). intros e2 H2.
    pose proof (length_edits _ _ (fold_edits body2 files2 (print msg2 e2) Hbody2)) as H3.
    change (content (print msg2 e2)) with (content e2) in H3.
    change (content (print msg1 e)) with (content e) in H2. lia.
Qed.

End TwoLoopsGrowth.

Lemma all_registered_occurs (files : list (str * str)) (w : str) :
  all_registered files w <-> Forall (fun f => occurs (snd f) w) files.
Proof.
  unfold all_registered. split; intros H; (eapply Forall_impl; [exact H|]);
    intros f Hf; by apply contains_occurs.
Qed.

Lemma not_all_registered (files : list (str * str)) (w : str) :
  ~ all_registered files w -> Exists (fun f => contains (snd f) w = false) files.
Proof.
  intros H. apply not_Forall_Exists in H; [|intros f; apply _].
  eapply Exists_impl; [exact H|]. intros f Hf. cbn in Hf.
  by destruct (contains (snd f) w).
Qed.

Lemma add_phase_changes (rnd : nat -> N) (pf d : str) :
  ~ all_registered (AddPhaseFiles.main_target_files ++ AddPhaseFiles.test_target_files) d ->
  written (AddPhaseFiles.main rnd pf (Some d)) <> Some d.
Proof.
  intros Hn Hw. apply not_all_registered in Hn.
  rewrite add_phase_written, add_phase_process_files_eq in Hw.
  pose proof (loops_grow _ _ (registers_add_phase_main rnd) (registers_add_phase_test rnd)
                AddPhaseFiles.main_target_files AddPhaseFiles.test_target_files
                ([NL] ++ lit "=== Adding Main Target Files ===")
                ([NL] ++ lit "=== Adding Test Target Files ===")
                (AddPhaseFiles.loaded pf d AddPhaseFiles.banner) Hn) as Hlt.
  revert Hw Hlt.
  generalize (fold_left (AddPhaseFiles.add_test_target_file rnd)
                AddPhaseFiles.test_target_files
                (print ([NL] ++ lit "=== Adding Test Target Files ===")
                   (fold_left (AddPhaseFiles.add_main_target_file rnd)
                      AddPhaseFiles.main_target_files
                      (print ([NL] ++ lit "=== Adding Main Target Files ===")
                         (AddPhaseFiles.loaded pf d AddPhaseFiles.banner))))).
  intros e Hw Hlt. injection Hw as Hw. rewrite Hw in Hlt.
  change (content (AddPhaseFiles.loaded pf d AddPhaseFiles.banner)) with d in Hlt. lia.
Qed.

Lemma add_phase3_changes (rnd : nat -> N) (pf d : str) :
  ~ all_registered AddPhase3Files.main_target_files d ->
  written (AddPhase3Files.main rnd pf (Some d)) <> Some d.
Proof.
  intros Hn Hw. apply not_all_registered in Hn.
  rewrite add_phase3_written, add_phase3_process_files_eq in Hw.
  pose proof (fold_grows _ (registers_add_phase3 rnd) AddPhase3Files.main_target_files
                (print ([NL] ++ lit "=== Adding Phase 3 Files ===")
                   (AddPhase3Files.loaded pf d AddPhase3Files.banner)) Hn) as Hlt.
  revert Hw Hlt.
  generalize (fold_left (AddPhase3Files.add_main_target_file rnd)
                AddPhase3Files.main_target_files
                (print ([NL] ++ lit "=== Adding Phase 3 Files ===")
                   (AddPhase3Files.loaded pf d AddPhase3Files.banner))).
  intros e Hw Hlt. injection Hw as Hw. rewrite Hw in Hlt.
  change (content (print ([NL] ++ lit "=== Adding Phase 3 Files ===")
                     (AddPhase3Files.loaded pf d AddPhase3Files.banner))) with d in Hlt. lia.
Qed.

(** X6. A run of a batch script writes the manifest back unchanged exactly
    when every display name it requests occurs in the manifest already; in
    every other case the text written is another one. *)
Theorem batch_run_changes_nothing_iff_all_registered (rnd : nat -> N) (pf d : str) :
  (written (AddPhaseFiles.main rnd pf (Some d)) = Some d
   <-> all_registered (AddPhaseFiles.main_target_files ++ AddPhaseFiles.test_target_files) d)
  /\ (written (AddPhase3Files.main rnd pf (Some d)) = Some d
      <-> all_registered AddPhase3Files.main_target_files d).
Proof.
  split; split.
  - intros Hw.
    destruct (decide (all_registered
                (AddPhaseFiles.main_target_files ++ AddPhaseFiles.test_target_files) d))
      as [H | H]; [exact H|].
    exfalso. exact (add_phase_changes rnd pf d H Hw).
  - intros H. apply all_registered_occurs in H.
    exact (proj1 (add_phase_second_run rnd pf d H)).
  - intros Hw.
    destruct (decide (all_registered AddPhase3Files.main_target_files d)) as [H | H];
      [exact H|].
    exfalso. exact (add_phase3_changes rnd pf d H Hw).
  - intros H. apply all_registered_occurs in H.
    exact (proj1 (add_phase3_second_run rnd pf d H)).
Qed.

(** ** The closing summary *)

Section SkipsOfPresentNames.
Variable t : char.
Variable body : env -> str * str -> env.
Hypothesis Hbody : registers body.


End SkipsOfPresentNames.

Section TwoLoopsSkips.
Variable t : char.
Variables body1 body2 : env -> str * str -> env.
Hypothesis Hbody1 : registers body1.
Hypothesis Hbody2 : registers body2.
Variables files1 files2 : list (str * str).
Variables msg1 msg2 : str.


End TwoLoopsSkips.

Lemma add_phase_printed_eq (rnd : nat -> N) (pf d : str) :
  printed (AddPhaseFiles.main rnd pf (Some d))
  = (stdout (AddPhaseFiles.process_files rnd (AddPhaseFiles.loaded pf d AddPhaseFiles.banner))
     ++ [[NL] ++ lit "Writing updated project file..."])
    ++ trailer (lit "✅ Successfully added all Phase 1 & 2 files!")
         [(lit "Files added to NaviGPT target:", AddPhaseFiles.main_target_files);
          (lit "Files added to NaviGPTTests target:", AddPhaseFiles.test_target_files)].
Proof.
  unfold AddPhaseFiles.main, AddPhaseFiles.add_files_to_project.
  cbv beta iota zeta delta [fst snd printed print stdout]. reflexivity.
Qed.








(** ** The unregister operation on the whole text *)

Lemma split_app (sep : char) (p q : str) :
  split sep (p ++ sep :: q) = split sep p ++ split sep q.
Proof.
  induction p as [|c p IH]; cbn [app split].
  - by rewrite N.eqb_refl.
  - destruct (N.eqb_spec c sep) as [->|Hne]; [by rewrite IH|].
    rewrite IH. destruct (split sep p) as [|l ls] eqn:E; [by apply split_nonempty in E|].
    reflexivity.
Qed.

(** An occurrence does not reach across a character it does not hold. *)
Lemma occurs_app_sep (sub p q : str) (c : char) :
  c ∉ sub -> occurs sub (p ++ c :: q) -> occurs sub p \/ occurs sub q.
Proof.
  intros Hc (u & v & Huv). apply app_eq_inv in Huv as [(k & Hp & Hk) | (k & Hu & Hk)].
  - apply app_eq_inv in Hk as [(k' & Hs & Hk') | (k' & Hk' & Hv)].
    + destruct k' as [|c' k'].
      * left. exists u, []. rewrite Hp, Hs, !app_nil_r. reflexivity.
      * simpl in Hk'. inversion Hk'; subst. exfalso. apply Hc.
        apply elem_of_app. right. left.
    + left. exists u, k'. by rewrite Hp, Hk'.
  - destruct k as [|c' k].
    + simpl in Hk. destruct sub as [|s0 sub].
      * left. exists p, []. by rewrite app_nil_r.
      * inversion Hk; subst. exfalso. apply Hc. left.
    + inversion Hk; subst. right. by exists k, v.
Qed.

Lemma join_no_mention (name : str) (ls : list str) :
  name <> [] -> NL ∉ name ->
  Forall (fun l => ~ occurs name l) ls -> ~ occurs name (join [NL] ls).
Proof.
  intros Hne Hnl. induction ls as [|l ls IH]; intros Hls.
  - cbn [join]. intros (u & v & Huv). symmetry in Huv.
    apply app_eq_nil in Huv as [_ Huv]. apply app_eq_nil in Huv as [Huv _]. contradiction.
  - apply Forall_cons in Hls as [Hl Hls]. destruct ls as [|l2 ls]; [exact Hl|].
    rewrite join_cons by discriminate. intros Ho.
    apply (occurs_app_sep name l (join [NL] (l2 :: ls)) NL Hnl) in Ho as [Ho | Ho];
      [contradiction | by apply IH].
Qed.

Lemma join_elem_occurs (sep : str) (ls : list str) (l : str) :
  l ∈ ls -> occurs l (join sep ls).
Proof.
  induction ls as [|l0 ls IH]; intros Hl; [by apply elem_of_nil in Hl|].
  destruct ls as [|l1 ls].
  - apply elem_of_cons in Hl as [-> | Hl]; [|by apply elem_of_nil in Hl].
    exists [], []. cbn [join].
    by rewrite app_nil_r.
  - rewrite join_cons by discriminate. apply elem_of_cons in Hl as [-> | Hl].
    + by exists [], (sep ++ join sep (l1 :: ls)).
    + destruct (IH Hl) as (u & v & ->). exists (l0 ++ sep ++ u), v.
      by rewrite <- !app_assoc.
Qed.

Lemma split_line_occurs (sep : char) (s line : str) :
  line ∈ split sep s -> occurs line s.
Proof. intros H. rewrite <- (join_split sep s). by apply join_elem_occurs. Qed.

Lemma occurs_trans (a b c : str) : occurs a b -> occurs b c -> occurs a c.
Proof.
  intros (u & v & ->) (u' & v' & ->). exists (u' ++ u), (v ++ v').
  by rewrite <- !app_assoc.
Qed.

Lemma filter_all {A} (P : A -> Prop) `{!forall x, Decision (P x)} (l : list A) :
  Forall P l -> filter P l = l.
Proof.
  induction 1 as [|x l Hx Hl IH]; [done|].
  rewrite filter_cons. destruct (decide (P x)); [by rewrite IH | done].
Qed.

Lemma new_lines_kept (name : str) (ls : list str) :
  Forall (fun l => contains name l = false) ls ->
  filter (fun line => negb (contains name line) = true) ls = ls.
Proof.
  intros H. apply filter_all. eapply Forall_impl; [exact H|].
  intros l Hl. cbv beta. by rewrite Hl.
Qed.

Lemma new_lines_free (name d : str) :
  Forall (fun l => contains name l = false) (RemoveRefs.new_lines name d).
Proof.
  rewrite new_lines_spec. apply Forall_forall. intros l Hl.
  by apply list_elem_of_filter in Hl as [? _].
Qed.

(** The text written back mentions the name nowhere. *)
Lemma unregister_no_mention (name d : str) :
  name <> [] -> NL ∉ name -> ~ occurs name (RemoveRefs.unregister name d).
Proof.
  intros Hne Hnl. unfold RemoveRefs.unregister. apply join_no_mention; [done | done|].
  eapply Forall_impl; [apply new_lines_free|]. intros l Hl. by apply contains_false.
Qed.

(** A text that does not mention the name is written back as it is. *)
Lemma unregister_unmentioned (name d : str) :
  ~ occurs name d -> RemoveRefs.unregister name d = d.
Proof.
  intros Ho. unfold RemoveRefs.unregister, RemoveRefs.new_lines.
  rewrite new_lines_kept; [apply join_split|].
  apply Forall_forall. intros l Hl. apply contains_false. intros Hn.
  apply Ho. eapply occurs_trans; [exact Hn | by eapply split_line_occurs].
Qed.

Lemma unregister_twice (name d : str) :
  RemoveRefs.unregister name (RemoveRefs.unregister name d) = RemoveRefs.unregister name d.
Proof.
  assert (RemoveRefs.unregister name d = join [NL] (RemoveRefs.new_lines name d)) as ->
    by reflexivity.
  pose proof (new_lines_no_sep name d) as Hsep. pose proof (new_lines_free name d) as Hfree.
  destruct (RemoveRefs.new_lines name d) as [|l ls].
  - cbn [join]. unfold RemoveRefs.unregister, RemoveRefs.new_lines. cbn [split].
    rewrite filter_cons, filter_nil. by destruct (decide _).
  - unfold RemoveRefs.unregister, RemoveRefs.new_lines.
    rewrite split_join; [|discriminate | exact Hsep].
    by rewrite new_lines_kept.
Qed.

Lemma core_name_nonempty : core_name <> [].
Proof. discriminate. Qed.

Lemma core_name_no_newline : NL ∉ core_name.
Proof. apply no_newline_in. reflexivity. Qed.

Lemma remove_refs_written (d : str) :
  written (RemoveRefs.main (Some d)) = Some (RemoveRefs.unregister core_name d).
Proof. reflexivity. Qed.

(** X8. After [remove_refs.py] the manifest mentions [NaviGPTCore.swift]
    nowhere, so that the duplicate check of a later registration run does
    not find it; and the script writes the manifest back unchanged exactly
    when the manifest did not mention the file. *)
Theorem remove_refs_leaves_no_mention (d : str) :
  (exists w, written (RemoveRefs.main (Some d)) = Some w
             /\ contains core_name w = false)
  /\ (written (RemoveRefs.main (Some d)) = Some d <-> contains core_name d = false).
Proof.
  split.
  - exists (RemoveRefs.unregister core_name d). split; [apply remove_refs_written|].
    apply contains_false.
    exact (unregister_no_mention core_name d core_name_nonempty core_name_no_newline).
  - rewrite remove_refs_written. split.
    + intros Hw. injection Hw as Hw. apply contains_false. rewrite <- Hw.
      exact (unregister_no_mention core_name d core_name_nonempty core_name_no_newline).
    + intros Hc. apply contains_false in Hc. f_equal. by apply unregister_unmentioned.
Qed.

(** X9. Unregistering is idempotent: a second run of [remove_refs.py] on
    the text the first run wrote writes that text again. *)
Theorem unregister_twice_is_unregister_once (name d : str) :
  RemoveRefs.unregister name (RemoveRefs.unregister name d) = RemoveRefs.unregister name d
  /\ (let once := RemoveRefs.main (Some d) in
      written (RemoveRefs.main (file_after (Some d) once)) = written once).
Proof.
  split; [apply unregister_twice|].
  cbv zeta. unfold file_after. rewrite remove_refs_written.
  rewrite remove_refs_written. f_equal. apply unregister_twice.
Qed.

(** ** Unregistering after registering *)

Lemma not_elem_avoids (ch : char) (x : str) : ch ∉ x -> avoids ch x = true.
Proof.
  induction x as [|c x IH]; intros H; [reflexivity|].
  cbn [avoids forallb]. apply andb_true_intro. split.
  - apply negb_true_iff, N.eqb_neq. intros ->. apply H. left.
  - apply IH. intros Hin. apply H. by right.
Qed.

Lemma plain_no_newline (x : str) : plain_name x = true -> NL ∉ x.
Proof. intros Hp Hin. by destruct (plain_name_spec x NL Hp Hin) as [? _]. Qed.

Lemma build_file_entry_no_newline (b r n : str) :
  NL ∉ b -> NL ∉ r -> NL ∉ n -> NL ∉ build_file_entry b r n.
Proof.
  intros Hb Hr Hn. apply (avoids_spec NL). unfold build_file_entry.
  apply not_elem_avoids in Hb, Hr, Hn.
  rewrite !avoids_app, Hb, Hr, Hn. reflexivity.
Qed.

Lemma file_ref_entry_no_newline (r n : str) :
  NL ∉ r -> NL ∉ n -> NL ∉ file_ref_entry r n.
Proof.
  intros Hr Hn. apply (avoids_spec NL). unfold file_ref_entry.
  apply not_elem_avoids in Hr, Hn.
  rewrite !avoids_app, Hr, Hn. reflexivity.
Qed.

Lemma build_file_entry_names (b r n : str) : contains n (build_file_entry b r n) = true.
Proof.
  apply contains_occurs. unfold build_file_entry.
  exists ([TAB; TAB] ++ b ++ lit " /* "). eexists. rewrite <- !app_assoc. reflexivity.
Qed.

Lemma file_ref_entry_names (r n : str) : contains n (file_ref_entry r n) = true.
Proof.
  apply contains_occurs. unfold file_ref_entry.
  exists ([TAB; TAB] ++ r ++ lit " /* "). eexists. rewrite <- !app_assoc. reflexivity.
Qed.

(** A whole line that mentions the name, put at a line start, is taken out
    again with the other lines that mention it. *)
Lemma new_lines_line_after_break (n p0 line q : str) :
  NL ∉ line -> contains n line = true ->
  RemoveRefs.new_lines n (p0 ++ NL :: line ++ NL :: q)
  = RemoveRefs.new_lines n (p0 ++ NL :: q).
Proof.
  intros Hl Hc. unfold RemoveRefs.new_lines.
  rewrite !split_app, (split_one NL line Hl).
  rewrite !filter_app, filter_cons, filter_nil.
  destruct (decide _) as [H | _]; [|reflexivity].
  rewrite Hc in H. discriminate.
Qed.

Lemma new_lines_line_at_start (n line q : str) :
  NL ∉ line -> contains n line = true ->
  RemoveRefs.new_lines n (line ++ NL :: q) = RemoveRefs.new_lines n q.
Proof.
  intros Hl Hc. unfold RemoveRefs.new_lines.
  rewrite split_app_sep by exact Hl.
  rewrite filter_cons. destruct (decide _) as [H | _]; [|reflexivity].
  rewrite Hc in H. discriminate.
Qed.

Lemma unregister_line_below (n line s : str) (start : Z) :
  NL ∉ line -> contains n line = true ->
  RemoveRefs.unregister n (splice (find [NL] s start + 1) (line ++ [NL]) s)
  = RemoveRefs.unregister n s.
Proof.
  intros Hl Hc. unfold RemoveRefs.unregister. f_equal.
  pose proof (after_newline s start) as Ha. cbv zeta in Ha.
  pose proof (slice_to_from (find [NL] s start + 1) s) as Hs.
  unfold splice. revert Ha Hs.
  generalize (slice_to (find [NL] s start + 1) s) (slice_from (find [NL] s start + 1) s).
  intros p q Hp Hs. subst s. destruct Hp as [-> | Hp].
  - rewrite !app_nil_l, <- app_assoc. by apply new_lines_line_at_start.
  - destruct p as [|c0 p0 _] using rev_ind; [discriminate|].
    rewrite last_snoc in Hp. injection Hp as ->.
    rewrite <- !app_assoc. cbn [app]. by apply new_lines_line_after_break.
Qed.

Lemma unregister_entries (b r n d : str) :
  NL ∉ b -> NL ∉ r -> NL ∉ n ->
  RemoveRefs.unregister n
    (add_to_PBXFileReference_section r n (add_to_PBXBuildFile_section b r n d))
  = RemoveRefs.unregister n d.
Proof.
  intros Hb Hr Hn.
  rewrite add_to_PBXFileReference_section_eq, new_file_ref_entry.
  rewrite unregister_line_below;
    [|by apply file_ref_entry_no_newline | apply file_ref_entry_names].
  rewrite add_to_PBXBuildFile_section_eq, new_build_file_entry.
  apply unregister_line_below;
    [by apply build_file_entry_no_newline | apply build_file_entry_names].
Qed.

Lemma generate_uuid_no_newline (random : N) : NL ∉ generate_uuid random.
Proof. apply plain_no_newline, generate_uuid_plain. Qed.

(** X10. Unregistering undoes the two entry insertions of a registration.
    Whatever the manifest and the identifiers drawn, and also when a section
    header is missing, the two entry lines are whole lines that mention the
    display name, so unregistering the name after the two insertions gives
    the text that unregistering it before them gives; on a manifest that
    did not mention the name, that is the manifest itself. *)
Theorem unregister_undoes_the_entry_lines (x y : N) (n d : str) :
  NL ∉ n ->
  let r := generate_uuid x in
  let b := generate_uuid y in
  let entries :=
    add_to_PBXFileReference_section r n (add_to_PBXBuildFile_section b r n d) in
  RemoveRefs.unregister n entries = RemoveRefs.unregister n d
  /\ (contains n d = false -> RemoveRefs.unregister n entries = d).
Proof.
  intros Hn r b entries. subst r b entries.
  pose proof (unregister_entries (generate_uuid y) (generate_uuid x) n d
                (generate_uuid_no_newline y) (generate_uuid_no_newline x) Hn) as H.
  split; [exact H|]. intros Hc. rewrite H. apply unregister_unmentioned.
  by apply contains_false.
Qed.

Lemma unregister_undoes_the_entry_lines_witness :
  (NL ∉ core_name)
  /\ contains core_name bare_manifest = false
  /\ RemoveRefs.unregister core_name
       (add_to_PBXFileReference_section (generate_uuid (sample_urandom 0)) core_name
          (add_to_PBXBuildFile_section (generate_uuid (sample_urandom 1))
             (generate_uuid (sample_urandom 0)) core_name bare_manifest))
     = bare_manifest.
Proof.
  assert (contains core_name bare_manifest = false) as Hc by (vm_compute; reflexivity).
  split; [exact core_name_no_newline|]. split; [exact Hc|].
  exact (proj2 (unregister_undoes_the_entry_lines (sample_urandom 0) (sample_urandom 1)
                  core_name bare_manifest core_name_no_newline) Hc).
Defined.

(** ** Lines that mention a file *)

(** The lines of a text cut in two: the last line of the first part and the
    first line of the second part are one line of the whole. *)
Lemma split_concat (sep : char) (p q : str) :
  exists (ps : list str) (lp lq : str) (qs : list str),
    split sep p = ps ++ [lp] /\ split sep q = lq :: qs
    /\ split sep (p ++ q) = ps ++ (lp ++ lq) :: qs.
Proof.
  induction p as [|c p (ps & lp & lq & qs & Hp & Hq & Hpq)].
  - destruct (split sep q) as [|lq qs] eqn:E; [by apply split_nonempty in E|].
    exists [], [], lq, qs. cbn [app]. by rewrite E.
  - cbn [app split]. rewrite Hp, Hpq. destruct (c =? sep)%N.
    + exists ([] :: ps), lp, lq, qs. done.
    + destruct ps as [|p0 ps]; cbn [app].
      * exists [], (c :: lp), lq, qs. done.
      * exists ((c :: p0) :: ps), lp, lq, qs. done.
Qed.

Lemma contains_app_l (n u v : str) : contains n u = true -> contains n (v ++ u) = true.
Proof.
  rewrite !contains_occurs. intros (a & b & ->). exists (v ++ a), b.
  by rewrite <- !app_assoc.
Qed.

Lemma length_filter_app {A} (P : A -> Prop) `{!forall x, Decision (P x)} (l k : list A) :
  length (filter P (l ++ k)) = (length (filter P l) + length (filter P k))%nat.
Proof. by rewrite filter_app, length_app. Qed.

(** Inserting a text whose first line mentions the name never lowers the
    number of lines that mention it, wherever the text is put. *)
Lemma mentions_insert (n p u v q : str) :
  NL ∉ u -> NL ∉ v -> contains n u = true ->
  (mentions n (p ++ q) <= mentions n (p ++ (u ++ NL :: v) ++ q))%nat.
Proof.
  intros Hu Hv Hc. unfold mentions.
  destruct (split_concat NL p q) as (ps & lp & lq & qs & Hp & Hq & Hpq).
  rewrite Hpq.
  replace (p ++ (u ++ NL :: v) ++ q) with ((p ++ u) ++ NL :: (v ++ q))
    by (by rewrite <- !app_assoc).
  rewrite split_app.
  destruct (split_concat NL p u) as (ps' & lp' & lu & us & Hp' & Hu' & Hpu).
  rewrite (split_one NL u Hu) in Hu'. injection Hu' as <- <-.
  rewrite Hp in Hp'. apply app_inj_tail in Hp' as [<- <-]. rewrite Hpu.
  destruct (split_concat NL v q) as (vs & lv & lq' & qs' & Hv' & Hq' & Hvq).
  rewrite (split_one NL v Hv) in Hv'. destruct vs as [|? [|? ?]]; try discriminate.
  injection Hv' as <-. rewrite Hq in Hq'. injection Hq' as <- <-. rewrite Hvq.
  cbn [app]. rewrite !length_filter_app, !filter_cons.
  pose proof (contains_app_l n u lp Hc) as Hlu.
  destruct (decide (contains n (lp ++ u) = true)); [|contradiction].
  destruct (decide (contains n (lp ++ lq) = true));
    destruct (decide (contains n (v ++ lq) = true)); cbn [length]; lia.
Qed.

Lemma mentions_splice (n u v s : str) (pos : Z) :
  NL ∉ u -> NL ∉ v -> contains n u = true ->
  (mentions n s <= mentions n (splice pos (u ++ NL :: v) s))%nat.
Proof.
  intros Hu Hv Hc. unfold splice. rewrite <- (slice_to_from pos s) at 1.
  by apply mentions_insert.
Qed.

(** A whole line that mentions the name, put at a line start, is one more
    line that mentions it. *)
Lemma mentions_line_below (n line s : str) (start : Z) :
  NL ∉ line -> contains n line = true ->
  mentions n (splice (find [NL] s start + 1) (line ++ [NL]) s) = S (mentions n s).
Proof.
  intros Hl Hc. unfold mentions.
  pose proof (after_newline s start) as Ha. cbv zeta in Ha.
  pose proof (slice_to_from (find [NL] s start + 1) s) as Hs.
  unfold splice. revert Ha Hs.
  generalize (slice_to (find [NL] s start + 1) s) (slice_from (find [NL] s start + 1) s).
  intros p q Hp Hs. subst s. destruct Hp as [-> | Hp].
  - rewrite !app_nil_l, <- app_assoc. cbn [app]. rewrite split_app_sep by exact Hl.
    rewrite filter_cons. by destruct (decide _).
  - destruct p as [|c0 p0 _] using rev_ind; [discriminate|].
    rewrite last_snoc in Hp. injection Hp as ->.
    rewrite <- !app_assoc. cbn [app].
    rewrite !split_app, (split_one NL line Hl).
    rewrite !length_filter_app, filter_cons, filter_nil.
    destruct (decide _); [cbn [length]; lia | contradiction].
Qed.

Lemma new_child_first_line (r n : str) :
  new_child r n = ([TAB; TAB; TAB; TAB] ++ group_member r n) ++ NL :: [TAB; TAB; TAB].
Proof. unfold new_child, group_member. by rewrite <- !app_assoc. Qed.

Lemma new_source_first_line (b n : str) :
  new_source b n = ([TAB; TAB; TAB; TAB] ++ sources_member b n) ++ NL :: [TAB; TAB; TAB].
Proof. unfold new_source, sources_member. by rewrite <- !app_assoc. Qed.

Lemma tabs_no_newline : NL ∉ [TAB; TAB; TAB].
Proof. apply no_newline_in. reflexivity. Qed.

Lemma member_line_no_newline (x : str) : NL ∉ x -> NL ∉ [TAB; TAB; TAB; TAB] ++ x.
Proof.
  intros Hx Hin. apply elem_of_app in Hin as [Hin | Hin]; [|contradiction].
  revert Hin. apply no_newline_in. reflexivity.
Qed.

Lemma group_member_no_newline (r n : str) : NL ∉ r -> NL ∉ n -> NL ∉ group_member r n.
Proof.
  intros Hr Hn. apply (avoids_spec NL). unfold group_member.
  apply not_elem_avoids in Hr, Hn. rewrite !avoids_app, Hr, Hn. reflexivity.
Qed.

Lemma sources_member_no_newline (b n : str) : NL ∉ b -> NL ∉ n -> NL ∉ sources_member b n.
Proof.
  intros Hb Hn. apply (avoids_spec NL). unfold sources_member.
  apply not_elem_avoids in Hb, Hn. rewrite !avoids_app, Hb, Hn. reflexivity.
Qed.

Lemma group_member_names (r n : str) :
  contains n ([TAB; TAB; TAB; TAB] ++ group_member r n) = true.
Proof.
  apply contains_occurs. unfold group_member.
  exists ([TAB; TAB; TAB; TAB] ++ r ++ lit " /* "). eexists.
  rewrite <- !app_assoc. reflexivity.
Qed.

Lemma sources_member_names (b n : str) :
  contains n ([TAB; TAB; TAB; TAB] ++ sources_member b n) = true.
Proof.
  apply contains_occurs. unfold sources_member.
  exists ([TAB; TAB; TAB; TAB] ++ b ++ lit " /* "). eexists.
  rewrite <- !app_assoc. reflexivity.
Qed.

Lemma mentions_new_child (r n s : str) (pos : Z) :
  NL ∉ r -> NL ∉ n -> (mentions n s <= mentions n (splice pos (new_child r n) s))%nat.
Proof.
  intros Hr Hn. rewrite new_child_first_line. apply mentions_splice.
  - by apply member_line_no_newline, group_member_no_newline.
  - apply tabs_no_newline.
  - apply group_member_names.
Qed.

Lemma mentions_new_source (b n s : str) (pos : Z) :
  NL ∉ b -> NL ∉ n -> (mentions n s <= mentions n (splice pos (new_source b n) s))%nat.
Proof.
  intros Hb Hn. rewrite new_source_first_line. apply mentions_splice.
  - by apply member_line_no_newline, sources_member_no_newline.
  - apply tabs_no_newline.
  - apply sources_member_names.
Qed.

Lemma mentions_add_to_NaviGPT_group (r n s : str) :
  NL ∉ r -> NL ∉ n -> (mentions n s <= mentions n (add_to_NaviGPT_group r n s))%nat.
Proof.
  intros Hr Hn. rewrite add_to_NaviGPT_group_eq, add_child_before_eq.
  destruct (negb _); [|lia]. destruct (negb _); [|lia]. by apply mentions_new_child.
Qed.

Lemma mentions_new_build_file (b r n s : str) (start : Z) :
  NL ∉ b -> NL ∉ r -> NL ∉ n ->
  mentions n (splice (find [NL] s start + 1) (new_build_file b r n) s) = S (mentions n s).
Proof.
  intros Hb Hr Hn. rewrite new_build_file_entry. apply mentions_line_below.
  - by apply build_file_entry_no_newline.
  - apply build_file_entry_names.
Qed.

Lemma mentions_new_file_ref (r n s : str) (start : Z) :
  NL ∉ r -> NL ∉ n ->
  mentions n (splice (find [NL] s start + 1) (new_file_ref r n) s) = S (mentions n s).
Proof.
  intros Hr Hn. rewrite new_file_ref_entry. apply mentions_line_below.
  - by apply file_ref_entry_no_newline.
  - apply file_ref_entry_names.
Qed.

Lemma file_name_no_newline : NL ∉ AddToXcode.file_name.
Proof. apply no_newline_in. reflexivity. Qed.

Lemma add_file_manually_mentions (rnd : nat -> N) (d : str) (console : list str) :
  match fst (fst (AddToXcode.add_file_manually rnd d console)) with
  | Some w => (2 + mentions AddToXcode.file_name d <= mentions AddToXcode.file_name w)%nat
  | None => True
  end.
Proof.
  pose proof (generate_uuid_no_newline (rnd 0)) as Hr.
  pose proof (generate_uuid_no_newline (rnd 1)) as Hb.
  pose proof file_name_no_newline as Hn.
  unfold AddToXcode.add_file_manually.
  revert Hr Hb Hn. generalize (generate_uuid (rnd 0)) (generate_uuid (rnd 1)).
  generalize AddToXcode.file_name. intros n r b Hr Hb Hn.
  destruct (_ =? _)%Z; [exact I|]. cbv zeta.
  pose proof (mentions_new_build_file b r n d
                (find (lit "/* Begin PBXBuildFile section */") d 0) Hb Hr Hn) as H1.
  revert H1.
  generalize (splice (find [NL] d (find (lit "/* Begin PBXBuildFile section */") d 0) + 1)
                (new_build_file b r n) d).
  intros c1 H1.
  destruct (_ =? _)%Z; [exact I|]. cbv zeta. cbn [fst].
  pose proof (mentions_new_file_ref r n c1
                (find (lit "/* Begin PBXFileReference section */") c1 0) Hr Hn) as H2.
  revert H2.
  generalize (splice (find [NL] c1 (find (lit "/* Begin PBXFileReference section */") c1 0)
                      + 1) (new_file_ref r n) c1).
  intros c2 H2.
  pose proof (mentions_add_to_NaviGPT_group r n c2 Hr Hn) as H3. revert H3.
  generalize (add_to_NaviGPT_group r n c2). intros c3 H3.
  destruct (negb _); [|lia]. destruct (negb _); [|lia].
  pose proof (mentions_new_source b n c3
                (find (lit ");") c3
                   (find (lit "files = (") c3 (find (lit "/* Sources */ = {") c3 0)))
                Hb Hn) as H4.
  lia.
Qed.

(** X11. [add_to_xcode.py] has no duplicate check. Every run that writes
    the project file leaves at least two more lines that mention
    [NaviGPTCore.swift] than it found, also on a manifest in which the file
    is registered already: running the script again registers the file
    again. *)
Theorem add_to_xcode_registers_again (rnd : nat -> N) (d : str) :
  written (AddToXcode.main rnd (Some d)) = None
  \/ exists w, written (AddToXcode.main rnd (Some d)) = Some w
               /\ (2 + mentions AddToXcode.file_name d <= mentions AddToXcode.file_name w)%nat.
Proof.
  unfold AddToXcode.main.
  pose proof (add_file_manually_mentions rnd d
                [lit "Adding NaviGPTCore.swift to Xcode project..."]) as H.
  destruct (AddToXcode.add_file_manually _ _ _) as [[[w|] out] [|]];
    cbn [fst snd written] in *; [right | right | left | left];
    try reflexivity; exists w; (split; [reflexivity | exact H]).
Qed.

(** ** The report of [fix_path.py] *)

Lemma fix_path_printed (d : str) :
  printed (FixPath.main (Some d)) = FixPath.report d ++ [checked_msg].
Proof.
  unfold FixPath.main, checked_msg. cbv zeta. cbn [printed]. unfold FixPath.fixed.
  rewrite replace_same by discriminate. reflexivity.
Qed.

Lemma report_eq (d : str) :
  FixPath.report d
  = if contains core_name d
    then found_msg
         :: flat_map (fun il => if contains core_name (snd il)
                                then [line_msg (fst il) (snd il)] else [])
              (imap (fun i line => (i, line)) (split NL d))
    else [].
Proof. unfold FixPath.report, core_name, found_msg, line_msg. reflexivity. Qed.

(** A text that mentions the name has a line that mentions it. *)
Lemma mention_on_a_line (n d : str) :
  n <> [] -> NL ∉ n -> contains n d = true ->
  exists i line, split NL d !! i = Some line /\ contains n line = true.
Proof.
  intros Hne Hnl Hc.
  destruct (decide (Forall (fun l => contains n l = false) (split NL d))) as [Hall | Hsome].
  - exfalso. apply contains_occurs in Hc. rewrite <- (join_split NL d) in Hc.
    revert Hc. apply join_no_mention; [done | done|].
    eapply Forall_impl; [exact Hall|]. intros l Hl. by apply contains_false.
  - apply not_Forall_Exists in Hsome; [|intros l; apply _].
    apply Exists_exists in Hsome as (line & Hin & Hc'). cbn in Hc'.
    apply list_elem_of_lookup in Hin as [i Hi]. exists i, line. split; [done|].
    by destruct (contains n line).
Qed.

(** The scan over the numbered lines prints the lines that pass the test,
    in their order. *)
Lemma scan_filter (ils : list (nat * str)) :
  flat_map (fun il => if contains core_name (snd il)
                      then [line_msg (fst il) (snd il)] else []) ils
  = map (fun p => line_msg (fst p) (snd p))
      (filter (fun p => contains core_name (snd p) = true) ils).
Proof.
  induction ils as [|il ils IH]; [done|]. cbn [flat_map]. rewrite filter_cons, IH.
  destruct (decide (contains core_name (snd il) = true)) as [E|E].
  - by rewrite E.
  - by destruct (contains core_name (snd il)).
Qed.

Lemma numbered_lines_sorted (P : nat * str -> Prop) `{!forall p, Decision (P p)}
    (ls : list str) (k : nat) :
  StronglySorted (fun p q => fst p < fst q)
    (filter P (imap (fun i l => (k + i, l)) ls))
  /\ Forall (fun p => k <= fst p) (filter P (imap (fun i l => (k + i, l)) ls)).
Proof.
  revert k. induction ls as [|l ls IH]; intros k.
  - split; constructor.
  - rewrite imap_cons.
    rewrite (imap_ext _ (fun i l => (S k + i, l)) ls)
      by (intros i x _; cbn; f_equal; lia).
    destruct (IH (S k)) as [Hs Hf]. rewrite filter_cons.
    assert (Forall (fun p : nat * str => k <= fst p)
              (filter P (imap (fun i l => (S k + i, l)) ls))) as Hf'
      by (eapply Forall_impl; [exact Hf | intros p Hp; cbn in Hp; lia]).
    destruct (decide (P (k + 0, l))) as [_|_]; [|by split].
    split.
    + constructor; [exact Hs|].
      eapply Forall_impl; [exact Hf | intros q Hq; cbn in Hq |- *; lia].
    + constructor; [cbn; lia | exact Hf'].
Qed.

Lemma mentions_sorted (ls : list str) :
  StronglySorted (fun p q => fst p < fst q)
    (filter (fun p => contains core_name (snd p) = true)
       (imap (fun i line => (i, line)) ls)).
Proof.
  rewrite (imap_ext _ (fun i l => (0 + i, l)) ls) by done.
  apply (numbered_lines_sorted (fun p => contains core_name (snd p) = true) ls 0).
Qed.

Lemma mentions_spec (d : str) (i : nat) (line : str) :
  (i, line) ∈ filter (fun p => contains core_name (snd p) = true)
                (imap (fun i line => (i, line)) (split NL d))
  <-> mention_at d i line.
Proof.
  rewrite list_elem_of_filter, elem_of_lookup_imap. cbn [snd]. unfold mention_at. split.
  - intros (Hc & i' & line' & Heq & Hl). inversion Heq; subst i' line'. by split.
  - intros [Hl Hc]. split; [exact Hc|]. by exists i, line.
Qed.

(** X12. The report of [fix_path.py] is exact. Besides the closing
    message, which comes last, it prints one message for every line that
    mentions [NaviGPTCore.swift], with the number of the line counted from
    0 and the line itself: each such line once, in the order of the lines,
    under one heading that comes first, and nothing else; without such a
    line the heading is not printed. *)
Theorem fix_path_reports_each_mention (d : str) :
  exists ms : list (nat * str),
    (forall i line, (i, line) ∈ ms <-> mention_at d i line)
    /\ StronglySorted (fun p q => fst p < fst q) ms
    /\ printed (FixPath.main (Some d))
       = match ms with [] => [] | _ :: _ => [found_msg] end
         ++ map (fun p => line_msg (fst p) (snd p)) ms
         ++ [checked_msg].
Proof.
  exists (filter (fun p => contains core_name (snd p) = true)
            (imap (fun i line => (i, line)) (split NL d))).
  split; [apply mentions_spec|]. split; [apply mentions_sorted|].
  rewrite fix_path_printed, report_eq, scan_filter.
  pose proof (mentions_spec d) as Hspec. revert Hspec.
  generalize (filter (fun p => contains core_name (snd p) = true)
                (imap (fun i line => (i, line)) (split NL d))).
  intros ms Hspec. destruct (contains core_name d) eqn:Hc.
  - destruct (mention_on_a_line core_name d core_name_nonempty core_name_no_newline Hc)
      as (i & line & Hm).
    destruct ms as [|p ms]; [|reflexivity].
    exfalso. apply (proj2 (Hspec i line)) in Hm. by apply elem_of_nil in Hm.
  - destruct ms as [|[i line] ms]; [reflexivity|]. exfalso.
    destruct (proj1 (Hspec i line) ltac:(left)) as [Hl Hm].
    apply contains_occurs in Hm. apply list_elem_of_lookup_2 in Hl.
    apply split_line_occurs in Hl.
    apply contains_false in Hc. apply Hc. by eapply occurs_trans.
Qed.

(** ** The requests of the test target *)

Lemma no_char_in (ch : char) (s : str) :
  forallb (fun c => negb (c =? ch)%N) s = true -> ch ∉ s.
Proof. intros H. by apply (avoids_spec ch s). Qed.

Lemma intern1tests_group_no_c : LETTER_c ∉ intern1tests_group.
Proof. apply no_char_in. reflexivity. Qed.

Lemma children_opening_no_close : RPAREN ∉ lit "children = (".
Proof. apply no_char_in. reflexivity. Qed.

Lemma navigpttests_sources_no_f : LETTER_f ∉ navigpttests_sources.
Proof. apply no_char_in. reflexivity. Qed.

Lemma add_test_target_file_content (rnd : nat -> N) (e : env) (f : str * str) :
  contains (snd f) (content e) = false ->
  content (AddPhaseFiles.add_test_target_file rnd e f)
  = add_to_PBXSourcesBuildPhase navigpttests_sources
      (generate_uuid (rnd (S (draws e)))) (snd f)
      (if contains (lit "Phase2Tests") (snd f)
       then add_to_Intern1Tests_group (generate_uuid (rnd (draws e))) (snd f)
              (add_to_PBXFileReference_section (generate_uuid (rnd (draws e))) (snd f)
                 (add_to_PBXBuildFile_section (generate_uuid (rnd (S (draws e))))
                    (generate_uuid (rnd (draws e))) (snd f) (content e)))
       else add_to_NaviGPT_group (generate_uuid (rnd (draws e))) (snd f)
              (add_to_PBXFileReference_section (generate_uuid (rnd (draws e))) (snd f)
                 (add_to_PBXBuildFile_section (generate_uuid (rnd (S (draws e))))
                    (generate_uuid (rnd (draws e))) (snd f) (content e))))
    /\ file_uuids (AddPhaseFiles.add_test_target_file rnd e f) = file_uuids e
    /\ draws (AddPhaseFiles.add_test_target_file rnd e f) = S (S (draws e)).
Proof.
  intros Hc. unfold AddPhaseFiles.add_test_target_file.
  cbn [content print]. rewrite Hc. split; [reflexivity|]. split; reflexivity.
Qed.

(** ** The anchor of the group membership *)

(** [rfind] returns the highest position that fits. *)
Lemma rfind_at_max (sub s : str) (i lo hi best r : Z) :
  rfind_at sub s i lo hi best = r ->
  forall n : nat, (n <= length s)%nat -> sub `prefix_of` drop n s ->
    (lo <= i + Z.of_nat n)%Z -> (i + Z.of_nat n + len sub <= hi)%Z ->
    (i + Z.of_nat n <= r)%Z.
Proof.
  revert i best. induction s as [|c s IH]; intros i best H n Hn Hp Hlo Hhi.
  - assert (n = 0)%nat as -> by (simpl in Hn; lia). cbn [rfind_at] in H.
    apply starts_with_prefix in Hp. cbn [drop] in Hp. rewrite Hp in H.
    destruct (Z.leb_spec lo i); [|lia].
    destruct (Z.leb_spec (i + len sub) hi); [|lia]. cbn [andb] in H. lia.
  - cbn [rfind_at] in H. destruct n as [|n].
    + apply starts_with_prefix in Hp. cbn [drop] in Hp. rewrite Hp in H.
      destruct (Z.leb_spec lo i); [|lia].
      destruct (Z.leb_spec (i + len sub) hi); [|lia]. cbn [andb] in H.
      apply rfind_at_spec in H as [H | (k & -> & _)]; lia.
    + cbn [drop] in Hp. cbn [length] in Hn.
      pose proof (IH (i + 1)%Z _ H n ltac:(lia) Hp ltac:(lia) ltac:(lia)). lia.
Qed.

Lemma rfind_max (sub s : str) (end_ : Z) (n : nat) :
  sub `prefix_of` drop n s ->
  (Z.of_nat n + len sub <= Z.min (adjust end_ s) (len s))%Z ->
  (Z.of_nat n <= rfind sub s 0 end_)%Z.
Proof.
  intros Hp Hn. unfold rfind.
  pose proof (len_nonneg sub) as Hs. unfold len in Hn, Hs.
  pose proof (rfind_at_max sub s 0 (adjust 0 s)
                (Z.min (adjust end_ s) (len s)) (-1) _ eq_refl n
                ltac:(unfold len in *; lia) Hp) as H.
  rewrite adjust_0 in H. unfold len in *. apply H; lia.
Qed.

Lemma prefix_drop_within (sub a x : str) (k : nat) :
  (k + length sub <= length a)%nat -> sub `prefix_of` drop k (a ++ x) ->
  sub `prefix_of` drop k a.
Proof.
  intros Hk [q Hq]. rewrite drop_app_le in Hq by lia.
  exists (drop (length sub) (drop k a)).
  rewrite <- (take_drop (length sub) (drop k a)) at 1. f_equal.
  apply (f_equal (take (length sub))) in Hq.
  rewrite take_app_le in Hq by (rewrite length_drop; lia).
  by rewrite take_app_length in Hq.
Qed.

(** No list is opened before [limit]: the lookup fails, and conversely. *)
Lemma rfind_none_iff (sub a x : str) :
  rfind sub (a ++ x) 0 (len a) = (-1)%Z <-> ~ occurs sub a.
Proof.
  assert (adjust (len a) (a ++ x) = len a) as Ha.
  { unfold adjust. pose proof (len_nonneg a). by destruct (Z.ltb_spec (len a) 0); [lia|]. }
  split.
  - intros Hr (u & v & ->).
    pose proof (rfind_max sub ((u ++ sub ++ v) ++ x) (len (u ++ sub ++ v)) (length u)) as H.
    rewrite Ha, Hr in H. pose proof (len_nonneg x) as Hx.
    rewrite !len_app in H. unfold len in *.
    assert (0 <= Z.of_nat (length u))%Z by lia.
    enough (Z.of_nat (length u) <= -1)%Z by lia. apply H; [|lia].
    rewrite <- !app_assoc, drop_app_length. by eexists.
  - intros Ho. destruct (Z.eq_dec (rfind sub (a ++ x) 0 (len a)) (-1)%Z) as [H | H]; [exact H|].
    exfalso. apply Ho.
    destruct (rfind_some _ _ _ _ _ eq_refl H) as (H0 & Hp & He & _). rewrite Ha in He.
    apply prefix_drop_within in Hp; [|unfold len in *; lia].
    destruct (prefix_drop_split _ _ _ Hp) as [q Hq]. by eexists _, _.
Qed.

Lemma first_in_found (sub a rest : str) :
  first_in sub a -> (find sub (a ++ sub ++ rest) 0 =? -1)%Z = false.
Proof.
  intros H. rewrite (find_first sub a rest H). pose proof (len_nonneg a). lia.
Qed.

Lemma length_new_child (r n : str) : (0 < length (new_child r n))%nat.
Proof. unfold new_child. rewrite length_app. simpl. lia. Qed.

(** X14. The group membership is looked for before the first occurrence of
    [ContentView.swift] only: the sub-insertion leaves the manifest as it
    is exactly when no children list is opened in the text that precedes
    that first occurrence. A manifest whose build-file section names
    [ContentView.swift] ahead of the group section therefore gets no group
    membership, though the group is there. *)
Theorem group_is_sought_before_the_first_anchor (r n a rest : str) :
  first_in content_view a ->
  (add_to_NaviGPT_group r n (a ++ content_view ++ rest) = a ++ content_view ++ rest
   <-> ~ occurs children_opening a).
Proof.
  intros Hfirst. rewrite add_to_NaviGPT_group_eq, (first_in_found _ _ _ Hfirst).
  cbn [negb]. rewrite add_child_before_eq, (find_first _ _ _ Hfirst).
  rewrite <- rfind_none_iff. split.
  - intros Heq.
    destruct (Z.eqb_spec (rfind children_opening (a ++ content_view ++ rest) 0 (len a)) (-1))
      as [H | H]; [exact H|].
    cbn [negb] in Heq. apply (f_equal length) in Heq. rewrite length_splice in Heq.
    pose proof (length_new_child r n). lia.
  - intros ->. reflexivity.
Qed.

Lemma group_is_sought_before_the_first_anchor_witness :
  first_in content_view xcode_layout_before
  /\ ~ occurs children_opening xcode_layout_before
  /\ occurs children_opening xcode_layout_after
  /\ add_to_NaviGPT_group sample_ref_uuid sample_name
       (xcode_layout_before ++ content_view ++ xcode_layout_after)
     = xcode_layout_before ++ content_view ++ xcode_layout_after.
Proof.
  assert (first_in content_view xcode_layout_before) as Hfirst
    by (apply contains_false; vm_compute; reflexivity).
  assert (~ occurs children_opening xcode_layout_before) as Hnone
    by (apply contains_false; vm_compute; reflexivity).
  split; [exact Hfirst|]. split; [exact Hnone|].
  split; [apply contains_occurs; vm_compute; reflexivity|].
  exact (proj2 (group_is_sought_before_the_first_anchor sample_ref_uuid sample_name
                  xcode_layout_before xcode_layout_after Hfirst) Hnone).
Defined.

(** ** The requests of the third phase *)

Lemma rfind_opened_last (limit : Z) (before c : str) :
  (0 <= limit)%Z ->
  len before = rfind (lit "children = (") c 0 limit ->
  rfind (lit "children = (") c 0 limit <> (-1)%Z ->
  opened_last_before limit before c.
Proof.
  intros Hlim Hb Hss.
  assert (adjust limit c = limit) as Ha
    by (unfold adjust; by destruct (Z.ltb_spec limit 0); [lia|]).
  destruct (rfind_some _ _ _ _ _ eq_refl Hss) as (_ & _ & He & _). rewrite Ha in He.
  split; [rewrite Hb; exact He|].
  intros k Hp Hk.
  pose proof (rfind_max (lit "children = (") c limit k Hp) as H. rewrite Ha in H.
  specialize (H Hk). rewrite <- Hb in H. unfold len in H. lia.
Qed.

Lemma add_phase3_main_target_file_content (rnd : nat -> N) (e : env) (f : str * str) :
  contains (snd f) (content e) = false ->
  content (AddPhase3Files.add_main_target_file rnd e f)
  = add_to_PBXSourcesBuildPhase navigpt_sources
      (generate_uuid (rnd (S (draws e)))) (snd f)
      (add_to_Services_group (generate_uuid (rnd (draws e))) (snd f)
         (add_to_PBXFileReference_section (generate_uuid (rnd (draws e))) (snd f)
            (add_to_PBXBuildFile_section (generate_uuid (rnd (S (draws e))))
               (generate_uuid (rnd (draws e))) (snd f) (content e))))
    /\ file_uuids (AddPhase3Files.add_main_target_file rnd e f)
       = <[snd f := (generate_uuid (rnd (draws e)), generate_uuid (rnd (S (draws e))),
                     fst f)]> (file_uuids e).
Proof.
  intros Hc. unfold AddPhase3Files.add_main_target_file.
  cbn [content print]. rewrite Hc. split; reflexivity.
Qed.

(** ** The fixed digits of an identifier *)

Lemma hex_lookup (w : nat) (n : N) (i : nat) :
  (i < w)%nat ->
  Uuid.hex w n !! i = Some (Uuid.hex_digit ((n / 16 ^ N.of_nat (w - 1 - i)) mod 16)%N).
Proof.
  revert n i. induction w as [|w IH]; intros n i Hi; [lia|].
  cbn [Uuid.hex]. destruct (decide (i < w)%nat) as [Hlt | Hge].
  - rewrite lookup_app_l by (rewrite hex_length; lia).
    rewrite IH by lia. do 2 f_equal.
    replace (S w - 1 - i)%nat with (S (w - 1 - i)) by lia.
    rewrite Nat2N.inj_succ, N.pow_succ_r', N.Div0.div_div. reflexivity.
  - assert (i = w) as -> by lia.
    rewrite lookup_app_r by (rewrite hex_length; lia).
    rewrite hex_length, Nat.sub_diag.
    replace (S w - 1 - w)%nat with 0%nat by lia.
    cbn [lookup list_lookup]. change (16 ^ N.of_nat 0)%N with 1%N.
    by rewrite N.div_1_r.
Qed.

Lemma nibble_bit (u k j : N) :
  (j < 4)%N -> N.testbit ((u / 16 ^ k) mod 16) j = N.testbit u (j + 4 * k).
Proof.
  intros Hj. change 16%N with (2 ^ 4)%N.
  rewrite <- N.pow_mul_r, N.mod_pow2_bits_low by exact Hj.
  apply N.div_pow2_bits.
Qed.

Lemma nibble_of_bits (v : N) (b0 b1 b2 b3 : bool) :
  (v < 16)%N ->
  N.testbit v 0 = b0 -> N.testbit v 1 = b1 -> N.testbit v 2 = b2 -> N.testbit v 3 = b3 ->
  v = (N.b2n b0 + 2 * N.b2n b1 + 4 * N.b2n b2 + 8 * N.b2n b3)%N.
Proof.
  intros Hv H0 H1 H2 H3. subst.
  assert (v = 0 \/ v = 1 \/ v = 2 \/ v = 3 \/ v = 4 \/ v = 5 \/ v = 6 \/ v = 7
          \/ v = 8 \/ v = 9 \/ v = 10 \/ v = 11 \/ v = 12 \/ v = 13 \/ v = 14
          \/ v = 15)%N as H by lia.
  repeat (destruct H as [-> | H]; [reflexivity|]). subst. reflexivity.
Qed.

(** The bits that [uuid4] forces: version 4, variant [10]. *)
Lemma uuid4_bits (random : N) :
  N.testbit (Uuid.uuid4 random) 76 = false /\ N.testbit (Uuid.uuid4 random) 77 = false
  /\ N.testbit (Uuid.uuid4 random) 78 = true /\ N.testbit (Uuid.uuid4 random) 79 = false
  /\ N.testbit (Uuid.uuid4 random) 62 = false /\ N.testbit (Uuid.uuid4 random) 63 = true.
Proof.
  unfold Uuid.uuid4. cbv zeta. generalize (random mod 2 ^ 128)%N. intros x.
  rewrite !N.lor_spec, !N.ldiff_spec, !N.lor_spec, !N.ldiff_spec.
  repeat split.
  - destruct (N.testbit x 76); reflexivity.
  - destruct (N.testbit x 77); reflexivity.
  - destruct (N.testbit x 78); reflexivity.
  - destruct (N.testbit x 79); reflexivity.
  - destruct (N.testbit x 62); reflexivity.
  - destruct (N.testbit x 63); reflexivity.
Qed.

Lemma uuid4_version (random : N) : ((Uuid.uuid4 random / 16 ^ 19) mod 16 = 4)%N.
Proof.
  destruct (uuid4_bits random) as (H0 & H1 & H2 & H3 & _).
  revert H0 H1 H2 H3. generalize (Uuid.uuid4 random). intros u H0 H1 H2 H3.
  apply (nibble_of_bits _ false false true false).
  - apply N.mod_lt. discriminate.
  - rewrite nibble_bit by reflexivity. exact H0.
  - rewrite nibble_bit by reflexivity. exact H1.
  - rewrite nibble_bit by reflexivity. exact H2.
  - rewrite nibble_bit by reflexivity. exact H3.
Qed.

Lemma uuid4_variant (random : N) :
  (8 <= (Uuid.uuid4 random / 16 ^ 15) mod 16 <= 11)%N.
Proof.
  destruct (uuid4_bits random) as (_ & _ & _ & _ & H2 & H3).
  revert H2 H3. generalize (Uuid.uuid4 random). intros u H2 H3.
  pose proof (nibble_of_bits ((u / 16 ^ 15) mod 16) _ _ false true
                ltac:(apply N.mod_lt; discriminate) eq_refl eq_refl) as H.
  rewrite H.
  - destruct (N.testbit _ 0), (N.testbit _ 1); cbn [N.b2n]; lia.
  - rewrite nibble_bit by reflexivity. exact H2.
  - rewrite nibble_bit by reflexivity. exact H3.
Qed.

Lemma generate_uuid_lookup (random : N) (i : nat) :
  (i < 24)%nat ->
  generate_uuid random !! i
  = Some (upper_char (Uuid.hex_digit
            ((Uuid.uuid4 random / 16 ^ N.of_nat (31 - i)) mod 16)%N)).
Proof.
  intros Hi. rewrite generate_uuid_digits. unfold upper.
  pose proof (hex_lookup 32 (Uuid.uuid4 random) i ltac:(lia)) as H. revert H.
  generalize (Uuid.hex 32 (Uuid.uuid4 random)). intros h H.
  change (map upper_char (take 24 h)) with (upper_char <$> take 24 h).
  rewrite list_lookup_fmap, lookup_take_lt by lia. rewrite H.
  replace (32 - 1 - i)%nat with (31 - i)%nat by lia. reflexivity.
Qed.

(** X16. Six bits of every identifier are fixed by [uuid4]: the 13th
    character is always the version digit [4], and the 17th is one of [8],
    [9], [A] and [B], the digits of the variant. *)
Theorem generate_uuid_version_and_variant (random : N) :
  generate_uuid random !! 12%nat = Some 52%N
  /\ exists c, generate_uuid random !! 16%nat = Some c
               /\ (c = 56 \/ c = 57 \/ c = 65 \/ c = 66)%N.
Proof.
  split.
  - rewrite generate_uuid_lookup by lia.
    change (N.of_nat (31 - 12)) with 19%N. rewrite uuid4_version. reflexivity.
  - rewrite generate_uuid_lookup by lia. eexists. split; [reflexivity|].
    change (N.of_nat (31 - 16)) with 15%N.
    pose proof (uuid4_variant random) as H. revert H.
    generalize ((Uuid.uuid4 random / 16 ^ 15) mod 16)%N. intros v Hv.
    assert (v = 8 \/ v = 9 \/ v = 10 \/ v = 11)%N as [-> | [-> | [-> | ->]]] by lia;
      vm_compute; tauto.
Qed.

(** ** Registering after unregistering *)

Lemma not_occurs_avoids (ch : char) (sub x : str) :
  ch ∈ sub -> avoids ch x = true -> ~ occurs sub x.
Proof.
  intros Hin Ha (p & q & ->). apply (avoids_spec ch _ Ha).
  apply elem_of_app. right. apply elem_of_app. by left.
Qed.

Lemma not_occurs_splice (sub x s : str) (pos : Z) :
  ~ occurs sub s -> ~ occurs sub x ->
  (forall c, head x = Some c -> c ∉ sub) -> (forall c, last x = Some c -> c ∉ sub) ->
  ~ occurs sub (splice pos x s).
Proof.
  intros Hs Hx Hh Hl Ho. unfold splice in Ho.
  apply occurs_insert_inv in Ho as [Ho | [(c & Hc & Hin) | [(c & Hc & Hin) | Ho]]].
  - by rewrite slice_to_from in Ho.
  - by apply (Hh c).
  - by apply (Hl c).
  - done.
Qed.

Lemma generate_uuid_avoids_N (random : N) : avoids LETTER_N (generate_uuid random) = true.
Proof.
  unfold avoids. apply forallb_forall. intros c Hc.
  pose proof (generate_uuid_hex_digits random) as H. rewrite forallb_forall in H.
  specialize (H c Hc). unfold upper_hex_digit in H.
  apply negb_true_iff, N.eqb_neq. unfold LETTER_N.
  apply orb_true_iff in H as [H | H]; apply andb_true_iff in H as [H1 H2];
    apply N.leb_le in H1, H2; lia.
Qed.

Section RecordsWithoutN.
Variables b r n : str.
Hypothesis Hb : avoids LETTER_N b = true.
Hypothesis Hr : avoids LETTER_N r = true.
Hypothesis Hn : avoids LETTER_N n = true.

Lemma new_build_file_avoids_N : avoids LETTER_N (new_build_file b r n) = true.
Proof. unfold new_build_file. rewrite !avoids_app, Hb, Hr, Hn. reflexivity. Qed.

Lemma new_file_ref_avoids_N : avoids LETTER_N (new_file_ref r n) = true.
Proof. unfold new_file_ref. rewrite !avoids_app, Hr, Hn. reflexivity. Qed.

Lemma new_child_avoids_N : avoids LETTER_N (new_child r n) = true.
Proof. unfold new_child. rewrite !avoids_app, Hr, Hn. reflexivity. Qed.

Lemma new_source_avoids_N : avoids LETTER_N (new_source b n) = true.
Proof. unfold new_source. rewrite !avoids_app, Hb, Hn. reflexivity. Qed.

End RecordsWithoutN.

Lemma core_name_has_N : LETTER_N ∈ core_name.
Proof. left. Qed.

Lemma core_name_no_tab : TAB ∉ core_name.
Proof. apply no_char_in. reflexivity. Qed.

(** A record without the letter [N], spliced anywhere, brings no mention of
    [NaviGPTCore.swift]. *)
Lemma splice_keeps_core_absent (x s : str) (pos : Z) :
  avoids LETTER_N x = true -> head x = Some TAB ->
  last x = Some NL \/ last x = Some TAB ->
  ~ occurs core_name s -> ~ occurs core_name (splice pos x s).
Proof.
  intros Hx Hh Hl Hs. apply not_occurs_splice; [exact Hs | | |].
  - exact (not_occurs_avoids LETTER_N core_name x core_name_has_N Hx).
  - intros c Hc. rewrite Hh in Hc. injection Hc as <-. exact core_name_no_tab.
  - intros c Hc. destruct Hl as [Hl | Hl]; rewrite Hl in Hc; injection Hc as <-.
    + exact core_name_no_newline.
    + exact core_name_no_tab.
Qed.

Section RegistrationWithoutN.
Variables b r n : str.
Hypothesis Hb : avoids LETTER_N b = true.
Hypothesis Hr : avoids LETTER_N r = true.
Hypothesis Hn : avoids LETTER_N n = true.

Lemma entries_keep_core_absent (c : str) :
  ~ occurs core_name c ->
  ~ occurs core_name
      (add_to_PBXFileReference_section r n (add_to_PBXBuildFile_section b r n c)).
Proof.
  intros Hc. rewrite add_to_PBXFileReference_section_eq.
  apply splice_keeps_core_absent;
    [by apply new_file_ref_avoids_N | reflexivity | left; apply last_new_file_ref|].
  rewrite add_to_PBXBuildFile_section_eq.
  apply splice_keeps_core_absent;
    [by apply new_build_file_avoids_N | reflexivity | left; apply last_new_build_file|].
  exact Hc.
Qed.

Lemma group_keeps_core_absent (c : str) :
  ~ occurs core_name c -> ~ occurs core_name (add_to_NaviGPT_group r n c).
Proof.
  intros Hc. rewrite add_to_NaviGPT_group_eq, add_child_before_eq.
  destruct (negb _); [|exact Hc]. destruct (negb _); [|exact Hc].
  apply splice_keeps_core_absent;
    [by apply new_child_avoids_N | reflexivity | right; apply last_new_child | exact Hc].
Qed.

Lemma sources_keep_core_absent (marker c : str) :
  ~ occurs core_name c -> ~ occurs core_name (add_to_PBXSourcesBuildPhase marker b n c).
Proof.
  intros Hc. rewrite add_to_PBXSourcesBuildPhase_eq.
  destruct (negb _); [|exact Hc].
  apply splice_keeps_core_absent;
    [by apply new_source_avoids_N | reflexivity | right; apply last_new_source | exact Hc].
Qed.

End RegistrationWithoutN.

Lemma add_main_target_file_content (rnd : nat -> N) (e : env) (f : str * str) :
  content (AddPhaseFiles.add_main_target_file rnd e f)
  = if contains (snd f) (content e) then content e
    else add_to_PBXSourcesBuildPhase navigpt_sources
           (generate_uuid (rnd (S (draws e)))) (snd f)
           (add_to_NaviGPT_group (generate_uuid (rnd (draws e))) (snd f)
              (add_to_PBXFileReference_section (generate_uuid (rnd (draws e))) (snd f)
                 (add_to_PBXBuildFile_section (generate_uuid (rnd (S (draws e))))
                    (generate_uuid (rnd (draws e))) (snd f) (content e)))).
Proof.
  unfold AddPhaseFiles.add_main_target_file. cbn [content print].
  destruct (contains (snd f) (content e)); reflexivity.
Qed.

(** Registering a file whose display name has no [N] brings no mention of
    [NaviGPTCore.swift]. *)
Lemma add_main_keeps_core_absent (rnd : nat -> N) (e : env) (f : str * str) :
  avoids LETTER_N (snd f) = true ->
  ~ occurs core_name (content e) ->
  ~ occurs core_name (content (AddPhaseFiles.add_main_target_file rnd e f)).
Proof.
  intros Hn Hc. rewrite add_main_target_file_content.
  destruct (contains (snd f) (content e)); [exact Hc|].
  apply sources_keep_core_absent; [apply generate_uuid_avoids_N | exact Hn|].
  apply group_keeps_core_absent; [apply generate_uuid_avoids_N | exact Hn|].
  apply entries_keep_core_absent;
    [apply generate_uuid_avoids_N | apply generate_uuid_avoids_N | exact Hn | exact Hc].
Qed.

Section SecondRequest.
Variables body1 body2 : env -> str * str -> env.
Hypothesis Hbody1 : registers body1.
Hypothesis Hbody2 : registers body2.
Variables f1 f2 : str * str.
Variables rest1 files2 : list (str * str).
Variable msg2 : str.

(** The second request of the first loop, when its display name does not
    occur once the first request is dealt with, is registered, and its
    entries are in the text the two loops end with. *)
Lemma second_request_registered (e : env) :
  plain_name (snd f2) = true ->
  contains (snd f2) (content (body1 e f1)) = false ->
  added_msg (snd f2)
  ∈ stdout (fold_left body2 files2 (print msg2 (fold_left body1 (f1 :: f2 :: rest1) e)))
  /\ entries_present (snd f2)
       (content (fold_left body2 files2
                   (print msg2 (fold_left body1 (f1 :: f2 :: rest1) e)))).
Proof.
  intros Hp Hc. cbn [fold_left].
  destruct (registers_entries body1 (body1 e f1) f2 Hbody1 Hp Hc) as [He Hs].
  revert He Hs. generalize (body1 (body1 e f1) f2). intros e2 He Hs.
  pose proof (fold_stdout body1 rest1 e2 Hbody1) as [k1 Hk1].
  pose proof (fold_edits body1 rest1 e2 Hbody1) as Hed1.
  revert Hk1 Hed1. generalize (fold_left body1 rest1 e2). intros e3 Hk1 Hed1.
  pose proof (fold_stdout body2 files2 (print msg2 e3) Hbody2) as [k2 Hk2].
  pose proof (fold_edits body2 files2 (print msg2 e3) Hbody2) as Hed2.
  change (content (print msg2 e3)) with (content e3) in Hed2.
  change (stdout (print msg2 e3)) with (stdout e3 ++ [msg2]) in Hk2.
  revert Hk2 Hed2. generalize (fold_left body2 files2 (print msg2 e3)). intros e4 Hk2 Hed2.
  split.
  - rewrite Hk2, Hk1, Hs. rewrite !elem_of_app. left. left. left. right. right. left.
  - eapply entries_present_edits; [exact Hp | exact Hed2|].
    eapply entries_present_edits; [exact Hp | exact Hed1 | exact He].
Qed.

End SecondRequest.

Lemma main_target_files_eq :
  AddPhaseFiles.main_target_files = config_manager :: core_request :: requests_after_core.
Proof. reflexivity. Qed.

Lemma remove_refs_file_after (d : str) :
  file_after (Some d) (RemoveRefs.main (Some d))
  = Some (RemoveRefs.unregister core_name d).
Proof. unfold file_after. by rewrite remove_refs_written. Qed.

Lemma config_manager_avoids_N : avoids LETTER_N (snd config_manager) = true.
Proof. reflexivity. Qed.

Lemma core_request_plain : plain_name (snd core_request) = true.
Proof. reflexivity. Qed.

(** X17. Registering after unregistering. Whatever the manifest, a run of
    [add_phase_files_to_xcode.py] on the text that [remove_refs.py] wrote
    does not skip [NaviGPTCore.swift]: it reports the file as added, and
    the text it writes holds the two entries of the file. *)
Theorem register_after_unregister (rnd : nat -> N) (pf d : str) :
  let cleaned := file_after (Some d) (RemoveRefs.main (Some d)) in
  let o := AddPhaseFiles.main rnd pf cleaned in
  added_msg core_name ∈ printed o
  /\ exists w, written o = Some w /\ entries_present core_name w.
Proof.
  cbv zeta. rewrite remove_refs_file_after.
  pose proof (unregister_no_mention core_name d core_name_nonempty core_name_no_newline)
    as Hclean.
  revert Hclean. generalize (RemoveRefs.unregister core_name d). intros w0 Hclean.
  rewrite add_phase_printed_eq, add_phase_written, add_phase_process_files_eq.
  rewrite main_target_files_eq.
  pose proof (add_main_keeps_core_absent rnd
                (print ([NL] ++ lit "=== Adding Main Target Files ===")
                   (AddPhaseFiles.loaded pf w0 AddPhaseFiles.banner))
                config_manager config_manager_avoids_N Hclean) as Habs.
  apply contains_false in Habs.
  destruct (second_request_registered _ _ (registers_add_phase_main rnd)
              (registers_add_phase_test rnd) config_manager core_request
              requests_after_core AddPhaseFiles.test_target_files
              ([NL] ++ lit "=== Adding Test Target Files ===")
              (print ([NL] ++ lit "=== Adding Main Target Files ===")
                 (AddPhaseFiles.loaded pf w0 AddPhaseFiles.banner))
              core_request_plain Habs) as [Hs He].
  split.
  - apply elem_of_app. left. apply elem_of_app. left. exact Hs.
  - eexists. split; [reflexivity | exact He].
Qed.

(** ** The part of the random value an identifier keeps *)

Lemma hex_take (k w : nat) (n : N) :
  take w (Uuid.hex (k + w) n) = Uuid.hex w (n / 16 ^ N.of_nat k).
Proof.
  revert n. induction k as [|k IH]; intros n.
  - cbn [Nat.add]. change (16 ^ N.of_nat 0)%N with 1%N.
    rewrite N.div_1_r. apply take_ge. by rewrite hex_length.
  - cbn [Nat.add Uuid.hex]. rewrite take_app_le by (rewrite hex_length; lia).
    rewrite IH, Nat2N.inj_succ, N.pow_succ_r', N.Div0.div_div. reflexivity.
Qed.

Lemma generate_uuid_high_part (random : N) :
  generate_uuid random = upper (Uuid.hex 24 (Uuid.uuid4 random / 2 ^ 32)).
Proof.
  rewrite generate_uuid_digits. f_equal.
  exact (hex_take 8 24 (Uuid.uuid4 random)).
Qed.

Lemma small_bits (a m : N) : (a < 2 ^ 16)%N -> (16 <= m)%N -> N.testbit a m = false.
Proof.
  intros Ha Hm. destruct (N.eq_dec a 0%N) as [-> | Hne]; [apply N.bits_0|].
  apply N.bits_above_log2. apply N.log2_lt_pow2; [lia|].
  eapply N.lt_le_trans; [exact Ha|]. apply N.pow_le_mono_r; lia.
Qed.

(** The bits of a shifted 16-bit mask are the bits of the mask. *)
Lemma mask_bit (a n i : N) (on : list N) :
  (a < 2 ^ 16)%N ->
  forallb (fun m => implb (N.testbit a m) (existsb (N.eqb (m + n)) on))
    (map N.of_nat (seq 0 16)) = true ->
  N.testbit (N.shiftl a n) i = true -> i ∈ on.
Proof.
  intros Ha Hall Hi. destruct (N.lt_ge_cases i n) as [Hlt | Hge].
  - by rewrite N.shiftl_spec_low in Hi.
  - rewrite N.shiftl_spec_high' in Hi by exact Hge.
    destruct (N.lt_ge_cases (i - n)%N 16%N) as [Hm | Hm].
    + rewrite forallb_forall in Hall.
      specialize (Hall (i - n)%N). rewrite Hi in Hall. cbn [implb] in Hall.
      assert (existsb (N.eqb (i - n + n)) on = true) as Hex.
      { apply Hall. apply in_map_iff. exists (N.to_nat (i - n)).
        split; [apply N2Nat.id | apply in_seq; lia]. }
      apply existsb_exists in Hex as (x & Hx & Heq). apply N.eqb_eq in Heq.
      apply list_elem_of_In. by replace i with x by lia.
    + by rewrite (small_bits a (i - n)%N Ha Hm) in Hi.
Qed.

(** A bit that [uuid4] does not overwrite is the bit of the random value. *)
Lemma uuid4_free_bit (random i : N) :
  i ∉ forced_bits ->
  N.testbit (Uuid.uuid4 random) i = N.testbit (random mod 2 ^ 128) i.
Proof.
  intros Hi. unfold Uuid.uuid4. cbv zeta. generalize (random mod 2 ^ 128)%N. intros x.
  rewrite !N.lor_spec, !N.ldiff_spec, !N.lor_spec, !N.ldiff_spec.
  assert (forall a n on, (a < 2 ^ 16)%N ->
            forallb (fun m => implb (N.testbit a m) (existsb (N.eqb (m + n)) on))
              (map N.of_nat (seq 0 16)) = true ->
            (forall j, j ∈ on -> j ∈ forced_bits) ->
            N.testbit (N.shiftl a n) i = false) as Hmask.
  { intros a n on Ha Hall Hon. destruct (N.testbit (N.shiftl a n) i) eqn:E; [|reflexivity].
    exfalso. apply Hi, Hon. exact (mask_bit a n i on Ha Hall E). }
  assert (forall on : list N, forallb (fun j => existsb (N.eqb j) forced_bits) on = true ->
            forall j, j ∈ on -> j ∈ forced_bits) as Hsub.
  { intros on Hon j Hj. rewrite forallb_forall in Hon.
    specialize (Hon j (proj1 (list_elem_of_In _ _) Hj)).
    apply existsb_exists in Hon as (y & Hy & Heq). apply N.eqb_eq in Heq. subst y.
    by apply list_elem_of_In. }
  rewrite (Hmask 0xc000 48 [62; 63])%N by (try apply Hsub; reflexivity).
  rewrite (Hmask 0x8000 48 [63])%N by (try apply Hsub; reflexivity).
  rewrite (Hmask 0xf000 64 [76; 77; 78; 79])%N by (try apply Hsub; reflexivity).
  rewrite (Hmask 4 76 [78])%N by (try apply Hsub; reflexivity).
  cbn [negb]. by rewrite !orb_false_r, !andb_true_r.
Qed.

Lemma uuid4_forced_bit (random random' i : N) :
  i ∈ forced_bits ->
  N.testbit (Uuid.uuid4 random) i = N.testbit (Uuid.uuid4 random') i.
Proof.
  intros Hi.
  destruct (uuid4_bits random) as (A0 & A1 & A2 & A3 & A4 & A5).
  destruct (uuid4_bits random') as (B0 & B1 & B2 & B3 & B4 & B5).
  unfold forced_bits in Hi.
  repeat (apply elem_of_cons in Hi as [-> | Hi]; [congruence|]).
  by apply elem_of_nil in Hi.
Qed.

Lemma upper_hex_digit_value (d : N) :
  (d < 16)%N ->
  upper_char (Uuid.hex_digit d) = (if (d <? 10)%N then 48 + d else 55 + d)%N.
Proof.
  intros Hd. unfold Uuid.hex_digit, upper_char.
  destruct (N.ltb_spec d 10).
  - destruct (N.leb_spec 97 (48 + d)), (N.leb_spec (48 + d) 122); cbn [andb]; lia.
  - destruct (N.leb_spec 97 (87 + d)), (N.leb_spec (87 + d) 122); cbn [andb]; lia.
Qed.

Lemma upper_hex_digit_inj (d d' : N) :
  (d < 16)%N -> (d' < 16)%N ->
  upper_char (Uuid.hex_digit d) = upper_char (Uuid.hex_digit d') -> d = d'.
Proof.
  intros Hd Hd'. rewrite !upper_hex_digit_value by done.
  destruct (N.ltb_spec d 10), (N.ltb_spec d' 10); lia.
Qed.

(** The bits 32 to 127 of [uuid4 random] can be read off the identifier. *)
Lemma generate_uuid_bits (random random' i : N) :
  (32 <= i < 128)%N ->
  generate_uuid random = generate_uuid random' ->
  N.testbit (Uuid.uuid4 random) i = N.testbit (Uuid.uuid4 random') i.
Proof.
  intros Hi Heq.
  assert (N.to_nat (31 - i / 4)%N < 24)%nat as Hk.
  { assert (8 <= i / 4)%N by (apply N.div_le_lower_bound; lia).
    assert (i / 4 < 32)%N by (apply N.Div0.div_lt_upper_bound; lia). lia. }
  pose proof (generate_uuid_lookup random _ Hk) as H1.
  pose proof (generate_uuid_lookup random' _ Hk) as H2.
  rewrite Heq, H2 in H1. injection H1 as H1.
  apply upper_hex_digit_inj in H1; [|by apply N.mod_lt..].
  assert (N.of_nat (31 - N.to_nat (31 - i / 4)%N) = (i / 4)%N) as Hq.
  { assert (i / 4 < 32)%N by (apply N.Div0.div_lt_upper_bound; lia). lia. }
  rewrite Hq in H1.
  apply (f_equal (fun v => N.testbit v (i mod 4))) in H1.
  rewrite !nibble_bit in H1 by (apply N.mod_lt; discriminate).
  replace (i mod 4 + 4 * (i / 4))%N with i in H1
    by (rewrite N.add_comm; apply N.div_mod; discriminate).
  symmetry. exact H1.
Qed.

(** X18. An identifier keeps 90 of the 128 random bits: two random values
    give the same identifier exactly when they agree on the bits 32 to 127
    other than the six bits that [uuid4] overwrites. The 32 lowest bits
    are dropped with the last eight digits, and the bits 62, 63 and 76 to
    79 are replaced by the variant and the version. *)
Theorem generate_uuid_keeps_90_bits (random random' : N) :
  generate_uuid random = generate_uuid random'
  <-> forall i : N, (32 <= i < 128)%N -> i ∉ forced_bits ->
        N.testbit random i = N.testbit random' i.
Proof.
  split.
  - intros Heq i Hi Hf.
    pose proof (generate_uuid_bits random random' i Hi Heq) as H.
    rewrite !uuid4_free_bit in H by exact Hf.
    by rewrite !N.mod_pow2_bits_low in H by lia.
  - intros H. rewrite !generate_uuid_high_part. do 2 f_equal.
    apply N.bits_inj. intros i. rewrite !N.div_pow2_bits.
    destruct (decide (i + 32 ∈ forced_bits)%N) as [Hf | Hf];
      [by apply uuid4_forced_bit|].
    rewrite !uuid4_free_bit by exact Hf.
    destruct (N.lt_ge_cases (i + 32)%N 128%N) as [Hlt | Hge].
    + rewrite !N.mod_pow2_bits_low by exact Hlt. apply H; [lia | exact Hf].
    + by rewrite !N.mod_pow2_bits_high.
Qed.

(** ** The console transcript of a batch run *)

Section Transcript.
Variable body : env -> str * str -> env.
Hypothesis Hbody : registers body.

(** A loop prints two lines per request, in the order of the requests, and
    changes the text exactly when one of the verdicts is "Added". *)
Lemma fold_transcript (files : list (str * str)) (e : env) :
  exists verdicts : list bool,
    length verdicts = length files
    /\ stdout (fold_left body files e) = stdout e ++ transcript files verdicts
    /\ (if all_skipped verdicts
        then content (fold_left body files e) = content e
        else (length (content e) < length (content (fold_left body files e)))%nat).
Proof.
  revert e. induction files as [|f files IH]; intros e.
  - exists []. cbn [fold_left]. split; [reflexivity|]. split; [|reflexivity].
    unfold transcript. cbn [zip_with concat]. by rewrite app_nil_r.
  - cbn [fold_left]. destruct (IH (body e f)) as (vs & Hl & Hs & Hc).
    pose proof (length_edits _ _ (fold_edits body files (body e f) Hbody)) as Hmono.
    destruct (Hbody e f) as [(_ & Hk & _ & _ & Ho) | (Hn & _ & Ho & _)].
    + exists (false :: vs). split; [cbn [length]; by rewrite Hl|]. split.
      * rewrite Hs, Ho. unfold transcript. cbn [zip_with concat transcript_of].
        by rewrite <- !app_assoc.
      * unfold all_skipped in *. cbn [forallb negb andb]. rewrite Hk in Hc. exact Hc.
    + exists (true :: vs). split; [cbn [length]; by rewrite Hl|]. split.
      * rewrite Hs, Ho. unfold transcript. cbn [zip_with concat transcript_of].
        by rewrite <- !app_assoc.
      * unfold all_skipped in *. cbn [forallb negb andb].
        pose proof (body_grows body Hbody e f Hn). lia.
Qed.

End Transcript.

Section TwoLoopsTranscript.
Variables body1 body2 : env -> str * str -> env.
Hypothesis Hbody1 : registers body1.
Hypothesis Hbody2 : registers body2.
Variables files1 files2 : list (str * str).
Variables msg1 msg2 : str.

Lemma loops_transcript (e : env) :
  exists v1 v2 : list bool,
    length v1 = length files1 /\ length v2 = length files2
    /\ stdout (fold_left body2 files2 (print msg2 (fold_left body1 files1 (print msg1 e))))
       = stdout e ++ [msg1] ++ transcript files1 v1 ++ [msg2] ++ transcript files2 v2
    /\ (content (fold_left body2 files2 (print msg2 (fold_left body1 files1 (print msg1 e))))
        = content e
        <-> all_skipped (v1 ++ v2) = true).
Proof.
  destruct (fold_transcript body1 Hbody1 files1 (print msg1 e)) as (v1 & Hl1 & Hs1 & Hc1).
  change (content (print msg1 e)) with (content e) in Hc1.
  change (stdout (print msg1 e)) with (stdout e ++ [msg1]) in Hs1.
  revert Hs1 Hc1. generalize (fold_left body1 files1 (print msg1 e)). intros e2 Hs1 Hc1.
  destruct (fold_transcript body2 Hbody2 files2 (print msg2 e2)) as (v2 & Hl2 & Hs2 & Hc2).
  pose proof (length_edits _ _ (fold_edits body2 files2 (print msg2 e2) Hbody2)) as Hmono.
  change (content (print msg2 e2)) with (content e2) in Hc2, Hmono.
  change (stdout (print msg2 e2)) with (stdout e2 ++ [msg2]) in Hs2.
  revert Hs2 Hc2 Hmono. generalize (fold_left body2 files2 (print msg2 e2)).
  intros e4 Hs2 Hc2 Hmono.
  exists v1, v2. split; [exact Hl1|]. split; [exact Hl2|]. split.
  - rewrite Hs2, Hs1. by rewrite <- !app_assoc.
  - unfold all_skipped in *. rewrite forallb_app.
    destruct (forallb negb v1); destruct (forallb negb v2); cbn [andb].
    + split; [reflexivity|]. intros _. by rewrite Hc2, Hc1.
    + split; [|discriminate]. intros H. rewrite Hc1, H in Hc2. lia.
    + split; [|discriminate]. intros H. rewrite <- Hc2, H in Hc1. lia.
    + split; [|discriminate]. intros H. rewrite H in Hmono. lia.
Qed.

End TwoLoopsTranscript.

(** X19. The console transcript of
    [add_phase_files_to_xcode.py] on a project file that exists is fixed up
    to the verdicts: the banner, the file read, then for each loop its
    heading and two lines per request in the order of the request list, the
    "Processing" line and the verdict ("Added" or the skip message), and
    last the closing summary. The verdicts tell whether the manifest
    changed: the text written is the text read exactly when every verdict
    is a skip. *)
Theorem batch_run_transcript (rnd : nat -> N) (pf d : str) :
  exists v1 v2 : list bool,
    length v1 = length AddPhaseFiles.main_target_files
    /\ length v2 = length AddPhaseFiles.test_target_files
    /\ printed (AddPhaseFiles.main rnd pf (Some d))
       = ((((AddPhaseFiles.banner ++ [lit "Reading project file: " ++ pf])
            ++ [[NL] ++ lit "=== Adding Main Target Files ==="]
            ++ transcript AddPhaseFiles.main_target_files v1
            ++ [[NL] ++ lit "=== Adding Test Target Files ==="]
            ++ transcript AddPhaseFiles.test_target_files v2)
           ++ [[NL] ++ lit "Writing updated project file..."])
          ++ trailer (lit "✅ Successfully added all Phase 1 & 2 files!")
               [(lit "Files added to NaviGPT target:", AddPhaseFiles.main_target_files);
                (lit "Files added to NaviGPTTests target:",
                 AddPhaseFiles.test_target_files)])
    /\ (written (AddPhaseFiles.main rnd pf (Some d)) = Some d
        <-> all_skipped (v1 ++ v2) = true).
Proof.
  rewrite add_phase_printed_eq, add_phase_written, add_phase_process_files_eq.
  destruct (loops_transcript _ _ (registers_add_phase_main rnd) (registers_add_phase_test rnd)
              AddPhaseFiles.main_target_files AddPhaseFiles.test_target_files
              ([NL] ++ lit "=== Adding Main Target Files ===")
              ([NL] ++ lit "=== Adding Test Target Files ===")
              (AddPhaseFiles.loaded pf d AddPhaseFiles.banner))
    as (v1 & v2 & Hl1 & Hl2 & Hs & Hc).
  revert Hs Hc.
  generalize (fold_left (AddPhaseFiles.add_test_target_file rnd)
                AddPhaseFiles.test_target_files
                (print ([NL] ++ lit "=== Adding Test Target Files ===")
                   (fold_left (AddPhaseFiles.add_main_target_file rnd)
                      AddPhaseFiles.main_target_files
                      (print ([NL] ++ lit "=== Adding Main Target Files ===")
                         (AddPhaseFiles.loaded pf d AddPhaseFiles.banner))))).
  intros e Hs Hc. exists v1, v2. split; [exact Hl1|]. split; [exact Hl2|]. split.
  - rewrite Hs. reflexivity.
  - rewrite <- Hc. split.
    + intros H. injection H as H. exact H.
    + intros H. f_equal. exact H.
Qed.

(** ** Which list a membership is appended to *)

(** An occurrence of [sub] inside [mid ++ removelast sub] starts inside
    [mid]. *)
Lemma first_in_intro (sub mid rest : str) :
  sub <> [] ->
  (forall k : nat, (k < length mid)%nat -> ~ sub `prefix_of` drop k (mid ++ sub ++ rest)) ->
  first_in sub mid.
Proof.
  intros Hne Hk (u & v & Huv).
  destruct (removelast_snoc sub Hne) as [z Hz].
  assert (length sub = S (length (removelast sub))) as Hlen.
  { rewrite Hz at 1. rewrite length_app. simpl. lia. }
  apply (Hk (length u)).
  - apply (f_equal length) in Huv. rewrite !length_app in Huv. lia.
  - rewrite Hz at 2. rewrite <- !app_assoc, (app_assoc mid), Huv.
    rewrite <- !app_assoc, drop_app_length. by eexists.
Qed.

(** What a successful lookup from position [i] finds: the first occurrence
    of [sub] in the text from [i] on. *)
Lemma found_first (sub s : str) (i : nat) (j : Z) :
  sub <> [] -> (i <= length s)%nat ->
  find sub s (Z.of_nat i) = j -> j <> (-1)%Z ->
  exists mid rest : str,
    drop i s = mid ++ sub ++ rest /\ j = Z.of_nat (i + length mid) /\ first_in sub mid.
Proof.
  intros Hne Hi Hf Hj. destruct (find_some _ _ _ _ Hf Hj) as (Hb & [rest Hp] & Hmin).
  assert (adjust (Z.of_nat i) s = Z.of_nat i) as Ha
    by (unfold adjust; destruct (Z.ltb_spec (Z.of_nat i) 0); lia).
  rewrite Ha in *. unfold len in Hb.
  exists (take (Z.to_nat j - i) (drop i s)), rest.
  assert (length (take (Z.to_nat j - i) (drop i s)) = Z.to_nat j - i)%nat as Hl
    by (rewrite length_take, length_drop; lia).
  assert (drop i s = take (Z.to_nat j - i) (drop i s) ++ sub ++ rest) as Hd.
  { rewrite <- (take_drop (Z.to_nat j - i) (drop i s)) at 1. f_equal.
    rewrite drop_drop. replace (i + (Z.to_nat j - i))%nat with (Z.to_nat j) by lia.
    exact Hp. }
  split; [exact Hd|]. split; [lia|].
  apply (first_in_intro sub _ rest Hne). intros k Hk Hpk.
  rewrite <- Hd, drop_drop in Hpk.
  apply (Hmin (Z.of_nat (i + k))); [lia|]. by rewrite Nat2Z.id.
Qed.

Lemma app_prefix_split (p q x y : str) :
  p ++ q = x ++ y -> (length p <= length x)%nat -> exists k, x = p ++ k /\ q = k ++ y.
Proof.
  intros H Hl. apply app_eq_inv in H as [(k & Hp & Hy) | (k & Hx & Hq)].
  - apply (f_equal length) in Hp as Hlen. rewrite length_app in Hlen.
    assert (k = []) as -> by (destruct k; [done | simpl in Hlen; lia]).
    exists []. rewrite app_nil_r in Hp. subst. by rewrite app_nil_r.
  - by exists k.
Qed.

(** A text that starts with [sub1] and in which [sub2] is first found after
    [mid]: when [sub2] cannot start inside [sub1], [mid] starts with
    [sub1]. *)
Lemma found_after_prefix (sub1 sub2 r1 mid r2 : str) (c : char) :
  sub1 ++ r1 = mid ++ sub2 ++ r2 -> head sub2 = Some c -> c ∉ sub1 ->
  exists between, mid = sub1 ++ between /\ r1 = between ++ sub2 ++ r2.
Proof.
  intros H Hh Hc. apply app_prefix_split; [exact H|].
  destruct (Nat.le_gt_cases (length sub1) (length mid)) as [Hle | Hgt]; [exact Hle|].
  exfalso. symmetry in H. apply app_prefix_split in H as (k & Hs & Hk); [|lia].
  destruct sub2 as [|c2 sub2]; [discriminate|]. injection Hh as ->.
  destruct k as [|k0 k]; [rewrite app_nil_r in Hs; subst; lia|].
  injection Hk as -> _. apply Hc. rewrite Hs. apply elem_of_app. right. left.
Qed.

Lemma close_head : head (lit ");") = Some RPAREN.
Proof. reflexivity. Qed.

Lemma close_nonempty : lit ");" <> [].
Proof. discriminate. Qed.

(** A sub-insertion whose lookups succeed appends the membership to the
    first list opened at or after the first occurrence of the marker. *)
Lemma list_appended_first (marker opening x c : str) (ch : char) :
  marker <> [] ->
  head opening = Some ch -> ch ∉ marker -> RPAREN ∉ opening ->
  find marker c 0 <> (-1)%Z ->
  find opening c (find marker c 0) <> (-1)%Z ->
  find (lit ");") c (find opening c (find marker c 0)) <> (-1)%Z ->
  appended_to_first_list marker opening x c
    (splice (find (lit ");") c (find opening c (find marker c 0))) x c).
Proof.
  intros Hmk Hhead Hmarker Hopening Ht Hfs Hfe.
  assert (opening <> []) as Hop by (destruct opening; [discriminate | done]).
  destruct (found_first marker c 0 _ Hmk ltac:(lia) eq_refl Ht)
    as (before & r0 & Hc0 & Ht' & Hfirst0).
  rewrite drop_0 in Hc0. rewrite Nat.add_0_l in Ht'.
  change (Z.of_nat 0) with 0%Z in Ht'.
  revert Ht' Hfs Hfe. generalize (find marker c 0). intros t -> Hfs Hfe.
  assert (length before <= length c)%nat as Hbl
    by (apply (f_equal length) in Hc0 as Hl0; rewrite length_app in Hl0; lia).
  destruct (found_first opening c (length before) _ Hop Hbl eq_refl Hfs)
    as (mid & r1 & Hc1 & Hfs' & Hfirst1).
  rewrite Hc0 in Hc1 at 1. rewrite drop_app_length in Hc1.
  destruct (found_after_prefix _ _ _ _ _ ch Hc1 Hhead Hmarker) as (between & -> & Hr0).
  revert Hfs' Hfe. generalize (find opening c (Z.of_nat (length before))).
  intros fs -> Hfe.
  assert (c = (before ++ marker ++ between) ++ opening ++ r1) as Hc2
    by (rewrite Hc0, Hr0; by rewrite <- !app_assoc).
  assert (length before + length (marker ++ between)
          = length (before ++ marker ++ between))%nat as Hlen
    by (by rewrite !length_app).
  rewrite Hlen in *.
  assert (length (before ++ marker ++ between) <= length c)%nat as Hbl2
    by (apply (f_equal length) in Hc2 as Hl2; rewrite length_app in Hl2; lia).
  destruct (found_first (lit ");") c _ _ close_nonempty Hbl2 eq_refl Hfe)
    as (mid2 & rest & Hc3 & Hfe' & Hfirst2).
  rewrite Hc2 in Hc3 at 1. rewrite drop_app_length in Hc3.
  destruct (found_after_prefix _ _ _ _ _ RPAREN Hc3 close_head Hopening)
    as (members & -> & Hr1).
  rewrite Hfe'.
  exists before, between, members, rest.
  assert (c = (before ++ marker ++ between ++ opening ++ members) ++ lit ");" ++ rest) as Hc4
    by (rewrite Hc2, Hr1; by rewrite <- !app_assoc).
  split; [rewrite Hc4; by rewrite <- !app_assoc|].
  split; [exact Hfirst0|]. split; [exact Hfirst1|]. split; [exact Hfirst2|].
  replace (Z.of_nat (length (before ++ marker ++ between) + length (opening ++ members)))
    with (len (before ++ marker ++ between ++ opening ++ members))
    by (unfold len; rewrite !length_app; lia).
  rewrite Hc4 at 1. rewrite splice_at_len. by rewrite <- !app_assoc.
Qed.

Lemma children_opening_head : head (lit "children = (") = Some LETTER_c.
Proof. reflexivity. Qed.

Lemma files_opening_head : head (lit "files = (") = Some LETTER_f.
Proof. reflexivity. Qed.

Lemma files_opening_no_close : RPAREN ∉ lit "files = (".
Proof. apply no_char_in. reflexivity. Qed.

(** The target sub-insertion appends to the first files list opened at or
    after the first occurrence of the marker. *)
Lemma source_appended_first (marker b n c : str) :
  marker <> [] -> LETTER_f ∉ marker -> sources_located marker c ->
  appended_to_first_list marker (lit "files = (") (new_source b n) c
    (add_to_PBXSourcesBuildPhase marker b n c).
Proof.
  intros Hne Hmarker H. apply sources_located_eq in H as (H1 & H2 & H3).
  rewrite add_to_PBXSourcesBuildPhase_eq.
  apply Z.eqb_neq in H1 as H1'. rewrite H1'. cbn [negb].
  unfold files_opening, list_closing in *.
  exact (list_appended_first marker (lit "files = (") (new_source b n) c LETTER_f
           Hne files_opening_head Hmarker files_opening_no_close H1 H2 H3).
Qed.

Lemma intern1tests_group_nonempty : intern1tests_group <> [].
Proof. discriminate. Qed.

Lemma intern1_child_appended_first (r n c : str) :
  intern1tests_located c ->
  appended_to_first_list intern1tests_group (lit "children = (") (new_child r n) c
    (add_to_Intern1Tests_group r n c).
Proof.
  intros H. apply intern1tests_located_eq in H as (H1 & H2 & H3).
  rewrite add_to_Intern1Tests_group_eq.
  apply Z.eqb_neq in H1 as H1'. rewrite H1'. cbn [negb].
  unfold children_opening, list_closing in *.
  exact (list_appended_first intern1tests_group (lit "children = (") (new_child r n) c
           LETTER_c intern1tests_group_nonempty children_opening_head
           intern1tests_group_no_c children_opening_no_close H1 H2 H3).
Qed.

(** The group sub-insertion restricted to [limit] appends to the children
    list opened last before [limit]. *)
Lemma child_appended_last (limit : Z) (r n c : str) :
  (0 <= limit)%Z ->
  rfind (lit "children = (") c 0 limit <> (-1)%Z ->
  find (lit ");") c (rfind (lit "children = (") c 0 limit) <> (-1)%Z ->
  appended_to_last_list_before limit (new_child r n) c (add_child_before limit r n c).
Proof.
  unfold add_child_before. cbv zeta. intros Hlim Hss Hce.
  apply Z.eqb_neq in Hss as Hss'. rewrite Hss'. cbn [negb].
  destruct (rfind_some _ _ _ _ _ eq_refl Hss) as (Hss0 & Hp & _ & Hl).
  assert (len (take (Z.to_nat (rfind (lit "children = (") c 0 limit)) c)
          = rfind (lit "children = (") c 0 limit) as Hb.
  { pose proof (len_nonneg (lit "children = (")). unfold len in *. rewrite length_take. lia. }
  pose proof (rfind_opened_last limit _ c Hlim Hb Hss) as Hol.
  revert Hss0 Hp Hl Hb Hol Hce. generalize (rfind (lit "children = (") c 0 limit).
  intros ss Hss0 [q Hq] Hl Hb Hol Hce.
  rewrite <- (Z2Nat.id ss) in Hce |- * by done.
  assert (Z.to_nat ss <= length c)%nat as Hle
    by (pose proof (len_nonneg (lit "children = (")); unfold len in *; lia).
  destruct (found_first (lit ");") c (Z.to_nat ss) _ close_nonempty Hle eq_refl Hce)
    as (mid & rest & Hd & Hj & Hfirst).
  rewrite Hq in Hd.
  destruct (found_after_prefix _ _ _ _ _ RPAREN Hd close_head children_opening_no_close)
    as (members & -> & Hq').
  rewrite Hj.
  assert (c = (take (Z.to_nat ss) c ++ lit "children = (" ++ members) ++ lit ");" ++ rest)
    as Hc.
  { rewrite <- (take_drop (Z.to_nat ss) c) at 1. rewrite Hq, Hq'. by rewrite <- !app_assoc. }
  revert Hb Hol Hc. generalize (take (Z.to_nat ss) c). intros before Hb Hol Hc.
  exists before, members, rest.
  split; [rewrite Hc; by rewrite <- !app_assoc|]. split; [exact Hol|].
  split; [exact Hfirst|].
  replace (Z.of_nat (Z.to_nat ss + length (lit "children = (" ++ members)))
    with (len (before ++ lit "children = (" ++ members))
    by (unfold len in *; rewrite !length_app; lia).
  rewrite Hc at 1. rewrite splice_at_len. by rewrite <- !app_assoc.
Qed.

Lemma content_view_nonempty : content_view <> [].
Proof. discriminate. Qed.

Lemma services_marker_nonempty : services_marker <> [].
Proof. discriminate. Qed.

(** Where the first occurrence of a marker is. *)
Lemma first_occurrence (sub c : str) :
  sub <> [] -> find sub c 0 <> (-1)%Z ->
  exists pre post : str,
    c = pre ++ sub ++ post /\ first_in sub pre /\ find sub c 0 = len pre.
Proof.
  intros Hne H.
  destruct (found_first sub c 0 _ Hne ltac:(lia) eq_refl H) as (pre & post & Hc & Hj & Hf).
  rewrite drop_0 in Hc. exists pre, post. split; [exact Hc|]. split; [exact Hf|].
  change (Z.of_nat 0) with 0%Z in Hj. rewrite Hj. unfold len. f_equal.
Qed.

(** The group sub-insertion of the first two scripts appends to the
    children list opened last before the first [ContentView.swift]. *)
Lemma group_appended_last (r n c : str) :
  group_located c ->
  appended_near_anchor content_view 0 (new_child r n) c (add_to_NaviGPT_group r n c).
Proof.
  intros H. destruct (proj1 (group_located_eq c) H) as (H1 & H2 & H3).
  rewrite add_to_NaviGPT_group_eq.
  apply Z.eqb_neq in H1 as H1'. rewrite H1'. cbn [negb].
  destruct (first_occurrence content_view c content_view_nonempty H1)
    as (pre & post & Hc & Hf & Hpos).
  exists pre, post. split; [exact Hc|]. split; [exact Hf|].
  rewrite Z.add_0_r, <- Hpos. unfold children_opening, list_closing in *.
  apply child_appended_last; [|exact H2 | exact H3].
  rewrite Hpos. apply len_nonneg.
Qed.

(** The group sub-insertion of the third script appends to the children
    list opened last among those whose opening ends within 100 characters
    after the start of the first [/* Services */]. *)
Lemma services_appended_last (r n c : str) :
  services_located c ->
  appended_near_anchor services_marker 100 (new_child r n) c (add_to_Services_group r n c).
Proof.
  unfold services_located. cbv zeta. intros (Hm & Hss & Hce).
  rewrite add_to_Services_group_resolution.
  assert (contains (lit "/* Services */") c = true) as ->.
  { unfold contains. apply negb_true_iff, Z.eqb_neq. exact Hm. }
  destruct (first_occurrence services_marker c services_marker_nonempty Hm)
    as (pre & post & Hc & Hf & Hpos).
  exists pre, post. split; [exact Hc|]. split; [exact Hf|].
  unfold services_marker in Hpos, Hss, Hce |- *. rewrite <- Hpos.
  apply child_appended_last; [|exact Hss | exact Hce].
  rewrite Hpos. pose proof (len_nonneg pre). lia.
Qed.

(** ** The lists the memberships are appended to *)

Lemma navigpt_sources_nonempty : navigpt_sources <> [].
Proof. discriminate. Qed.

Lemma navigpttests_sources_nonempty : navigpttests_sources <> [].
Proof. discriminate. Qed.

Lemma sources_marker_nonempty : lit "/* Sources */ = {" <> [].
Proof. discriminate. Qed.

(** X13. Four-way coupling for the requests of the test target. A request
    of the second loop of [add_phase_files_to_xcode.py] that is no
    duplicate and all of whose lookups succeed draws two identifiers and
    has one build-file line and one file-reference line inserted. When its
    display name contains [Phase2Tests], its file-reference identifier is
    appended to the first children list opened at or after the first
    occurrence of the [Intern1Tests] marker; otherwise to the children list
    opened last before the first occurrence of [ContentView.swift]. Its
    build-file identifier is appended to the first files list opened at or
    after the first occurrence of the marker of the test target's Sources
    phase. In each case the membership stands just before the first
    closing that follows the opening of the list. Unlike the first loop,
    this loop records nothing in [file_uuids]. *)
Theorem test_target_coupling (rnd : nat -> N) (e : env) (f : str * str) :
  let n := snd f in
  let r := generate_uuid (rnd (draws e)) in
  let b := generate_uuid (rnd (S (draws e))) in
  let c1 := add_to_PBXBuildFile_section b r n (content e) in
  let c2 := add_to_PBXFileReference_section r n c1 in
  let c3 := if contains (lit "Phase2Tests") n
            then add_to_Intern1Tests_group r n c2
            else add_to_NaviGPT_group r n c2 in
  let e' := AddPhaseFiles.add_test_target_file rnd e f in
  contains n (content e) = false ->
  (if contains (lit "Phase2Tests") n then intern1tests_located c2 else group_located c2) ->
  sources_located navigpttests_sources c3 ->
  file_uuids e' = file_uuids e
  /\ draws e' = S (S (draws e))
  /\ inserted (new_build_file b r n) (content e) c1
  /\ inserted (new_file_ref r n) c1 c2
  /\ (if contains (lit "Phase2Tests") n
      then appended_to_first_list intern1tests_group (lit "children = (")
             (new_child r n) c2 c3
      else appended_near_anchor content_view 0 (new_child r n) c2 c3)
  /\ appended_to_first_list navigpttests_sources (lit "files = (")
       (new_source b n) c3 (content e').
Proof.
  intros n r b c1 c2 c3 e' Hc Hg Hs.
  destruct (add_test_target_file_content rnd e f Hc) as (He' & Hu & Hd).
  fold n r b c1 c2 c3 e' in He', Hu, Hd.
  split; [exact Hu|]. split; [exact Hd|].
  split; [apply splice_inserted|]. split; [apply splice_inserted|].
  split.
  - subst c3. destruct (contains (lit "Phase2Tests") n).
    + exact (intern1_child_appended_first r n c2 Hg).
    + exact (group_appended_last r n c2 Hg).
  - rewrite He'.
    exact (source_appended_first _ b n c3 navigpttests_sources_nonempty
             navigpttests_sources_no_f Hs).
Qed.

(** The hypotheses of X13 hold of the first request of the second loop on
    [tests_project]. *)
Lemma test_target_coupling_witness :
  contains (snd phase2_tests) (content tests_env) = false
  /\ intern1tests_located tests_entries
  /\ sources_located navigpttests_sources tests_member
  /\ file_uuids (AddPhaseFiles.add_test_target_file sample_urandom tests_env phase2_tests)
     = file_uuids tests_env
  /\ appended_to_first_list intern1tests_group (lit "children = (")
       (new_child (generate_uuid (sample_urandom 0)) (snd phase2_tests))
       tests_entries tests_member
  /\ appended_to_first_list navigpttests_sources (lit "files = (")
       (new_source (generate_uuid (sample_urandom 1)) (snd phase2_tests))
       tests_member
       (content (AddPhaseFiles.add_test_target_file sample_urandom tests_env phase2_tests)).
Proof.
  assert (contains (snd phase2_tests) (content tests_env) = false) as H1
    by (vm_compute; reflexivity).
  assert (intern1tests_located tests_entries) as H2
    by (vm_compute; repeat split; discriminate).
  assert (sources_located navigpttests_sources tests_member) as H3
    by (vm_compute; repeat split; discriminate).
  pose proof (test_target_coupling sample_urandom tests_env phase2_tests H1 H2 H3)
    as (Hu & _ & _ & _ & Hg & Hs).
  split; [exact H1|]. split; [exact H2|]. split; [exact H3|]. split; [exact Hu|].
  split; [exact Hg | exact Hs].
Defined.

(** X15. Four-way coupling for the requests of
    [add_phase3_files_to_xcode.py]. A request that is no duplicate and all
    of whose lookups succeed has its two identifiers drawn and recorded and
    one build-file line and one file-reference line inserted. Its
    file-reference identifier is appended to the children list opened last
    among those whose opening ends within 100 characters after the start
    of the first [/* Services */] marker. Its build-file identifier is
    appended to the first files list opened at or after the first
    occurrence of the marker of the main target's Sources phase. In each
    case the membership stands just before the first closing that follows
    the opening of the list. *)
Theorem phase3_coupling (rnd : nat -> N) (e : env) (f : str * str) :
  let n := snd f in
  let r := generate_uuid (rnd (draws e)) in
  let b := generate_uuid (rnd (S (draws e))) in
  let c1 := add_to_PBXBuildFile_section b r n (content e) in
  let c2 := add_to_PBXFileReference_section r n c1 in
  let c3 := add_to_Services_group r n c2 in
  let e' := AddPhase3Files.add_main_target_file rnd e f in
  contains n (content e) = false ->
  services_located c2 ->
  sources_located navigpt_sources c3 ->
  file_uuids e' !! n = Some (r, b, fst f)
  /\ inserted (new_build_file b r n) (content e) c1
  /\ inserted (new_file_ref r n) c1 c2
  /\ appended_near_anchor services_marker 100 (new_child r n) c2 c3
  /\ appended_to_first_list navigpt_sources (lit "files = (")
       (new_source b n) c3 (content e').
Proof.
  intros n r b c1 c2 c3 e' Hc Hg Hs.
  destruct (add_phase3_main_target_file_content rnd e f Hc) as (He' & Hu).
  fold n r b c1 c2 c3 e' in He', Hu.
  split; [rewrite Hu; apply lookup_insert_eq|].
  split; [apply splice_inserted|]. split; [apply splice_inserted|].
  split; [exact (services_appended_last r n c2 Hg)|].
  rewrite He'.
  exact (source_appended_first _ b n c3 navigpt_sources_nonempty navigpt_sources_no_f Hs).
Qed.

(** The hypotheses of X15 hold of the first request on
    [services_project]. *)
Lemma phase3_coupling_witness :
  contains (snd camera_processor) (content services_env) = false
  /\ services_located services_entries
  /\ sources_located navigpt_sources services_member
  /\ appended_near_anchor services_marker 100
       (new_child (generate_uuid (sample_urandom 0)) (snd camera_processor))
       services_entries services_member
  /\ appended_to_first_list navigpt_sources (lit "files = (")
       (new_source (generate_uuid (sample_urandom 1)) (snd camera_processor))
       services_member
       (content (AddPhase3Files.add_main_target_file sample_urandom services_env
                   camera_processor)).
Proof.
  assert (contains (snd camera_processor) (content services_env) = false) as H1
    by (vm_compute; reflexivity).
  assert (services_located services_entries) as H2
    by (vm_compute; repeat split; discriminate).
  assert (sources_located navigpt_sources services_member) as H3
    by (vm_compute; repeat split; discriminate).
  pose proof (phase3_coupling sample_urandom services_env camera_processor H1 H2 H3)
    as (_ & _ & _ & Hg & Hs).
  split; [exact H1|]. split; [exact H2|]. split; [exact H3|].
  split; [exact Hg | exact Hs].
Defined.

(** X21. Four-way coupling for the requests of the main loop of
    [add_phase_files_to_xcode.py] and for the request of
    [add_to_xcode.py]. The records of a registration cross-reference each
    other by construction. A request that is no duplicate and all of whose
    group and target lookups succeed has one build-file line and one
    file-reference line inserted, its file-reference identifier appended
    to the children list opened last before the first occurrence of
    [ContentView.swift], and its build-file identifier appended to the
    first files list opened at or after the first occurrence of the marker
    the script looks for, [E1F569CB2C501D880010BF96 /* Sources */] for the
    batch script and [/* Sources */ = {] for [add_to_xcode.py]. In each
    case the membership stands just before the first closing that follows
    the opening of the list. The batch script records the two identifiers
    in [file_uuids]. *)
Theorem main_target_coupling (rnd : nat -> N) (e : env) (f : str * str) (on_disk : str) :
  (forall b r n : str, cross_referenced b r n)
  /\ (let n := snd f in
      let r := generate_uuid (rnd (draws e)) in
      let b := generate_uuid (rnd (S (draws e))) in
      let c1 := add_to_PBXBuildFile_section b r n (content e) in
      let c2 := add_to_PBXFileReference_section r n c1 in
      let c3 := add_to_NaviGPT_group r n c2 in
      let e' := AddPhaseFiles.add_main_target_file rnd e f in
      contains n (content e) = false ->
      group_located c2 ->
      sources_located navigpt_sources c3 ->
      file_uuids e' !! n = Some (r, b, fst f)
      /\ inserted (new_build_file b r n) (content e) c1
      /\ inserted (new_file_ref r n) c1 c2
      /\ appended_near_anchor content_view 0 (new_child r n) c2 c3
      /\ appended_to_first_list navigpt_sources (lit "files = (")
           (new_source b n) c3 (content e'))
  /\ (let n := AddToXcode.file_name in
      let r := generate_uuid (rnd 0) in
      let b := generate_uuid (rnd 1) in
      let c1 := add_to_PBXBuildFile_section b r n on_disk in
      let c2 := add_to_PBXFileReference_section r n c1 in
      let c3 := add_to_NaviGPT_group r n c2 in
      contains (lit "/* Begin PBXBuildFile section */") on_disk = true ->
      contains (lit "/* Begin PBXFileReference section */") on_disk = true ->
      group_located c2 ->
      sources_located (lit "/* Sources */ = {") c3 ->
      exists w,
        written (AddToXcode.main rnd (Some on_disk)) = Some w
        /\ inserted (new_build_file b r n) on_disk c1
        /\ inserted (new_file_ref r n) c1 c2
        /\ appended_near_anchor content_view 0 (new_child r n) c2 c3
        /\ appended_to_first_list (lit "/* Sources */ = {") (lit "files = (")
             (new_source b n) c3 w).
Proof.
  split; [exact records_cross_referenced|]. split.
  - intros n r b c1 c2 c3 e' Hc Hg Hs.
    assert (content e' = add_to_PBXSourcesBuildPhase navigpt_sources b n c3) as He'.
    { subst e'. unfold AddPhaseFiles.add_main_target_file.
      cbn [content print]. fold n. rewrite Hc. reflexivity. }
    assert (file_uuids e' = <[n := (r, b, fst f)]> (file_uuids e)) as Hu.
    { subst e'. unfold AddPhaseFiles.add_main_target_file.
      cbn [content print]. fold n. rewrite Hc. reflexivity. }
    split; [rewrite Hu; apply lookup_insert_eq|].
    split; [apply splice_inserted|]. split; [apply splice_inserted|].
    split; [exact (group_appended_last r n c2 Hg)|].
    rewrite He'.
    exact (source_appended_first _ b n c3 navigpt_sources_nonempty navigpt_sources_no_f Hs).
  - intros n r b c1 c2 c3 H1 H2 Hg Hs.
    exists (add_to_PBXSourcesBuildPhase (lit "/* Sources */ = {") b n c3).
    split; [exact (add_file_manually_written rnd on_disk H1 H2 Hs)|].
    split; [apply splice_inserted|]. split; [apply splice_inserted|].
    split; [exact (group_appended_last r n c2 Hg)|].
    exact (source_appended_first _ b n c3 sources_marker_nonempty sources_marker_no_f Hs).
Qed.

(** The hypotheses of X21 hold on [grouped_project], of the first request
    of the main loop and of the request of [add_to_xcode.py]. *)
Lemma main_target_coupling_witness :
  (contains (snd config_manager) (content grouped_env) = false
   /\ group_located grouped_entries
   /\ sources_located navigpt_sources grouped_member
   /\ file_uuids (AddPhaseFiles.add_main_target_file sample_urandom grouped_env
                    config_manager) !! snd config_manager
      = Some (grouped_ref_uuid, grouped_build_uuid, fst config_manager)
   /\ appended_near_anchor content_view 0
        (new_child grouped_ref_uuid (snd config_manager)) grouped_entries grouped_member)
  /\ (contains (lit "/* Begin PBXBuildFile section */") grouped_project = true
      /\ contains (lit "/* Begin PBXFileReference section */") grouped_project = true
      /\ group_located manual_entries
      /\ sources_located (lit "/* Sources */ = {") manual_member
      /\ exists w,
           written (AddToXcode.main sample_urandom (Some grouped_project)) = Some w
           /\ appended_to_first_list (lit "/* Sources */ = {") (lit "files = (")
                (new_source manual_build_uuid AddToXcode.file_name) manual_member w).
Proof.
  assert (contains (snd config_manager) (content grouped_env) = false) as H1
    by (vm_compute; reflexivity).
  assert (group_located grouped_entries) as H2
    by (vm_compute; repeat split; discriminate).
  assert (sources_located navigpt_sources grouped_member) as H3
    by (vm_compute; repeat split; discriminate).
  assert (contains (lit "/* Begin PBXBuildFile section */") grouped_project = true) as M1
    by (vm_compute; reflexivity).
  assert (contains (lit "/* Begin PBXFileReference section */") grouped_project = true)
    as M2 by (vm_compute; reflexivity).
  assert (group_located manual_entries) as M3
    by (vm_compute; repeat split; discriminate).
  assert (sources_located (lit "/* Sources */ = {") manual_member) as M4
    by (vm_compute; repeat split; discriminate).
  pose proof (main_target_coupling sample_urandom grouped_env config_manager grouped_project)
    as (_ & Hbatch & Hmanual).
  specialize (Hbatch H1 H2 H3). specialize (Hmanual M1 M2 M3 M4).
  split.
  - split; [exact H1|]. split; [exact H2|]. split; [exact H3|].
    split; [exact (proj1 Hbatch) | exact (proj1 (proj2 (proj2 (proj2 Hbatch))))].
  - split; [exact M1|]. split; [exact M2|]. split; [exact M3|]. split; [exact M4|].
    destruct Hmanual as (w & Hw & _ & _ & _ & Ha).
    exists w. split; [exact Hw | exact Ha].
Defined.

(** * The claims on unregistering and on the memberships *)

Lemma contains_nil (s : str) : contains [] s = true.
Proof. apply contains_occurs. by exists [], s. Qed.

Lemma unregister_empty_name (d : str) : RemoveRefs.unregister [] d = [].
Proof.
  unfold RemoveRefs.unregister. rewrite new_lines_spec.
  assert (forall ls : list str,
            filter (fun line => contains [] line = false) ls = []) as H.
  { induction ls as [|l ls IH]; [done|]. rewrite filter_cons.
    destruct (decide (contains [] l = false)) as [E|_]; [|exact IH].
    by rewrite contains_nil in E. }
  by rewrite H.
Qed.

Lemma unregister_lines_free (name d line : str) :
  name <> [] -> line ∈ split NL (RemoveRefs.unregister name d) ->
  contains name line = false.
Proof.
  intros Hname Hline. unfold RemoveRefs.unregister in Hline.
  destruct (RemoveRefs.new_lines name d) as [|l ls] eqn:E.
  - simpl in Hline. apply list_elem_of_singleton in Hline as ->.
    by apply contains_nil_false.
  - rewrite split_join in Hline; [|done|rewrite <- E; apply new_lines_no_sep].
    rewrite <- E, new_lines_spec in Hline.
    by apply list_elem_of_filter in Hline as [? _].
Qed.

(** C5. Whatever the manifest, no line of the text [remove_refs.py] writes
    back contains the display name, [NaviGPTCore.swift], as a substring.
    The name is fixed in the script; were it another one, the same would
    hold of every name, the empty one apart, for which every line is
    dropped and the text written back is empty. *)
Theorem unregister_removes_every_mention (name on_disk : str) :
  (exists w : str,
     written (RemoveRefs.main (Some on_disk)) = Some w
     /\ forall line, line ∈ split NL w ->
          contains core_name line = false /\ ~ occurs core_name line)
  /\ ((name = [] /\ RemoveRefs.unregister name on_disk = [])
      \/ forall line, line ∈ split NL (RemoveRefs.unregister name on_disk) ->
           contains name line = false /\ ~ occurs name line).
Proof.
  split.
  - exists (RemoveRefs.unregister core_name on_disk).
    split; [apply remove_refs_written|]. intros line Hline.
    rewrite <- contains_false.
    enough (contains core_name line = false) by done.
    exact (unregister_lines_free core_name on_disk line core_name_nonempty Hline).
  - destruct name as [|c name]; [left; split; [done | apply unregister_empty_name]|].
    right. intros line Hline. rewrite <- contains_false.
    enough (contains (c :: name) line = false) by done.
    by apply (unregister_lines_free (c :: name) on_disk line).
Qed.

(** C2. The code at the failing input [xcode_ordered_project], a manifest
    with its sections in the order Xcode writes them. The first request of
    the main loop is no duplicate, is processed and reported as added, and
    its four records are inserted; the target membership is appended to
    the files list of the Resources phase, and the files list of the
    Sources phase of the target stays empty. *)
Lemma target_membership_misses_the_target :
  contains (snd config_manager) (content ordered_env) = false
  /\ stdout ordered_after
     = stdout ordered_env ++ [processing_msg (snd config_manager);
                              added_msg (snd config_manager)]
  /\ content ordered_env
     = ordered_part1 ++ ordered_part2 ++ ordered_part3 ++ ordered_part4 ++ ordered_part5
  /\ content ordered_after
     = ordered_part1
       ++ new_build_file grouped_build_uuid grouped_ref_uuid (snd config_manager)
       ++ ordered_part2 ++ new_file_ref grouped_ref_uuid (snd config_manager)
       ++ ordered_part3 ++ new_child grouped_ref_uuid (snd config_manager)
       ++ ordered_part4 ++ new_source grouped_build_uuid (snd config_manager)
       ++ ordered_part5.
Proof. vm_compute. repeat split. Qed.













